(** * dc-server: order policy, status transitions and notification fan-out

    A shallow embedding of the Express routes (src/routes/orders.ts,
    src/routes/history.ts, src/routes/auth.ts, src/middleware/auth.ts) and of
    the tables, constraints and triggers of database/setup.sql and the
    migrations, with the properties of the order slice proved about them.

    Conventions.
    - A request body is a finite map from field names to JSON values; an
      absent key is JavaScript's [undefined].  Field values are the ones the
      interfaces of src/types/database.ts declare: a string or [null].
    - A table keyed by its primary key is a [gmap]; a column is an
      [option string] ([None] is SQL NULL), NOT NULL and CHECK being
      constraints the store evaluates on every write.
    - What the store's [uuid], [date] and [timestamptz] types accept as
      literals, NOW() and gen_random_uuid() are not part of the repository:
      they are fields of the environment [Env] of a request. *)

From stdpp Require Import base option list gmap strings pretty.
From Stdlib Require Import String Ascii.


(** ** JavaScript values *)

Inductive jsval :=
  | JNull
  | JStr (s : string).

Global Instance jsval_eq_dec : EqDecision jsval.
Proof. solve_decision. Defined.

(** [!!v] for a field read off an object: undefined, null and the empty
    string are falsy. *)
Definition truthy (v : option jsval) : bool :=
  match v with
  | Some (JStr s) => negb (bool_decide (s = EmptyString))
  | _ => false
  end.

(** [v || null] *)
Definition or_null (v : option jsval) : jsval :=
  match v with
  | Some w => if truthy v then w else JNull
  | None => JNull
  end.

(** [v || d] for a string literal [d] *)
Definition or_else (v : option jsval) (d : string) : jsval :=
  match v with
  | Some w => if truthy v then w else JStr d
  | None => JStr d
  end.

(** [v ?? null] *)
Definition nullish_null (v : option jsval) : jsval :=
  match v with
  | Some w => w
  | None => JNull
  end.

(** The SQL value a JSON value is stored as. *)
Definition sql_of (v : jsval) : option string :=
  match v with
  | JNull => None
  | JStr s => Some s
  end.

(** Truthiness of a column read back from a row. *)
Definition truthy_col (c : option string) : bool :=
  match c with
  | Some s => negb (bool_decide (s = EmptyString))
  | None => false
  end.

(** A column interpolated into a template literal. *)
Definition interpolate (c : option string) : string := default "null" c.

(** [s.toUpperCase()].  Letters a-z are mapped to A-Z; the other
    characters are left as they are, which is what JavaScript does on the
    ASCII range, and the only strings the routes upper-case are statuses
    the store has accepted. *)
Definition upper_ascii (c : ascii) : ascii :=
  let n := nat_of_ascii c in
  if (97 <=? n)%nat && (n <=? 122)%nat then ascii_of_nat (n - 32) else c.

Fixpoint toUpperCase (s : string) : string :=
  match s with
  | EmptyString => EmptyString
  | String c r => String (upper_ascii c) (toUpperCase r)
  end.

(** [s.includes(t)] *)
Definition includes (s t : string) : bool :=
  match index 0 t s with
  | Some _ => true
  | None => false
  end.

(** ** Errors of the store *)

Record PgError := { code : string; message : string }.

Definition err_no_rows : PgError :=
  {| code := "PGRST116";
     message := "JSON object requested, multiple (or no) rows returned" |}.
Definition err_invalid_uuid : PgError :=
  {| code := "22P02"; message := "invalid input syntax for type uuid" |}.
Definition err_invalid_datetime : PgError :=
  {| code := "22007"; message := "invalid input syntax for type date or timestamp" |}.
Definition err_not_null (col : string) : PgError :=
  {| code := "23502";
     message := "null value in column " +:+ col +:+ " violates not-null constraint" |}.
Definition err_check (table : string) : PgError :=
  {| code := "23514";
     message := "new row for relation " +:+ table +:+ " violates check constraint" |}.
Definition err_foreign_key (table : string) : PgError :=
  {| code := "23503";
     message := "insert or update on table " +:+ table +:+ " violates foreign key constraint" |}.
Definition err_unique (table : string) : PgError :=
  {| code := "23505";
     message := "duplicate key value violates unique constraint on " +:+ table |}.

(** What a call of the fan-out to the store may do instead of answering:
    answer with an error object, or throw. *)
Inductive fault :=
  | ReturnsError (e : PgError)
  | Throws (msg : string).

(** ** Rows (database/setup.sql, migrations) *)

Module Profiles.
Record row := mk {
  username : option string;
  role : option string;
  password_hash : option string;
  created_at : string;
  updated_at : string }.
End Profiles.

Module AuthUsers.
(** auth.users, with the two keys of raw_user_meta_data the trigger reads *)
Record row := mk {
  email : string;
  meta_username : option string;
  meta_role : option string }.
End AuthUsers.

Module Orders.
Record row := mk {
  id : string;
  customer_name : option string;
  order_details : option string;
  location : option string;
  phone_number : option string;
  pickup_date : option string;
  meta_business_link : option string;
  image : option string;
  status : option string;
  created_at : string;
  completed_at : option string;
  created_by : option string;
  updated_at : string }.

Definition set_completed_at (v : option string) (r : row) : row :=
  mk (id r) (customer_name r) (order_details r) (location r) (phone_number r)
     (pickup_date r) (meta_business_link r) (image r) (status r)
     (created_at r) v (created_by r) (updated_at r).

Definition set_updated_at (v : string) (r : row) : row :=
  mk (id r) (customer_name r) (order_details r) (location r) (phone_number r)
     (pickup_date r) (meta_business_link r) (image r) (status r)
     (created_at r) (completed_at r) (created_by r) v.
End Orders.

Module Notifications.
(** The [id] column, generated by the store and read by none of the
    routes modelled here, is left out. *)
Record row := mk {
  user_id : option string;
  title : option string;
  message : option string;
  type : option string;
  order_id : option string;
  read : bool;
  created_at : string }.
End Notifications.

Module History.
Record row := mk {
  id : string;
  order_id : option string;
  user_id : option string;
  event_type : option string;
  old_status : option string;
  new_status : option string;
  note : option string;
  created_at : string }.
End History.

Global Instance order_row_eq_dec : EqDecision Orders.row.
Proof. solve_decision. Defined.
Global Instance notification_row_eq_dec : EqDecision Notifications.row.
Proof. solve_decision. Defined.

(** ** The store and the environment of a request *)

Record Store := {
  sessions : gmap string string;          (* access token -> identity id *)
  auth_users : gmap string AuthUsers.row;
  user_profiles : gmap string Profiles.row;
  orders : gmap string Orders.row;
  notifications : list Notifications.row;
  order_history : gmap string History.row }.

Definition with_orders (t : gmap string Orders.row) (st : Store) : Store :=
  {| sessions := sessions st; auth_users := auth_users st;
     user_profiles := user_profiles st; orders := t;
     notifications := notifications st; order_history := order_history st |}.

Definition with_notifications (t : list Notifications.row) (st : Store) : Store :=
  {| sessions := sessions st; auth_users := auth_users st;
     user_profiles := user_profiles st; orders := orders st;
     notifications := t; order_history := order_history st |}.

Definition with_order_history (t : gmap string History.row) (st : Store) : Store :=
  {| sessions := sessions st; auth_users := auth_users st;
     user_profiles := user_profiles st; orders := orders st;
     notifications := notifications st; order_history := t |}.

Definition with_users (a : gmap string AuthUsers.row)
    (p : gmap string Profiles.row) (st : Store) : Store :=
  {| sessions := sessions st; auth_users := a;
     user_profiles := p; orders := orders st;
     notifications := notifications st; order_history := order_history st |}.

Record Env := {
  (** src/config/supabase.ts: [supabaseAdmin] is null when the service
      role key is not configured *)
  supabaseAdmin : bool;
  (** literals accepted by the column types uuid, date, timestamptz *)
  uuid_in : string → bool;
  date_in : string → bool;
  timestamptz_in : string → bool;
  (** NOW() and gen_random_uuid() during this request *)
  NOW : string;
  gen_random_uuid : string;
  (** the fan-out's two calls to the store *)
  admins_select_fault : option fault;
  notifications_insert_fault : option fault;
  (** whether row-level security lets a statement of the anon-key client
      through (it depends on the session the shared client holds) *)
  anon_select_visible : bool;
  anon_update_applies : bool;
  anon_uid : option string;              (* auth.uid() of that client *)
  (** the identity provider: which (email, password) it accepts for a new
      identity, how many calls in a row fail at the network before one
      gets through, and the salted hash bcrypt produces *)
  provider_accepts : string → string → bool;
  network_failures : nat;
  bcrypt_hash : string → string }.

(** ** SQL expressions of the triggers: three-valued logic *)

Definition sql_eq (a : option string) (b : string) : option bool :=
  (λ x, bool_decide (x = b)) <$> a.

Definition sql_ne (a : option string) (b : string) : option bool :=
  negb <$> sql_eq a b.

Definition sql_and (a b : option bool) : option bool :=
  match a, b with
  | Some false, _ | _, Some false => Some false
  | Some true, Some true => Some true
  | _, _ => None
  end.

(** IF and WHEN take a NULL condition as not satisfied. *)
Definition sql_holds (c : option bool) : bool := default false c.

Definition is_distinct_from (a b : option string) : bool :=
  negb (bool_decide (a = b)).

(** ** Table orders: constraints and triggers (setup.sql, section 4) *)

Definition order_statuses : list string :=
  ["incoming"; "accepted"; "declined"; "pending"; "completed"].

(** [public.handle_order_completion()] *)
Definition handle_order_completion (now : string) (OLD NEW : Orders.row) : Orders.row :=
  if sql_holds (sql_and (sql_eq (Orders.status NEW) "completed")
                        (sql_ne (Orders.status OLD) "completed"))
  then Orders.set_completed_at (Some now) NEW
  else if sql_holds (sql_ne (Orders.status NEW) "completed")
  then Orders.set_completed_at None NEW
  else NEW.

(** [public.update_updated_at_column()] on orders *)
Definition update_updated_at_column (now : string) (NEW : Orders.row) : Orders.row :=
  Orders.set_updated_at now NEW.

(** The BEFORE UPDATE triggers of orders, in the order the store fires
    them (by name): [on_order_status_change], guarded by its WHEN clause,
    then [update_orders_updated_at]. *)
Definition orders_before_update (now : string) (OLD NEW : Orders.row) : Orders.row :=
  let NEW :=
    if is_distinct_from (Orders.status OLD) (Orders.status NEW)
    then handle_order_completion now OLD NEW
    else NEW in
  update_updated_at_column now NEW.

(** NOT NULL and CHECK of the table. *)
Definition orders_constraints (r : Orders.row) : option PgError :=
  match Orders.customer_name r, Orders.order_details r, Orders.status r with
  | None, _, _ => Some (err_not_null "customer_name")
  | _, None, _ => Some (err_not_null "order_details")
  | _, _, None => Some (err_not_null "status")
  | Some _, Some _, Some s =>
      if bool_decide (s ∈ order_statuses) then None else Some (err_check "orders")
  end.

(** A literal offered to a typed column: NULL always fits. *)
Definition fits (accepts : string → bool) (c : option string) : bool :=
  match c with
  | Some s => accepts s
  | None => true
  end.

Definition orders_types (env : Env) (r : Orders.row) : option PgError :=
  if fits (date_in env) (Orders.pickup_date r)
     && fits (timestamptz_in env) (Orders.completed_at r)
  then None else Some err_invalid_datetime.

(** [created_by UUID REFERENCES auth.users(id)] *)
Definition orders_foreign_keys (st : Store) (r : Orders.row) : option PgError :=
  match Orders.created_by r with
  | Some u => if bool_decide (is_Some (auth_users st !! u)) then None
              else Some (err_foreign_key "orders")
  | None => None
  end.

(** The value a column takes under [UPDATE ... SET] from a payload: the
    payload's when the key is there, the old one otherwise. *)
Definition set_col (k : string) (u : gmap string jsval) (old : option string) : option string :=
  match u !! k with
  | Some v => sql_of v
  | None => old
  end.

Definition orders_assign (u : gmap string jsval) (OLD : Orders.row) : Orders.row :=
  Orders.mk (Orders.id OLD)
    (set_col "customer_name" u (Orders.customer_name OLD))
    (set_col "order_details" u (Orders.order_details OLD))
    (set_col "location" u (Orders.location OLD))
    (set_col "phone_number" u (Orders.phone_number OLD))
    (set_col "pickup_date" u (Orders.pickup_date OLD))
    (set_col "meta_business_link" u (Orders.meta_business_link OLD))
    (set_col "image" u (Orders.image OLD))
    (set_col "status" u (Orders.status OLD))
    (Orders.created_at OLD)
    (set_col "completed_at" u (Orders.completed_at OLD))
    (Orders.created_by OLD)
    (Orders.updated_at OLD).

(** [from('orders').select('*').eq('id', id).single()] with the service
    role: row-level security does not apply. *)
Definition orders_select_single (env : Env) (id : string) (st : Store)
    : PgError + Orders.row :=
  if negb (uuid_in env id) then inl err_invalid_uuid
  else match orders st !! id with
       | Some r => inr r
       | None => inl err_no_rows
       end.

(** [from('orders').update(u).eq('id', id).select().single()] with the
    service role.  The row is looked up, the payload's literals for the
    typed columns parsed, the payload assigned, the BEFORE UPDATE triggers
    run, and the constraints checked on the row they leave; an error
    leaves the table as it was. *)
Definition orders_payload_types (env : Env) (u : gmap string jsval) : option PgError :=
  if fits (date_in env) (u !! "pickup_date" ≫= sql_of)
     && fits (timestamptz_in env) (u !! "completed_at" ≫= sql_of)
  then None else Some err_invalid_datetime.

Definition orders_update_row (env : Env) (u : gmap string jsval) (OLD : Orders.row)
    : PgError + Orders.row :=
  let NEW := orders_assign u OLD in
  match orders_payload_types env u with
  | Some e => inl e
  | None =>
      let NEW := orders_before_update (NOW env) OLD NEW in
      match orders_constraints NEW with
      | Some e => inl e
      | None => inr NEW
      end
  end.

Definition orders_update (env : Env) (u : gmap string jsval) (id : string) (st : Store)
    : Store * (PgError + Orders.row) :=
  match orders_select_single env id st with
  | inl e => (st, inl e)
  | inr OLD =>
      match orders_update_row env u OLD with
      | inl e => (st, inl e)
      | inr NEW => (with_orders (<[id := NEW]> (orders st)) st, inr NEW)
      end
  end.

(** [from('orders').insert(r).select().single()]: the defaults of the
    table fill [id], [created_at], [updated_at]; [completed_at] has no
    default and no trigger fires on INSERT. *)
Record OrderInsert := {
  ins_customer_name : option jsval;
  ins_order_details : option jsval;
  ins_location : jsval;
  ins_phone_number : jsval;
  ins_pickup_date : jsval;
  ins_meta_business_link : jsval;
  ins_image : jsval;
  ins_status : jsval;
  ins_created_by : string }.

Definition orders_new_row (env : Env) (d : OrderInsert) : Orders.row :=
  Orders.mk (gen_random_uuid env)
    (ins_customer_name d ≫= sql_of)
    (ins_order_details d ≫= sql_of)
    (sql_of (ins_location d))
    (sql_of (ins_phone_number d))
    (sql_of (ins_pickup_date d))
    (sql_of (ins_meta_business_link d))
    (sql_of (ins_image d))
    (sql_of (ins_status d))
    (NOW env)
    None
    (Some (ins_created_by d))
    (NOW env).

Definition orders_insert (env : Env) (d : OrderInsert) (st : Store)
    : Store * (PgError + Orders.row) :=
  let r := orders_new_row env d in
  if negb (uuid_in env (ins_created_by d)) then (st, inl err_invalid_uuid)
  else match orders_types env r with
  | Some e => (st, inl e)
  | None =>
    match orders_constraints r with
    | Some e => (st, inl e)
    | None =>
      match orders_foreign_keys st r with
      | Some e => (st, inl e)
      | None =>
        match orders st !! Orders.id r with
        | Some _ => (st, inl (err_unique "orders"))
        | None => (with_orders (<[Orders.id r := r]> (orders st)) st, inr r)
        end
      end
    end
  end.

(** [from('orders').delete().eq('id', id)]: no row is asked back, so that
    a statement matching no row is not an error.  The notifications and
    the history records of the order go with it: their [order_id] is
    declared [REFERENCES public.orders(id) ON DELETE CASCADE]. *)
Definition orders_delete (env : Env) (id : string) (st : Store)
    : Store * option PgError :=
  if negb (uuid_in env id) then (st, Some err_invalid_uuid)
  else
    ({| sessions := sessions st;
        auth_users := auth_users st;
        user_profiles := user_profiles st;
        orders := delete id (orders st);
        notifications :=
          filter (λ n, Notifications.order_id n ≠ Some id) (notifications st);
        order_history :=
          filter (λ ih, History.order_id ih.2 ≠ Some id) (order_history st) |},
     None).

(** ** Table notifications (migration create_notifications_table) *)

Definition notification_types : list string :=
  ["info"; "success"; "warning"; "error"; "order"].

Record NotificationInsert := {
  n_user_id : string;
  n_title : string;
  n_message : string;
  n_type : string;
  n_order_id : jsval }.

Definition notifications_new_row (env : Env) (n : NotificationInsert) : Notifications.row :=
  Notifications.mk (Some (n_user_id n)) (Some (n_title n)) (Some (n_message n))
    (Some (n_type n)) (sql_of (n_order_id n)) false (NOW env).

Definition notifications_check (env : Env) (st : Store) (n : NotificationInsert)
    : option PgError :=
  if negb (uuid_in env (n_user_id n) && fits (uuid_in env) (sql_of (n_order_id n)))
  then Some err_invalid_uuid
  else if negb (bool_decide (n_type n ∈ notification_types))
  then Some (err_check "notifications")
  else if negb (bool_decide (is_Some (auth_users st !! n_user_id n)))
  then Some (err_foreign_key "notifications")
  else match sql_of (n_order_id n) with
       | Some o => if bool_decide (is_Some (orders st !! o)) then None
                   else Some (err_foreign_key "notifications")
       | None => None
       end.

(** The first violation among the rows of a multi-row INSERT. *)
Fixpoint first_error {A} (check : A → option PgError) (l : list A) : option PgError :=
  match l with
  | [] => None
  | x :: r => match check x with
              | Some e => Some e
              | None => first_error check r
              end
  end.

(** [from('notifications').insert(rows)]: one statement, all rows or none. *)
Definition notifications_insert (env : Env) (rows : list NotificationInsert) (st : Store)
    : Store * option PgError :=
  match first_error (notifications_check env st) rows with
  | Some e => (st, Some e)
  | None =>
      (with_notifications (notifications st ++ map (notifications_new_row env) rows) st,
       None)
  end.

(** [from('user_profiles').select('id').eq('role', 'admin')] *)
Definition select_admin_ids (st : Store) : list string :=
  (filter (λ p, Profiles.role p.2 = Some "admin") (map_to_list (user_profiles st))).*1.

(** ** Requests and responses *)

Module ReqUser.
(** [req.user], set by [authenticate] *)
Record t := mk {
  id : string;
  email : option string;
  role : string }.
End ReqUser.

Record Request := {
  authorization : option string;       (* req.headers.authorization *)
  params_id : string;                  (* req.params.id *)
  body : gmap string jsval }.          (* req.body *)

Record Stats := {
  total : nat;
  incoming : nat;
  pending : nat;
  accepted : nat;
  declined : nat;
  completed : nat }.

Record UserJson := {
  uj_id : string;
  uj_email : option string;
  uj_username : option string;
  uj_role : option string }.

Inductive Json :=
  | ErrorJson (error : string) (details : option string)
  | MessageJson (message : string)
  | OrderJson (message : string) (order : Orders.row)
  | StatsJson (stats : Stats)
  | HistoryJson (message : string) (history : History.row)
  | RegisteredJson (message : string) (user : UserJson).

(** [res.status(n).json(j)] *)
Record Response := { http_status : nat; json : Json }.

Definition respond (n : nat) (j : Json) : Response :=
  {| http_status := n; json := j |}.

Definition config_error : Response :=
  respond 500 (ErrorJson "Server configuration error"
    (Some "Service role key not configured. Please contact administrator.")).

(** ** src/middleware/auth.ts *)

(** [supabase.auth.getUser(token)]: the identity the provider issued the
    token to, if it still exists. *)
Definition auth_getUser (token : string) (st : Store) : option (string * string) :=
  uid ← sessions st !! token;
  u ← auth_users st !! uid;
  Some (uid, AuthUsers.email u).

(** [supabaseAdmin.from('user_profiles').select('role').eq('id', id).single()] *)
Definition profiles_select_role (env : Env) (id : string) (st : Store)
    : PgError + option string :=
  if negb (uuid_in env id) then inl err_invalid_uuid
  else match user_profiles st !! id with
       | Some p => inr (Profiles.role p)
       | None => inl err_no_rows
       end.

Definition authenticate (env : Env) (req : Request) (st : Store) : Response + ReqUser.t :=
  match authorization req with
  | None =>
      inl (respond 401 (ErrorJson "Missing or invalid authorization header" None))
  | Some authHeader =>
      if negb (prefix "Bearer " authHeader)
      then inl (respond 401 (ErrorJson "Missing or invalid authorization header" None))
      else
        let token := substring 7 (String.length authHeader - 7) authHeader in
        match auth_getUser token st with
        | None => inl (respond 401 (ErrorJson "Invalid or expired token" None))
        | Some (uid, mail) =>
            if negb (supabaseAdmin env)
            then inl (respond 500
                   (ErrorJson "Server configuration error. Admin client not available." None))
            else
              match profiles_select_role env uid st with
              | inl profileError =>
                  if bool_decide (code profileError = "42P17")
                     || includes (message profileError) "infinite recursion"
                  then inl (respond 500
                         (ErrorJson "Database configuration error. RLS recursion detected."
                            (Some "Please run the SQL migration file: database/migrations/003_fix_user_profiles_rls_recursion.sql in your Supabase SQL Editor")))
                  else inr (ReqUser.mk uid (Some mail) "viewer")
              | inr r =>
                  inr (ReqUser.mk uid (Some mail)
                         (if truthy_col r then default "viewer" r else "viewer"))
              end
        end
  end.

(** [requireAdmin]: [None] stands for the call of [next()]. *)
Definition requireAdmin (user : option ReqUser.t) : option Response :=
  match user with
  | None => Some (respond 401 (ErrorJson "Authentication required" None))
  | Some u =>
      if negb (bool_decide (ReqUser.role u = "admin"))
      then Some (respond 403 (ErrorJson "Admin access required" None))
      else None
  end.

(** [router.METHOD(path, authenticate, handler)] *)
Definition authenticated (env : Env)
    (handler : Env → option ReqUser.t → Request → Store → Store * Response)
    (req : Request) (st : Store) : Store * Response :=
  match authenticate env req st with
  | inl r => (st, r)
  | inr u => handler env (Some u) req st
  end.

(** [router.METHOD(path, authenticate, requireAdmin, handler)] *)
Definition admin_only (env : Env)
    (handler : Env → option ReqUser.t → Request → Store → Store * Response)
    (req : Request) (st : Store) : Store * Response :=
  match authenticate env req st with
  | inl r => (st, r)
  | inr u =>
      match requireAdmin (Some u) with
      | Some r => (st, r)
      | None => handler env (Some u) req st
      end
  end.

(** ** src/routes/orders.ts *)

(** The string of a truthy field. *)
Definition truthy_str (v : option jsval) : option string :=
  match v with
  | Some (JStr s) => if bool_decide (s = EmptyString) then None else Some s
  | _ => None
  end.

(** [admin => ({ user_id: admin.id, title, message, type,
    order_id: orderId || null })] *)
Definition admin_notification (title message type : string) (orderId : option jsval)
    (admin : string) : NotificationInsert :=
  {| n_user_id := admin; n_title := title; n_message := message;
     n_type := type; n_order_id := or_null orderId |}.

Definition createNotificationForAdmins (env : Env)
    (title message type : string) (orderId : option jsval)
    (excludeUserId : option string) (st : Store) : Store :=
  if negb (supabaseAdmin env) then st
  else
    (* try *)
    match admins_select_fault env with
    | Some (Throws _) => st                  (* catch *)
    | Some (ReturnsError _) => st            (* adminError *)
    | None =>
        let admins := select_admin_ids st in
        if bool_decide (List.length admins = 0) then st
        else
          let adminsToNotify :=
            match excludeUserId with
            | Some x => if truthy_col (Some x)
                        then filter (λ a, a ≠ x) admins else admins
            | None => admins
            end in
          if bool_decide (List.length adminsToNotify = 0) then st
          else
            let notifications :=
              map (admin_notification title message type orderId) adminsToNotify in
            match notifications_insert_fault env with
            | Some (Throws _) => st          (* catch *)
            | Some (ReturnsError _) => st    (* notificationError *)
            | None => (notifications_insert env notifications st).1
            end
    end.

Definition copy_field (k : string) (b u : gmap string jsval) : gmap string jsval :=
  match b !! k with
  | Some v => <[k := v]> u
  | None => u
  end.

(** The object [updateData] of PUT /api/orders/:id. *)
Definition build_updateData (isAdmin : bool) (b : gmap string jsval) : gmap string jsval :=
  let u := copy_field "customer_name" b ∅ in
  let u := copy_field "order_details" b u in
  let u := copy_field "location" b u in
  let u := copy_field "phone_number" b u in
  let u := copy_field "pickup_date" b u in
  let u := copy_field "meta_business_link" b u in
  let u := copy_field "image" b u in
  let u := copy_field "status" b u in
  if isAdmin then copy_field "completed_at" b u else u.

Definition statusMessages : list (string * string) :=
  [("incoming", "Order moved to incoming");
   ("pending", "Order moved to pending");
   ("accepted", "Order moved to accepted");
   ("declined", "Order moved to declined");
   ("completed", "Order moved to completed")].

Definition statusMessage (newStatus : string) : string :=
  match (list_to_map statusMessages : gmap string string) !! newStatus with
  | Some m => m
  | None => "Order status changed to " +:+ newStatus
  end.

Definition moved_title (newStatus : string) : string :=
  "Order Moved: " +:+ toUpperCase newStatus.

Definition moved_message (order : Orders.row) (newStatus : string) : string :=
  "Order for " +:+ interpolate (Orders.customer_name order) +:+ " - "
  +:+ statusMessage newStatus +:+ ". "
  +:+ (if truthy_col (Orders.order_details order)
       then "Details: " +:+ interpolate (Orders.order_details order)
       else EmptyString).

Definition moved_type (newStatus : string) : string :=
  if bool_decide (newStatus = "completed") then "success"
  else if bool_decide (newStatus = "declined") then "warning"
  else "order".

(** [oldOrder?.status !== newStatus] *)
Definition status_differs (oldOrder : option Orders.row) (newStatus : string) : bool :=
  match oldOrder with
  | Some o => negb (bool_decide (Orders.status o = Some newStatus))
  | None => true
  end.

(** The notifications PUT /api/orders/:id sends after the store has
    returned the updated row [order]. *)
Definition notify_update (env : Env) (isAdmin : bool) (updateData : gmap string jsval)
    (oldOrder : option Orders.row) (order : Orders.row) (st : Store) : Store :=
  match truthy_str (updateData !! "status") with
  | Some newStatus =>
      if status_differs oldOrder newStatus
      then createNotificationForAdmins env
             (moved_title newStatus) (moved_message order newStatus)
             (moved_type newStatus) (Some (JStr (Orders.id order))) None st
      else st
  | None =>
      if isAdmin
      then createNotificationForAdmins env
             "Order Updated"
             ("Order for " +:+ interpolate (Orders.customer_name order)
              +:+ " has been updated")
             "info" (Some (JStr (Orders.id order))) None st
      else st
  end.

(** PUT /api/orders/:id *)
Definition put_order (env : Env) (user : option ReqUser.t) (req : Request) (st : Store)
    : Store * Response :=
  match user with
  | None => (st, respond 401 (ErrorJson "Not authenticated" None))
  | Some u =>
      let id := params_id req in
      let isAdmin := bool_decide (ReqUser.role u = "admin") in
      let updateData := build_updateData isAdmin (body req) in
      if bool_decide (size updateData = 0)
      then (st, respond 400 (ErrorJson "No fields to update" None))
      else if negb (supabaseAdmin env) then (st, config_error)
      else
        let oldOrder :=
          match orders_select_single env id st with
          | inr o => Some o
          | inl _ => None
          end in
        match orders_update env updateData id st with
        | (st, inl error) =>
            if bool_decide (code error = "PGRST116")
            then (st, respond 404 (ErrorJson "Order not found" None))
            else (st, respond 400
                        (ErrorJson "Failed to update order" (Some (message error))))
        | (st, inr order) =>
            (notify_update env isAdmin updateData oldOrder order st,
             respond 200 (OrderJson "Order updated successfully" order))
        end
  end.

(** POST /api/orders *)
Definition post_order (env : Env) (user : option ReqUser.t) (req : Request) (st : Store)
    : Store * Response :=
  match user with
  | None => (st, respond 401 (ErrorJson "Not authenticated" None))
  | Some u =>
      let b := body req in
      let orderData :=
        {| ins_customer_name := b !! "customer_name";
           ins_order_details := b !! "order_details";
           ins_location := or_null (b !! "location");
           ins_phone_number := or_null (b !! "phone_number");
           ins_pickup_date := or_null (b !! "pickup_date");
           ins_meta_business_link := or_null (b !! "meta_business_link");
           ins_image := or_null (b !! "image");
           ins_status := or_else (b !! "status") "incoming";
           ins_created_by := ReqUser.id u |} in
      if negb (truthy (ins_customer_name orderData))
         || negb (truthy (ins_order_details orderData))
      then (st, respond 400
                  (ErrorJson "customer_name and order_details are required" None))
      else if negb (supabaseAdmin env) then (st, config_error)
      else
        match orders_insert env orderData st with
        | (st, inl error) => (st, respond 400 (ErrorJson (message error) None))
        | (st, inr order) =>
            (st, respond 201 (OrderJson "Order created successfully" order))
        end
  end.

(** DELETE /api/orders/:id *)
Definition delete_order (env : Env) (user : option ReqUser.t) (req : Request) (st : Store)
    : Store * Response :=
  let id := params_id req in
  if negb (supabaseAdmin env) then (st, config_error)
  else
    match orders_delete env id st with
    | (st, Some error) => (st, respond 400 (ErrorJson (message error) None))
    | (st, None) => (st, respond 200 (MessageJson "Order deleted successfully"))
    end.

(** GET /api/orders/stats/summary.  The query goes through the anon-key
    client: the rows returned are the ones row-level security shows. *)
Definition orders_select_status (env : Env) (st : Store) : list (option string) :=
  if anon_select_visible env
  then Orders.status <$> (map_to_list (orders st)).*2
  else [].

Definition count_status (s : string) (rows : list (option string)) : nat :=
  List.length (filter (λ o, o = Some s) rows).

(** [orders] may be null: every [orders?.... || 0] is then 0. *)
Definition stats_of (orders : option (list (option string))) : Stats :=
  match orders with
  | None => {| total := 0; incoming := 0; pending := 0; accepted := 0;
               declined := 0; completed := 0 |}
  | Some rows =>
      {| total := List.length rows;
         incoming := count_status "incoming" rows;
         pending := count_status "pending" rows;
         accepted := count_status "accepted" rows;
         declined := count_status "declined" rows;
         completed := count_status "completed" rows |}
  end.

Definition get_stats_summary (env : Env) (user : option ReqUser.t) (req : Request)
    (st : Store) : Store * Response :=
  (st, respond 200 (StatsJson (stats_of (Some (orders_select_status env st))))).

(** The routes as the router mounts them. *)
Definition PUT_orders_id (env : Env) := authenticated env put_order.
Definition POST_orders (env : Env) := admin_only env post_order.
Definition DELETE_orders_id (env : Env) := admin_only env delete_order.
Definition GET_orders_stats_summary (env : Env) := authenticated env get_stats_summary.

(** ** Table order_history and src/routes/history.ts *)

Definition history_event_types : list string :=
  ["status_change"; "note"; "view"; "manual"].

(** The object [insertData] of POST /api/history. *)
Record HistoryInsert := {
  h_order_id : option jsval;
  h_user_id : string;
  h_event_type : option jsval;
  h_old_status : jsval;
  h_new_status : jsval;
  h_note : jsval }.

Definition order_history_new_row (env : Env) (d : HistoryInsert) : History.row :=
  History.mk (gen_random_uuid env)
    (h_order_id d ≫= sql_of)
    (Some (h_user_id d))
    (h_event_type d ≫= sql_of)
    (sql_of (h_old_status d))
    (sql_of (h_new_status d))
    (sql_of (h_note d))
    (NOW env).

Definition order_history_constraints (r : History.row) : option PgError :=
  match History.order_id r, History.event_type r with
  | None, _ => Some (err_not_null "order_id")
  | _, None => Some (err_not_null "event_type")
  | Some _, Some t =>
      if bool_decide (t ∈ history_event_types) then None
      else Some (err_check "order_history")
  end.

Definition order_history_foreign_keys (st : Store) (r : History.row) : option PgError :=
  if fits (λ o, bool_decide (is_Some (orders st !! o))) (History.order_id r)
     && fits (λ u, bool_decide (is_Some (auth_users st !! u))) (History.user_id r)
  then None else Some (err_foreign_key "order_history").

(** [supabaseAdmin.from('order_history').insert(d).select().single()] *)
Definition order_history_insert (env : Env) (d : HistoryInsert) (st : Store)
    : Store * (PgError + History.row) :=
  let r := order_history_new_row env d in
  if negb (fits (uuid_in env) (History.order_id r) && fits (uuid_in env) (History.user_id r))
  then (st, inl err_invalid_uuid)
  else match order_history_constraints r with
  | Some e => (st, inl e)
  | None =>
    match order_history_foreign_keys st r with
    | Some e => (st, inl e)
    | None =>
      match order_history st !! History.id r with
      | Some _ => (st, inl (err_unique "order_history"))
      | None =>
          (with_order_history (<[History.id r := r]> (order_history st)) st, inr r)
      end
    end
  end.

(** POST /api/history *)
Definition post_history (env : Env) (user : option ReqUser.t) (req : Request) (st : Store)
    : Store * Response :=
  match user with
  | None => (st, respond 401 (ErrorJson "Not authenticated" None))
  | Some u =>
      let b := body req in
      let order_id := b !! "order_id" in
      let event_type := b !! "event_type" in
      if negb (truthy order_id) || negb (truthy event_type)
      then (st, respond 400 (ErrorJson "order_id and event_type are required" None))
      else if negb (supabaseAdmin env) then (st, config_error)
      else
        let insertData :=
          {| h_order_id := order_id;
             h_user_id := ReqUser.id u;
             h_event_type := event_type;
             h_old_status := nullish_null (b !! "old_status");
             h_new_status := nullish_null (b !! "new_status");
             h_note := nullish_null (b !! "note") |} in
        match order_history_insert env insertData st with
        | (st, inl error) => (st, respond 400 (ErrorJson (message error) None))
        | (st, inr data) =>
            (st, respond 201 (HistoryJson "History record created successfully" data))
        end
  end.

Definition POST_history (env : Env) := admin_only env post_history.

(** ** Table user_profiles: constraints and triggers (setup.sql, 1-3) *)

Definition profile_roles : list string := ["viewer"; "admin"].

(** [public.handle_new_user()], AFTER INSERT ON auth.users: the profile
    it inserts. *)
Definition handle_new_user (now : string) (NEW : AuthUsers.row) : Profiles.row :=
  Profiles.mk
    (Some (default (AuthUsers.email NEW) (AuthUsers.meta_username NEW)))
    (Some (default "viewer" (AuthUsers.meta_role NEW)))
    None now now.

(** NOT NULL, CHECK and UNIQUE of user_profiles, for the row of key [id]. *)
Definition profiles_constraints (id : string) (r : Profiles.row)
    (t : gmap string Profiles.row) : option PgError :=
  match Profiles.username r, Profiles.role r with
  | None, _ => Some (err_not_null "username")
  | _, None => Some (err_not_null "role")
  | Some n, Some ro =>
      if negb (bool_decide (ro ∈ profile_roles)) then Some (err_check "user_profiles")
      else if bool_decide (map_Exists (λ j p, j ≠ id ∧ Profiles.username p = Some n) t)
      then Some (err_unique "user_profiles")
      else None
  end.

(** [public.prevent_role_change()], for a statement run as [uid]
    ([auth.uid()], NULL for the service role): the exception it raises,
    if any. *)
Definition prevent_role_change (uid : option string) (t : gmap string Profiles.row)
    (id : string) (OLD NEW : Profiles.row) : option string :=
  if bool_decide (Profiles.role OLD = Profiles.role NEW) then None
  else
    let current_user_role :=
      match uid with
      | Some i => match t !! i with
                  | Some p => Profiles.role p
                  | None => None
                  end
      | None => None
      end in
    if sql_holds (sql_eq current_user_role "admin") then None
    else if bool_decide (uid = Some id)
    then Some "Users cannot change their own role"
    else None.

(** [from('user_profiles').update({ username, role, password_hash })
    .eq('id', id)] run as [uid], row-level security already passed.  The
    BEFORE UPDATE triggers are [prevent_role_change_trigger], guarded by
    its WHEN clause, and [update_user_profiles_updated_at]. *)
Definition profiles_update (env : Env) (uid : option string) (id : string)
    (username role password_hash : string) (st : Store)
    : Store * (PgError + Profiles.row) :=
  if negb (uuid_in env id) then (st, inl err_invalid_uuid)
  else match user_profiles st !! id with
  | None => (st, inl err_no_rows)
  | Some OLD =>
      let NEW := Profiles.mk (Some username) (Some role) (Some password_hash)
                   (Profiles.created_at OLD) (Profiles.updated_at OLD) in
      match (if is_distinct_from (Profiles.role OLD) (Profiles.role NEW)
             then prevent_role_change uid (user_profiles st) id OLD NEW
             else None) with
      | Some msg => (st, inl {| code := "P0001"; message := msg |})
      | None =>
          let NEW := Profiles.mk (Profiles.username NEW) (Profiles.role NEW)
                       (Profiles.password_hash NEW) (Profiles.created_at NEW)
                       (NOW env) in
          match profiles_constraints id NEW (user_profiles st) with
          | Some e => (st, inl e)
          | None =>
              (with_users (auth_users st) (<[id := NEW]> (user_profiles st)) st,
               inr NEW)
          end
      end
  end.

(** ** The identity provider *)

(** [auth.signUp] and [auth.admin.createUser]: a row of auth.users with
    the metadata given, and, in the same transaction, the profile the
    trigger [on_auth_user_created] inserts.  The answer is the new
    identity's id or the provider's error message. *)
Definition auth_create_user (env : Env) (email password : string)
    (meta_username meta_role : option string) (st : Store)
    : Store * (string + string) :=
  if negb (provider_accepts env email password)
  then (st, inl "Unable to validate email address or password")
  else if bool_decide (map_Exists (λ _ u, AuthUsers.email u = email) (auth_users st))
  then (st, inl "A user with this email address has already been registered")
  else
    let id := gen_random_uuid env in
    let NEW := AuthUsers.mk email meta_username meta_role in
    let profile := handle_new_user (NOW env) NEW in
    if bool_decide (is_Some (auth_users st !! id))
       || bool_decide (is_Some (user_profiles st !! id))
    then (st, inl "Database error creating new user")
    else match profiles_constraints id profile (user_profiles st) with
    | Some _ => (st, inl "Database error creating new user")
    | None =>
        (with_users (<[id := NEW]> (auth_users st))
                    (<[id := profile]> (user_profiles st)) st,
         inr id)
    end.

(** [while (retries > 0) { try { r = await call; break } catch
    { retries--; if (retries === 0) return 500; await sleep } }] with
    [failures] attempts in a row throwing: the answer of the call that gets
    through, or [None] when the loop gives up. *)
Fixpoint with_retries {A} (retries failures : nat) (answer : A) : option A :=
  match retries with
  | 0 => None
  | S r =>
      match failures with
      | 0 => Some answer
      | S f => if bool_decide (r = 0) then None else with_retries r f answer
      end
  end.

(** ** src/routes/auth.ts: the registration endpoints *)

(** [/^[^\s@]+@[^\s@]+\.[^\s@]+$/.test(s)], on characters below 256. *)
Definition is_space (c : ascii) : bool :=
  let n := nat_of_ascii c in
  bool_decide (n ∈ [9; 10; 11; 12; 13; 32; 160]).

Definition plain (c : ascii) : bool :=
  negb (is_space c) && negb (bool_decide (c = "@"%char)).

Fixpoint all_plain (s : string) : bool :=
  match s with
  | EmptyString => true
  | String c r => plain c && all_plain r
  end.

(** [[^\s@]+\.[^\s@]+$] *)
Fixpoint domain_ok (nonempty_before : bool) (s : string) : bool :=
  match s with
  | EmptyString => false
  | String c r =>
      plain c &&
      ((nonempty_before && bool_decide (c = "."%char)
        && negb (bool_decide (r = EmptyString)) && all_plain r)
       || domain_ok true r)
  end.

Fixpoint emailRegex_test_from (nonempty_before : bool) (s : string) : bool :=
  match s with
  | EmptyString => false
  | String c r =>
      if bool_decide (c = "@"%char) then nonempty_before && domain_ok false r
      else plain c && emailRegex_test_from true r
  end.

Definition emailRegex_test (s : string) : bool := emailRegex_test_from false s.

Definition username_taken (env : Env) (username : string) (st : Store) : bool :=
  anon_select_visible env
  && bool_decide (map_Exists (λ _ p, Profiles.username p = Some username)
                    (user_profiles st)).

Definition email_registered (email : string) (st : Store) : bool :=
  bool_decide (map_Exists (λ _ u, AuthUsers.email u = email) (auth_users st)).

Definition network_error : Response :=
  respond 500 (ErrorJson
    "Failed to connect to Supabase. Please check your network connection and Supabase configuration."
    (Some "Connection reset")).

Definition registered (n : nat) (msg id email : string)
    (username role : option string) : Response :=
  respond n (RegisteredJson msg
    {| uj_id := id; uj_email := Some email; uj_username := username; uj_role := role |}).

(** POST /api/auth/register.  [signUp] is not retried: when the call
    throws, the handler's catch answers 500.  The profile update goes
    through the anon-key client and its error is only logged. *)
Definition register (env : Env) (req : Request) (st : Store) : Store * Response :=
  let b := body req in
  match truthy_str (b !! "email"), truthy_str (b !! "password") with
  | Some email, Some password =>
      match truthy_str (b !! "username") with
      | None => (st, respond 400 (ErrorJson "Username is required" None))
      | Some username =>
          if (String.length password <? 6)%nat
          then (st, respond 400
                      (ErrorJson "Password must be at least 6 characters long" None))
          else if username_taken env username st
          then (st, respond 400 (ErrorJson "Username already taken" None))
          else if (0 <? network_failures env)%nat
          then (st, respond 500 (ErrorJson "Registration failed" (Some "fetch failed")))
          else
            match auth_create_user env email password
                    (Some username) (Some "viewer") st with
            | (st, inl msg) => (st, respond 400 (ErrorJson msg None))
            | (st, inr id) =>
                let passwordHash := bcrypt_hash env password in
                let st :=
                  if anon_update_applies env
                  then (profiles_update env (anon_uid env) id
                          username "viewer" passwordHash st).1
                  else st in
                (st, registered 201 "Viewer registered successfully" id email
                       (Some username) (Some "viewer"))
            end
      end
  | _, _ => (st, respond 400 (ErrorJson "Email and password are required" None))
  end.

(** What POST /api/auth/register-admin and POST /api/auth/create-viewer
    do once the fields are validated, the same statements in both up to
    the role ['admin'] or ['viewer'] and the wording of the messages.
    [listUsers] is read as returning every identity. *)
Definition create_account (env : Env) (role failed created : string)
    (email password username : string) (st : Store) : Store * Response :=
  if username_taken env username st
  then (st, respond 400 (ErrorJson "Username already taken" None))
  else if negb (supabaseAdmin env)
  then (st, respond 500
              (ErrorJson "Admin client not configured. SUPABASE_SERVICE_ROLE_KEY is required."
                 None))
  else if email_registered email st
  then (st, respond 400 (ErrorJson "Email already registered" None))
  else
    match with_retries 3 (network_failures env)
            (auth_create_user env email password (Some username) (Some role) st) with
    | None => (st, network_error)
    | Some (st, inl msg) =>
        (st, respond 400
               (ErrorJson (if bool_decide (msg = EmptyString) then failed else msg) None))
    | Some (st, inr id) =>
        let passwordHash := bcrypt_hash env password in
        match profiles_update env None id username role passwordHash st with
        | (st, inl profileError) =>
            match user_profiles st !! id with
            | Some existingProfile =>
                (st, registered 201 created id email
                       (Profiles.username existingProfile)
                       (Profiles.role existingProfile))
            | None =>
                (st, registered 201 created id email (Some username) (Some role))
            end
        | (st, inr profile) =>
            (st, registered 201 created id email
                   (if truthy_col (Profiles.username profile)
                    then Profiles.username profile else Some username)
                   (if truthy_col (Profiles.role profile)
                    then Profiles.role profile else Some role))
        end
    end.

(** POST /api/auth/register-admin *)
Definition register_admin (env : Env) (req : Request) (st : Store) : Store * Response :=
  let b := body req in
  match truthy_str (b !! "email"), truthy_str (b !! "password") with
  | Some email, Some password =>
      match truthy_str (b !! "username") with
      | None => (st, respond 400 (ErrorJson "Username is required" None))
      | Some username =>
          if (String.length password <? 6)%nat
          then (st, respond 400
                      (ErrorJson "Password must be at least 6 characters long" None))
          else create_account env "admin"
                 "Failed to create admin user" "Admin registered successfully"
                 email password username st
      end
  | _, _ => (st, respond 400 (ErrorJson "Email and password are required" None))
  end.

(** POST /api/auth/create-viewer *)
Definition create_viewer (env : Env) (req : Request) (st : Store) : Store * Response :=
  let b := body req in
  match truthy_str (b !! "username"), truthy_str (b !! "password"),
        truthy_str (b !! "email") with
  | Some username, Some password, Some email =>
      if negb (emailRegex_test email)
      then (st, respond 400 (ErrorJson "Invalid email format" None))
      else if (String.length password <? 6)%nat
      then (st, respond 400
                  (ErrorJson "Password must be at least 6 characters long" None))
      else create_account env "viewer"
             "Failed to create viewer user" "Viewer created successfully"
             email password username st
  | _, _, _ =>
      (st, respond 400 (ErrorJson "Username, email, and password are required" None))
  end.

(** ** Invariants the store maintains *)

(** Every row of orders is stored under its id and satisfies the NOT NULL
    and CHECK constraints of the table. *)
Definition orders_ok (st : Store) : Prop :=
  ∀ i r, orders st !! i = Some r → Orders.id r = i ∧ orders_constraints r = None.

(** [user_profiles.id REFERENCES auth.users(id)], a uuid column. *)
Definition profiles_ok (env : Env) (st : Store) : Prop :=
  ∀ i p, user_profiles st !! i = Some p →
    uuid_in env i = true ∧ is_Some (auth_users st !! i).

(** ** A sample environment and store, to run the routes on *)

(** A literal against a picture: [x] stands for a hexadecimal digit, [d]
    for a decimal digit, any other character for itself. *)
Definition is_digit (c : ascii) : bool :=
  let n := nat_of_ascii c in (48 <=? n)%nat && (n <=? 57)%nat.

Definition is_hex (c : ascii) : bool :=
  let n := nat_of_ascii c in
  is_digit c || ((97 <=? n)%nat && (n <=? 102)%nat) || ((65 <=? n)%nat && (n <=? 70)%nat).

Fixpoint pictured (picture s : string) : bool :=
  match picture, s with
  | EmptyString, EmptyString => true
  | String p pr, String c r =>
      (if bool_decide (p = "x"%char) then is_hex c
       else if bool_decide (p = "d"%char) then is_digit c
       else bool_decide (p = c))
      && pictured pr r
  | _, _ => false
  end.

Definition sample_env : Env :=
  {| supabaseAdmin := true;
     uuid_in := pictured "xxxxxxxx-xxxx-xxxx-xxxx-xxxxxxxxxxxx";
     date_in := pictured "dddd-dd-dd";
     timestamptz_in := pictured "dddd-dd-ddTdd:dd:ddZ";
     NOW := "2024-06-01T12:00:00Z";
     gen_random_uuid := "99999999-9999-4999-8999-999999999999";
     admins_select_fault := None;
     notifications_insert_fault := None;
     anon_select_visible := true;
     anon_update_applies := true;
     anon_uid := None;
     provider_accepts := λ email _, emailRegex_test email;
     network_failures := 0;
     bcrypt_hash := λ p, "$2a$10$" +:+ p |}.

Definition with_faults (f1 f2 : option fault) (env : Env) : Env :=
  {| supabaseAdmin := supabaseAdmin env;
     uuid_in := uuid_in env; date_in := date_in env;
     timestamptz_in := timestamptz_in env;
     NOW := NOW env; gen_random_uuid := gen_random_uuid env;
     admins_select_fault := f1;
     notifications_insert_fault := f2;
     anon_select_visible := anon_select_visible env;
     anon_update_applies := anon_update_applies env;
     anon_uid := anon_uid env;
     provider_accepts := provider_accepts env;
     network_failures := network_failures env;
     bcrypt_hash := bcrypt_hash env |}.

Definition alice_id : string := "aaaaaaaa-aaaa-4aaa-8aaa-aaaaaaaaaaaa".
Definition bob_id : string := "bbbbbbbb-bbbb-4bbb-8bbb-bbbbbbbbbbbb".
Definition vera_id : string := "cccccccc-cccc-4ccc-8ccc-cccccccccccc".
Definition order1_id : string := "11111111-1111-4111-8111-111111111111".
Definition order2_id : string := "22222222-2222-4222-8222-222222222222".

Definition sample_order : Orders.row :=
  Orders.mk order1_id (Some "Jane") (Some "2kg vanilla") None None None None None
    (Some "incoming") "2024-05-01T09:00:00Z" None (Some alice_id)
    "2024-05-01T09:00:00Z".

Definition sample_profile (name role : string) : Profiles.row :=
  Profiles.mk (Some name) (Some role) None
    "2024-01-01T00:00:00Z" "2024-01-01T00:00:00Z".

(** Two admins (alice, bob), one viewer (vera), one incoming order. *)
Definition sample_store : Store :=
  {| sessions := {[ "token-alice" := alice_id; "token-vera" := vera_id ]};
     auth_users :=
       {[ alice_id := AuthUsers.mk "alice@dc.example" (Some "alice") (Some "admin");
          bob_id := AuthUsers.mk "bob@dc.example" (Some "bob") (Some "admin");
          vera_id := AuthUsers.mk "vera@dc.example" (Some "vera") (Some "viewer") ]};
     user_profiles :=
       {[ alice_id := sample_profile "alice" "admin";
          bob_id := sample_profile "bob" "admin";
          vera_id := sample_profile "vera" "viewer" ]};
     orders := {[ order1_id := sample_order ]};
     notifications := [];
     order_history := ∅ |}.

Definition alice : ReqUser.t := ReqUser.mk alice_id (Some "alice@dc.example") "admin".
Definition vera : ReqUser.t := ReqUser.mk vera_id (Some "vera@dc.example") "viewer".

Definition request (token id : string) (fields : list (string * jsval)) : Request :=
  {| authorization := Some ("Bearer " +:+ token);
     params_id := id;
     body := list_to_map fields |}.



(** The fields both roles may write with PUT /api/orders/:id. *)
Definition permitted_fields : list string :=
  ["customer_name"; "order_details"; "location"; "phone_number"; "pickup_date";
   "meta_business_link"; "image"; "status"].


(** The sample order once vera has moved it to completed. *)
Definition sample_order_completed : Orders.row :=
  Orders.mk order1_id (Some "Jane") (Some "2kg vanilla") None None None None None
    (Some "completed") "2024-05-01T09:00:00Z" (Some "2024-06-01T12:00:00Z")
    (Some alice_id) "2024-06-01T12:00:00Z".

Definition req_complete : Request :=
  request "token-vera" order1_id [("status", JStr "completed")].

Definition req_completed_at (token : string) : Request :=
  request token order1_id [("completed_at", JStr "2024-01-01T00:00:00Z")].

(** The row of notifications that tells admin [a] that [order] has moved
    to [newStatus]. *)
Definition moved_notification (env : Env) (order : Orders.row) (newStatus a : string)
    : Notifications.row :=
  notifications_new_row env
    (admin_notification (moved_title newStatus) (moved_message order newStatus)
       (moved_type newStatus) (Some (JStr (Orders.id order))) a).

Definition is_admin_profile (st : Store) (a : string) : Prop :=
  ∃ p, user_profiles st !! a = Some p ∧ Profiles.role p = Some "admin".

(** How many of the rows [l] are addressed to [a]. *)
Definition addressed_to (a : string) (l : list Notifications.row) : nat :=
  List.length (filter (λ n, Notifications.user_id n = Some a) l).

(** [t] occurs in [s]. *)
Definition mentions (s t : string) : Prop :=
  ∃ pre post, s = pre +:+ t +:+ post.

(** The sample environment with the insert of the notifications
    answering with an error. *)
Definition failing_env : Env :=
  with_faults None (Some (ReturnsError (err_foreign_key "notifications"))) sample_env.

(** ** The failure kinds of the specification, as the routes answer them *)

Definition forbidden : Response :=
  respond 403 (ErrorJson "Admin access required" None).

Definition order_validation_error : Response :=
  respond 400 (ErrorJson "customer_name and order_details are required" None).

Definition history_validation_error : Response :=
  respond 400 (ErrorJson "order_id and event_type are required" None).

Definition missing_header : Response :=
  respond 401 (ErrorJson "Missing or invalid authorization header" None).

Definition invalid_token : Response :=
  respond 401 (ErrorJson "Invalid or expired token" None).

(** [authHeader.substring(7)] *)
Definition bearer_token (authHeader : string) : string :=
  substring 7 (String.length authHeader - 7) authHeader.

(** The row POST /api/orders inserts for the body [b] sent by [u]. *)
Definition created_order (env : Env) (u : ReqUser.t) (b : gmap string jsval)
    : Orders.row :=
  Orders.mk (gen_random_uuid env)
    (truthy_str (b !! "customer_name"))
    (truthy_str (b !! "order_details"))
    (truthy_str (b !! "location"))
    (truthy_str (b !! "phone_number"))
    (truthy_str (b !! "pickup_date"))
    (truthy_str (b !! "meta_business_link"))
    (truthy_str (b !! "image"))
    (Some (default "incoming" (truthy_str (b !! "status"))))
    (NOW env) None (Some (ReqUser.id u)) (NOW env).

(** The row POST /api/history inserts for the body [b] sent by [u]. *)
Definition appended_record (env : Env) (u : ReqUser.t) (b : gmap string jsval)
    : History.row :=
  History.mk (gen_random_uuid env)
    (truthy_str (b !! "order_id"))
    (Some (ReqUser.id u))
    (truthy_str (b !! "event_type"))
    (b !! "old_status" ≫= sql_of)
    (b !! "new_status" ≫= sql_of)
    (b !! "note" ≫= sql_of)
    (NOW env).

Definition req_create (token : string) : Request :=
  request token EmptyString
    [("customer_name", JStr "Jane"); ("order_details", JStr "2kg vanilla")].


Definition req_append : Request :=
  request "token-alice" EmptyString
    [("order_id", JStr order1_id); ("event_type", JStr "status_change");
     ("old_status", JStr "incoming"); ("new_status", JStr "accepted")].

(** The summary of the sample store. *)
Definition sample_stats : Stats :=
  {| total := 1; incoming := 1; pending := 0; accepted := 0;
     declined := 0; completed := 0 |}.

(** The request [req] with the field [k] of its body set to [v]. *)
Definition with_field (k : string) (v : jsval) (req : Request) : Request :=
  {| authorization := authorization req;
     params_id := params_id req;
     body := <[k := v]> (body req) |}.

(** An account with the role [role] has been created: the answer [r] is a
    201 that reports the role, and the identity it names is new in the
    store [st'], with that role in its profile and in its metadata. *)
Definition account_created (role : string) (st st' : Store) (r : Response) : Prop :=
  ∃ msg user p a,
    r = respond 201 (RegisteredJson msg user)
    ∧ uj_role user = Some role
    ∧ user_profiles st !! uj_id user = None
    ∧ auth_users st !! uj_id user = None
    ∧ user_profiles st' !! uj_id user = Some p
    ∧ Profiles.role p = Some role
    ∧ auth_users st' !! uj_id user = Some a
    ∧ AuthUsers.meta_role a = Some role.

(** A registration that asks for the role admin in its body. *)
Definition req_register : Request :=
  request EmptyString EmptyString
    [("email", JStr "zed@dc.example"); ("password", JStr "secret1");
     ("username", JStr "zed"); ("role", JStr "admin")].

(** * The other routes

    The routes of src/routes/orders.ts, src/routes/notifications.ts and
    src/routes/auth.ts that read one row or write the tables above, the
    cascade of the foreign keys, and the fetch wrapper of
    src/config/supabase.ts.  The routes that page through a table
    (GET /api/orders, GET /api/history, GET /api/notifications, GET
    /api/auth/viewers) order rows by timestamps and hand [parseInt]
    results to the store, and POST /api/auth/login compares passwords
    inside the provider: they are not modelled. *)

(** ** Replies *)

(** [{ id, username, role, status: 'active', created_at, updated_at }] *)
Record ViewerJson := {
  vj_id : string;
  vj_username : option string;
  vj_role : option string;
  vj_status : string;
  vj_created_at : string;
  vj_updated_at : string }.

(** The bodies these routes answer with, the ones of the routes above
    among them. *)
Inductive Payload :=
  | Plain (j : Json)
  | OrderOnlyJson (order : Orders.row)
  | CountJson (count : nat)
  | NotificationJson (message : string) (notification : Notifications.row)
  | NotificationsJson (message : string) (notifications : list Notifications.row)
      (count : nat)
  | ViewerUpdatedJson (message : string) (viewer : ViewerJson)
  | ProfileJson (message : string) (id : string) (user : Profiles.row).

Record Reply := { reply_status : nat; reply_body : Payload }.

Definition reply (n : nat) (p : Payload) : Reply :=
  {| reply_status := n; reply_body := p |}.

Definition reply_error (n : nat) (error : string) (details : option string) : Reply :=
  reply n (Plain (ErrorJson error details)).

Definition of_response (r : Response) : Reply :=
  reply (http_status r) (Plain (json r)).

(** [router.METHOD(path, authenticate, handler)] *)
Definition authenticated_reply (env : Env)
    (handler : Env → option ReqUser.t → Request → Store → Store * Reply)
    (req : Request) (st : Store) : Store * Reply :=
  match authenticate env req st with
  | inl r => (st, of_response r)
  | inr u => handler env (Some u) req st
  end.

(** [router.METHOD(path, authenticate, requireAdmin, handler)] *)
Definition admin_only_reply (env : Env)
    (handler : Env → option ReqUser.t → Request → Store → Store * Reply)
    (req : Request) (st : Store) : Store * Reply :=
  match authenticate env req st with
  | inl r => (st, of_response r)
  | inr u =>
      match requireAdmin (Some u) with
      | Some r => (st, of_response r)
      | None => handler env (Some u) req st
      end
  end.

(** ** src/routes/orders.ts: GET /api/orders/:id *)

(** [supabase.from('orders').select('*').eq('id', id).single()] through
    the anon-key client: a row that row-level security hides is no row. *)
Definition orders_select_single_anon (env : Env) (id : string) (st : Store)
    : PgError + Orders.row :=
  if negb (uuid_in env id) then inl err_invalid_uuid
  else if anon_select_visible env
  then match orders st !! id with
       | Some r => inr r
       | None => inl err_no_rows
       end
  else inl err_no_rows.

Definition get_order (env : Env) (user : option ReqUser.t) (req : Request) (st : Store)
    : Store * Reply :=
  match orders_select_single_anon env (params_id req) st with
  | inl error =>
      if bool_decide (code error = "PGRST116")
      then (st, reply_error 404 "Order not found" None)
      else (st, reply_error 400 (message error) None)
  | inr order => (st, reply 200 (OrderOnlyJson order))
  end.

Definition GET_orders_id (env : Env) := authenticated_reply env get_order.

(** ** src/routes/notifications.ts *)

Definition notifications_config_error : Reply :=
  reply_error 500 "Server configuration error" (Some "Service role key not configured").

(** GET /api/notifications/unread-count:
    [select('*', { count: 'exact', head: true }).eq('user_id', id)
    .eq('read', false)] *)
Definition unread (id : string) (l : list Notifications.row) : nat :=
  List.length
    (filter (λ n, Notifications.user_id n = Some id ∧ Notifications.read n = false) l).

Definition unread_count (env : Env) (user : option ReqUser.t) (req : Request)
    (st : Store) : Store * Reply :=
  match user with
  | None => (st, reply_error 401 "Not authenticated" None)
  | Some u =>
      if negb (supabaseAdmin env) then (st, notifications_config_error)
      else if negb (uuid_in env (ReqUser.id u))
      then (st, reply_error 400 (message err_invalid_uuid) None)
      else (st, reply 200 (CountJson (unread (ReqUser.id u) (notifications st))))
  end.

Definition GET_notifications_unread_count (env : Env) :=
  authenticated_reply env unread_count.

(** A one-row INSERT into notifications whose [type] is the JSON value of
    the request. *)
Definition notifications_insert_one (env : Env) (user_id title text : string)
    (type order_id : jsval) (st : Store) : Store * (PgError + Notifications.row) :=
  if negb (uuid_in env user_id && fits (uuid_in env) (sql_of order_id))
  then (st, inl err_invalid_uuid)
  else match type with
  | JNull => (st, inl (err_not_null "type"))
  | JStr t =>
      let n := {| n_user_id := user_id; n_title := title; n_message := text;
                  n_type := t; n_order_id := order_id |} in
      match notifications_insert env [n] st with
      | (st, Some e) => (st, inl e)
      | (st, None) => (st, inr (notifications_new_row env n))
      end
  end.

(** POST /api/notifications.  [type = 'info'] in the destructuring is the
    default of an absent key only. *)
Definition post_notification (env : Env) (user : option ReqUser.t) (req : Request)
    (st : Store) : Store * Reply :=
  match user with
  | None => (st, reply_error 401 "Not authenticated" None)
  | Some u =>
      if negb (bool_decide (ReqUser.role u = "admin"))
         && negb (bool_decide (ReqUser.role u = "service_role"))
      then (st, reply_error 403 "Only admins can create notifications" None)
      else
        let b := body req in
        match truthy_str (b !! "user_id"), truthy_str (b !! "title"),
              truthy_str (b !! "message") with
        | Some user_id, Some title, Some text =>
            if negb (supabaseAdmin env) then (st, notifications_config_error)
            else
              let type := match b !! "type" with
                          | None => JStr "info"
                          | Some v => v
                          end in
              match notifications_insert_one env user_id title text type
                      (or_null (b !! "order_id")) st with
              | (st, inl error) => (st, reply_error 400 (message error) None)
              | (st, inr notification) =>
                  (st, reply 201
                         (NotificationJson "Notification created successfully"
                            notification))
              end
        | _, _, _ =>
            (st, reply_error 400 "user_id, title, and message are required" None)
        end
  end.

Definition POST_notifications (env : Env) := authenticated_reply env post_notification.

(** [admin => ({ user_id: admin.id, title: 'Cake Ready for Pickup',
    message, type: 'order', order_id })] *)
Definition ready_message (order : Orders.row) : string :=
  "Order for " +:+ interpolate (Orders.customer_name order)
  +:+ " is ready for pickup. "
  +:+ (if truthy_col (Orders.order_details order)
       then "Details: " +:+ interpolate (Orders.order_details order)
       else EmptyString).

Definition ready_notification (order : Orders.row) (order_id admin : string)
    : NotificationInsert :=
  {| n_user_id := admin; n_title := "Cake Ready for Pickup";
     n_message := ready_message order; n_type := "order";
     n_order_id := JStr order_id |}.

(** POST /api/notifications/notify-admin-ready.  An exception of a call
    to the store is caught by the handler's [catch]. *)
Definition notify_admin_ready (env : Env) (user : option ReqUser.t) (req : Request)
    (st : Store) : Store * Reply :=
  match user with
  | None => (st, reply_error 401 "Not authenticated" None)
  | Some u =>
      match truthy_str (body req !! "order_id") with
      | None => (st, reply_error 400 "order_id is required" None)
      | Some order_id =>
          if negb (supabaseAdmin env) then (st, notifications_config_error)
          else
            match orders_select_single env order_id st with
            | inl _ => (st, reply_error 404 "Order not found" None)
            | inr order =>
                match admins_select_fault env with
                | Some (Throws msg) =>
                    (st, reply_error 500 "Failed to notify admins" (Some msg))
                | Some (ReturnsError adminError) =>
                    (st, reply_error 500 "Failed to fetch admin users"
                           (Some (message adminError)))
                | None =>
                    let adminUsers := select_admin_ids st in
                    if bool_decide (List.length adminUsers = 0)
                    then (st, reply_error 404 "No admin users found" None)
                    else
                      let notifications :=
                        map (ready_notification order order_id) adminUsers in
                      match notifications_insert_fault env with
                      | Some (Throws msg) =>
                          (st, reply_error 500 "Failed to notify admins" (Some msg))
                      | Some (ReturnsError insertError) =>
                          (st, reply_error 400 "Failed to create notifications"
                                 (Some (message insertError)))
                      | None =>
                          match notifications_insert env notifications st with
                          | (st, Some insertError) =>
                              (st, reply_error 400 "Failed to create notifications"
                                     (Some (message insertError)))
                          | (st, None) =>
                              let created :=
                                map (notifications_new_row env) notifications in
                              (st, reply 201
                                     (NotificationsJson
                                        ("Notifications sent to "
                                         +:+ pretty (List.length adminUsers)
                                         +:+ " admin(s)")
                                        created (List.length created)))
                          end
                      end
                end
            end
      end
  end.

Definition POST_notifications_notify_admin_ready (env : Env) :=
  authenticated_reply env notify_admin_ready.

(** ** src/routes/auth.ts: the profile routes *)

Definition admin_client_error : Reply :=
  reply_error 500 "Admin client not configured. SUPABASE_SERVICE_ROLE_KEY is required."
    None.

(** [select('id').eq('username', username).neq('id', id).single()]: the
    rows of another key with that username; [existingUser] is set when
    there is exactly one.  A key the store does not take as a uuid makes
    the query fail, and the route reads no row. *)
Definition others_named (id username : string) (t : gmap string Profiles.row)
    : list (string * Profiles.row) :=
  filter (λ jp, jp.1 ≠ id ∧ Profiles.username jp.2 = Some username) (map_to_list t).

Definition username_of_another (env : Env) (id username : string) (st : Store) : bool :=
  uuid_in env id
  && bool_decide (List.length (others_named id username (user_profiles st)) = 1).

(** [update({ username }).eq('id', id).select().single()] run as [uid],
    row-level security already passed, with the BEFORE UPDATE triggers of
    user_profiles. *)
Definition profiles_update_username (env : Env) (uid : option string) (id : string)
    (username : string) (st : Store) : Store * (PgError + Profiles.row) :=
  if negb (uuid_in env id) then (st, inl err_invalid_uuid)
  else match user_profiles st !! id with
  | None => (st, inl err_no_rows)
  | Some OLD =>
      let NEW := Profiles.mk (Some username) (Profiles.role OLD)
                   (Profiles.password_hash OLD)
                   (Profiles.created_at OLD) (Profiles.updated_at OLD) in
      match (if is_distinct_from (Profiles.role OLD) (Profiles.role NEW)
             then prevent_role_change uid (user_profiles st) id OLD NEW
             else None) with
      | Some msg => (st, inl {| code := "P0001"; message := msg |})
      | None =>
          let NEW := Profiles.mk (Profiles.username NEW) (Profiles.role NEW)
                       (Profiles.password_hash NEW) (Profiles.created_at NEW)
                       (NOW env) in
          match profiles_constraints id NEW (user_profiles st) with
          | Some e => (st, inl e)
          | None =>
              (with_users (auth_users st) (<[id := NEW]> (user_profiles st)) st,
               inr NEW)
          end
      end
  end.

(** PUT /api/auth/viewers/:id *)
Definition put_viewer (env : Env) (user : option ReqUser.t) (req : Request) (st : Store)
    : Store * Reply :=
  let id := params_id req in
  if negb (supabaseAdmin env) then (st, admin_client_error)
  else
    match truthy_str (body req !! "username") with
    | None => (st, reply_error 400 "Username is required" None)
    | Some username =>
        if username_of_another env id username st
        then (st, reply_error 400 "Username already taken" None)
        else
          match profiles_update_username env None id username st with
          | (st, inl error) => (st, reply_error 400 (message error) None)
          | (st, inr data) =>
              (st, reply 200
                     (ViewerUpdatedJson "Viewer updated successfully"
                        {| vj_id := id;
                           vj_username := Profiles.username data;
                           vj_role := Profiles.role data;
                           vj_status := "active";
                           vj_created_at := Profiles.created_at data;
                           vj_updated_at := Profiles.updated_at data |}))
          end
    end.

Definition PUT_auth_viewers_id (env : Env) := admin_only_reply env put_viewer.

(** PUT /api/auth/profile, through the anon-key client: the lookup sees a
    row, and the update reaches one, when row-level security lets it. *)
Definition put_profile (env : Env) (user : option ReqUser.t) (req : Request) (st : Store)
    : Store * Reply :=
  match user with
  | None => (st, reply_error 401 "Not authenticated" None)
  | Some u =>
      match truthy_str (body req !! "username") with
      | None => (st, reply_error 400 "No valid fields to update" None)
      | Some username =>
          if anon_select_visible env
             && username_of_another env (ReqUser.id u) username st
          then (st, reply_error 400 "Username already taken" None)
          else if negb (uuid_in env (ReqUser.id u))
          then (st, reply_error 400 (message err_invalid_uuid) None)
          else if negb (anon_update_applies env)
          then (st, reply_error 400 (message err_no_rows) None)
          else
            match profiles_update_username env (anon_uid env) (ReqUser.id u)
                    username st with
            | (st, inl error) => (st, reply_error 400 (message error) None)
            | (st, inr profile) =>
                (st, reply 200
                       (ProfileJson "Profile updated successfully" (ReqUser.id u)
                          profile))
            end
      end
  end.

Definition PUT_auth_profile (env : Env) := authenticated_reply env put_profile.

(** ** Deleting an identity: the foreign keys on auth.users *)

Definition orders_with_created_by (v : option string) (r : Orders.row) : Orders.row :=
  Orders.mk (Orders.id r) (Orders.customer_name r) (Orders.order_details r)
    (Orders.location r) (Orders.phone_number r) (Orders.pickup_date r)
    (Orders.meta_business_link r) (Orders.image r) (Orders.status r)
    (Orders.created_at r) (Orders.completed_at r) v (Orders.updated_at r).

Definition history_with_user_id (v : option string) (r : History.row) : History.row :=
  History.mk (History.id r) (History.order_id r) v (History.event_type r)
    (History.old_status r) (History.new_status r) (History.note r)
    (History.created_at r).

(** [orders.created_by ... ON DELETE SET NULL]: the action is an UPDATE
    of the referencing rows, and the BEFORE UPDATE triggers of orders
    fire on it. *)
Definition orders_on_delete_user (env : Env) (uid : string) (r : Orders.row)
    : Orders.row :=
  if bool_decide (Orders.created_by r = Some uid)
  then orders_before_update (NOW env) r (orders_with_created_by None r)
  else r.

(** [order_history.user_id ... ON DELETE SET NULL] *)
Definition history_on_delete_user (uid : string) (r : History.row) : History.row :=
  if bool_decide (History.user_id r = Some uid)
  then history_with_user_id None r
  else r.

(** [supabaseAdmin.auth.admin.deleteUser(id)]: the row of auth.users goes,
    and with it the rows that reference it ON DELETE CASCADE (the
    profile, the notifications of the identity); the references ON DELETE
    SET NULL are cleared.  The answer is the provider's error message, if
    any. *)
Definition auth_admin_deleteUser (env : Env) (id : string) (st : Store)
    : Store * option string :=
  if negb (uuid_in env id) then (st, Some "Expected parameter to be UUID but is not")
  else match auth_users st !! id with
  | None => (st, Some "User not found")
  | Some _ =>
      ({| sessions := sessions st;
          auth_users := delete id (auth_users st);
          user_profiles := delete id (user_profiles st);
          orders := orders_on_delete_user env id <$> orders st;
          notifications :=
            filter (λ n, Notifications.user_id n ≠ Some id) (notifications st);
          order_history := history_on_delete_user id <$> order_history st |},
       None)
  end.

(** DELETE /api/auth/viewers/:id *)
Definition delete_viewer (env : Env) (user : option ReqUser.t) (req : Request)
    (st : Store) : Store * Reply :=
  let id := params_id req in
  if negb (supabaseAdmin env) then (st, admin_client_error)
  else
    match auth_admin_deleteUser env id st with
    | (st, Some error) => (st, reply_error 400 error None)
    | (st, None) => (st, reply 200 (Plain (MessageJson "Viewer deleted successfully")))
    end.

Definition DELETE_auth_viewers_id (env : Env) := admin_only_reply env delete_viewer.

(** ** src/config/supabase.ts: the fetch of the admin client *)

(** A rejection of [fetch]: the fields of the error the wrapper reads. *)
Record JsError := {
  error_name : option string;
  error_message : option string;
  error_code : option string }.

Inductive fetched :=
  | Resolves (response : string)
  | Rejects (error : JsError).

(** [error?.name === 'AbortError' || error?.message?.includes('fetch')
    || error?.code === 'ECONNRESET'] *)
Definition is_network_error (e : JsError) : bool :=
  bool_decide (error_name e = Some "AbortError")
  || match error_message e with
     | Some m => includes m "fetch"
     | None => false
     end
  || bool_decide (error_code e = Some "ECONNRESET").

(** What a call of the wrapper did: the promise's outcome, the delays it
    slept in milliseconds, and how many times it called [fetch]. *)
Record Fetching := {
  outcome : fetched;
  delays : list nat;
  calls : nat }.

(** The loop [for (attempt; attempt < maxRetries; attempt++)], with
    [todo] iterations left; [fetch k] is what the call number [k] does
    (an attempt aborted after 15 s rejects with an AbortError). *)
Fixpoint fetch_loop (maxRetries todo attempt : nat) (fetch : nat → fetched)
    (lastError : option JsError) : Fetching :=
  match todo with
  | 0 =>
      {| outcome :=
           Rejects (default {| error_name := Some "Error";
                               error_message := Some "Failed to fetch after retries";
                               error_code := None |} lastError);
         delays := []; calls := 0 |}
  | S todo =>
      match fetch attempt with
      | Resolves response => {| outcome := Resolves response; delays := []; calls := 1 |}
      | Rejects error =>
          if bool_decide (attempt = maxRetries - 1)
          then {| outcome := Rejects error; delays := []; calls := 1 |}
          else if is_network_error error
          then
            let delay := 1000 * 2 ^ attempt in
            let rest := fetch_loop maxRetries todo (S attempt) fetch (Some error) in
            {| outcome := outcome rest; delays := delay :: delays rest;
               calls := S (calls rest) |}
          else {| outcome := Rejects error; delays := []; calls := 1 |}
      end
  end.

Definition admin_fetch (fetch : nat → fetched) : Fetching :=
  fetch_loop 3 3 0 fetch None.

(** ** More of the sample store *)


Definition connection_reset : JsError :=
  {| error_name := Some "TypeError"; error_message := Some "fetch failed";
     error_code := Some "ECONNRESET" |}.

(** Two calls lost to the network, then an answer. *)
Definition third_time (k : nat) : fetched :=
  if (k <? 2)%nat then Rejects connection_reset else Resolves "200 OK".

(** The columns PUT /api/orders/:id writes from the payload, with the
    field each is read from. *)
Definition patch_columns : list (string * (Orders.row → option string)) :=
  [("customer_name", Orders.customer_name);
   ("order_details", Orders.order_details);
   ("location", Orders.location);
   ("phone_number", Orders.phone_number);
   ("pickup_date", Orders.pickup_date);
   ("meta_business_link", Orders.meta_business_link);
   ("image", Orders.image);
   ("status", Orders.status)].

(** The row of notifications that tells admin [a] that [order] has been
    updated without a change of status. *)
Definition updated_notification (env : Env) (order : Orders.row) (a : string)
    : Notifications.row :=
  notifications_new_row env
    (admin_notification "Order Updated"
       ("Order for " +:+ interpolate (Orders.customer_name order)
        +:+ " has been updated")
       "info" (Some (JStr (Orders.id order))) a).

Definition req_location : Request :=
  request "token-alice" order1_id [("location", JStr "Cebu")].

Definition sample_order_located : Orders.row :=
  Orders.mk order1_id (Some "Jane") (Some "2kg vanilla") (Some "Cebu") None None None
    None (Some "incoming") "2024-05-01T09:00:00Z" None (Some alice_id)
    "2024-06-01T12:00:00Z".

Definition req_get (token id : string) : Request := request token id [].

(** The statuses [authenticate] and [requireAdmin] refuse a request
    with. *)
Definition refusals : list nat := [401; 403; 500].

Definition req_move (token status : string) : Request :=
  request token order1_id [("status", JStr status)].

(** The row of notifications that tells admin [a] that the order
    [order], of id [order_id], is ready. *)
Definition ready_row (env : Env) (order : Orders.row) (order_id a : string)
    : Notifications.row :=
  notifications_new_row env (ready_notification order order_id a).

Definition req_ready (token : string) : Request :=
  request token EmptyString [("order_id", JStr order1_id)].

Definition notification_handlers
    : list (Env → option ReqUser.t → Request → Store → Store * Reply) :=
  [unread_count; post_notification; notify_admin_ready].

Definition req_notify (token user_id : string) : Request :=
  request token EmptyString
    [("user_id", JStr user_id); ("title", JStr "Oven"); ("message", JStr "Oven is free")].

(** Order 1 of the sample store after it has been moved to accepted. *)
Definition sample_order_accepted : Orders.row :=
  Orders.mk order1_id (Some "Jane") (Some "2kg vanilla") None None None None None
    (Some "accepted") "2024-05-01T09:00:00Z" None (Some alice_id)
    "2024-06-01T12:00:00Z".

(** ** The declaration of user_profiles, as an invariant *)

(** Every profile has a username no other profile has and one of the two
    roles: NOT NULL, UNIQUE and CHECK of the table. *)
Definition profiles_valid (st : Store) : Prop :=
  ∀ i p, user_profiles st !! i = Some p →
    profiles_constraints i p (user_profiles st) = None.

Definition registration_routes : list (Env → Request → Store → Store * Response) :=
  [register; register_admin; create_viewer].


Definition profile_handlers
    : list (Env → option ReqUser.t → Request → Store → Store * Reply) :=
  [put_viewer; put_profile; delete_viewer].

(** An order after the identity that created it has been deleted. *)
Definition unassigned (env : Env) (o : Orders.row) : Orders.row :=
  Orders.set_updated_at (NOW env) (orders_with_created_by None o).

Definition req_rename (token id name : string) : Request :=
  request token id [("username", JStr name)].

(** [st'] differs from [st] at most in the identity and the profile of
    key [id]. *)
Definition differs_at (id : string) (st st' : Store) : Prop :=
  sessions st' = sessions st ∧ orders st' = orders st
  ∧ notifications st' = notifications st ∧ order_history st' = order_history st
  ∧ ∀ j, j ≠ id →
      auth_users st' !! j = auth_users st !! j
      ∧ user_profiles st' !! j = user_profiles st !! j.


(** The profile [OLD] after its username has been set to [n]. *)
Definition renamed (env : Env) (n : string) (OLD : Profiles.row) : Profiles.row :=
  Profiles.mk (Some n) (Profiles.role OLD) (Profiles.password_hash OLD)
    (Profiles.created_at OLD) (NOW env).

(** The exception of [prevent_role_change], as the store reports it. *)
Definition role_change_refused : PgError :=
  {| code := "P0001"; message := "Users cannot change their own role" |}.

(** The call number [k] ends the loop: it resolves, or it rejects with
    an error that is not retried, or it is the last attempt. *)
Definition final_attempt (fetch : nat → fetched) (k : nat) : Prop :=
  match fetch k with
  | Resolves _ => True
  | Rejects e => is_network_error e = false ∨ k = 2
  end.

(** The calls before the call number [k] were all lost to the network. *)
Definition retried_before (fetch : nat → fetched) (k : nat) : Prop :=
  ∀ j, (j < k)%nat → ∃ e, fetch j = Rejects e ∧ is_network_error e = true.

(** What the wrapper has done when the call number [k] ended the loop. *)
Definition ended_at (fetch : nat → fetched) (k : nat) : Fetching :=
  {| outcome := fetch k; delays := take k [1000; 2000]; calls := S k |}.

Definition bad_request : JsError :=
  {| error_name := Some "TypeError"; error_message := Some "Invalid URL";
     error_code := None |}.

(** The per-status fields of the summary, by the status they count. *)
Definition status_counts : list (string * (Stats → nat)) :=
  [("incoming", incoming); ("pending", pending); ("accepted", accepted);
   ("declined", declined); ("completed", completed)].

(** ** Requests the claims are run on *)


(** An order for a status the table does not know. *)
Definition req_create_shipped (token : string) : Request :=
  request token EmptyString
    [("customer_name", JStr "Jane"); ("order_details", JStr "2kg vanilla");
     ("status", JStr "shipped")].

(** A history record with an event type the table does not know. *)
Definition req_append_bogus (token : string) : Request :=
  request token EmptyString
    [("order_id", JStr order1_id); ("event_type", JStr "bogus")].

(** * Properties *)

(** ** The payload filter *)

Lemma lookup_copy_field_eq (k : string) (b u : gmap string jsval) :
  copy_field k b u !! k = match b !! k with Some v => Some v | None => u !! k end.
Proof.
  unfold copy_field. destruct (b !! k) eqn:Hb; [|done].
  by rewrite lookup_insert_eq.
Qed.

Lemma lookup_copy_field_ne (k j : string) (b u : gmap string jsval) :
  k ≠ j → copy_field k b u !! j = u !! j.
Proof.
  intros Hne. unfold copy_field. destruct (b !! k); [|done].
  by rewrite lookup_insert_ne.
Qed.

Ltac lookup_fields :=
  repeat first
    [ rewrite lookup_copy_field_ne
        by (done || (intros <-; match goal with H : _ ∉ _ |- _ => apply H end;
                     rewrite !elem_of_cons; auto 10))
    | rewrite lookup_copy_field_eq
    | rewrite lookup_empty ].


Lemma lookup_build_updateData (isAdmin : bool) (b : gmap string jsval) (k : string) :
  build_updateData isAdmin b !! k =
    if bool_decide (k ∈ permitted_fields) then b !! k
    else if isAdmin && bool_decide (k = "completed_at") then b !! k
    else None.
Proof.
  destruct (decide (k ∈ permitted_fields)) as [Hin|Hnin].
  - rewrite bool_decide_eq_true_2 by done.
    unfold permitted_fields in Hin.
    repeat (apply elem_of_cons in Hin as [->|Hin]);
      try (by apply elem_of_nil in Hin);
      unfold build_updateData; destruct isAdmin; lookup_fields; by case_match.
  - rewrite bool_decide_eq_false_2 by done.
    unfold permitted_fields in Hnin.
    destruct (decide (k = "completed_at")) as [->|Hc].
    + unfold build_updateData. destruct isAdmin; lookup_fields; simpl; [by case_match|done].
    + rewrite (bool_decide_eq_false_2 _ Hc), andb_false_r.
      unfold build_updateData. by destruct isAdmin; lookup_fields.
Qed.

Lemma build_updateData_status (isAdmin : bool) (b : gmap string jsval) :
  build_updateData isAdmin b !! "status" = b !! "status".
Proof. by rewrite lookup_build_updateData. Qed.

Lemma build_updateData_completed_at (isAdmin : bool) (b : gmap string jsval) :
  build_updateData isAdmin b !! "completed_at" =
    if isAdmin then b !! "completed_at" else None.
Proof. rewrite lookup_build_updateData. by destruct isAdmin. Qed.

(** ** The fan-out writes to notifications only *)

Lemma createNotificationForAdmins_frame env title msg type orderId exclude st :
  let st' := createNotificationForAdmins env title msg type orderId exclude st in
  orders st' = orders st ∧ user_profiles st' = user_profiles st
  ∧ auth_users st' = auth_users st ∧ order_history st' = order_history st
  ∧ sessions st' = sessions st.
Proof.
  unfold createNotificationForAdmins, notifications_insert.
  repeat case_match; simpl; done.
Qed.

Lemma notify_update_frame env isAdmin u oldOrder order st :
  let st' := notify_update env isAdmin u oldOrder order st in
  orders st' = orders st ∧ user_profiles st' = user_profiles st
  ∧ auth_users st' = auth_users st ∧ order_history st' = order_history st
  ∧ sessions st' = sessions st.
Proof.
  unfold notify_update.
  repeat case_match; try done; apply createNotificationForAdmins_frame.
Qed.

(** ** What an accepted update went through *)

Lemma put_order_accepted env u req st st' msg order :
  put_order env (Some u) req st = (st', respond 200 (OrderJson msg order)) →
  ∃ OLD,
    supabaseAdmin env = true
    ∧ size (build_updateData (bool_decide (ReqUser.role u = "admin")) (body req)) ≠ 0
    ∧ uuid_in env (params_id req) = true
    ∧ orders st !! params_id req = Some OLD
    ∧ orders_update_row env
        (build_updateData (bool_decide (ReqUser.role u = "admin")) (body req)) OLD
      = inr order
    ∧ st' = notify_update env (bool_decide (ReqUser.role u = "admin"))
              (build_updateData (bool_decide (ReqUser.role u = "admin")) (body req))
              (Some OLD) order
              (with_orders (<[params_id req := order]> (orders st)) st).
Proof.
  unfold put_order, orders_update, orders_select_single, respond, config_error.
  intros H.
  repeat (case_match; simplify_eq/=); try done.
  rewrite negb_false_iff in *. rewrite bool_decide_eq_false in *.
  by eexists.
Qed.

Lemma orders_update_row_inv env u OLD order :
  orders_update_row env u OLD = inr order →
  order = orders_before_update (NOW env) OLD (orders_assign u OLD)
  ∧ orders_payload_types env u = None
  ∧ orders_constraints order = None.
Proof.
  unfold orders_update_row. intros H.
  repeat (case_match; simplify_eq/=); done.
Qed.

Lemma orders_constraints_status r :
  orders_constraints r = None →
  ∃ s, Orders.status r = Some s ∧ s ∈ order_statuses.
Proof.
  unfold orders_constraints. intros H.
  repeat (case_match; simplify_eq/=).
  eexists; split; [done|]. by eapply bool_decide_eq_true_1.
Qed.

Lemma orders_constraints_required r :
  orders_constraints r = None →
  is_Some (Orders.customer_name r) ∧ is_Some (Orders.order_details r).
Proof.
  unfold orders_constraints. intros H.
  repeat (case_match; simplify_eq/=). by split.
Qed.

(** The triggers leave every column but [completed_at] and [updated_at]. *)
Lemma orders_before_update_status now OLD NEW :
  Orders.status (orders_before_update now OLD NEW) = Orders.status NEW.
Proof.
  unfold orders_before_update, handle_order_completion, is_distinct_from.
  by repeat case_match.
Qed.

Lemma orders_before_update_id now OLD NEW :
  Orders.id (orders_before_update now OLD NEW) = Orders.id NEW.
Proof.
  unfold orders_before_update, handle_order_completion, is_distinct_from.
  by repeat case_match.
Qed.

(** [completed_at] as the triggers leave it, for an old row whose status
    is not NULL. *)
Lemma orders_before_update_completed_at now OLD NEW so s :
  Orders.status OLD = Some so →
  Orders.status NEW = Some s →
  Orders.completed_at (orders_before_update now OLD NEW) =
    if bool_decide (so = s) then Orders.completed_at NEW
    else if bool_decide (s = "completed") then Some now
    else None.
Proof.
  intros Ho Hn.
  unfold orders_before_update, handle_order_completion, is_distinct_from.
  rewrite Ho, Hn. simpl.
  destruct (decide (so = s)) as [->|Hne].
  - rewrite (bool_decide_eq_true_2 (Some s = Some s)) by done.
    by rewrite (bool_decide_eq_true_2 (s = s)).
  - rewrite (bool_decide_eq_false_2 (Some so = Some s)) by congruence.
    rewrite (bool_decide_eq_false_2 (so = s)) by done. simpl.
    destruct (decide (s = "completed")) as [->|Hc].
    + rewrite bool_decide_eq_true_2 by done.
      by rewrite (bool_decide_eq_false_2 (so = "completed")).
    + by rewrite !(bool_decide_eq_false_2 (s = "completed")).
Qed.

Lemma orders_assign_status u OLD :
  Orders.status (orders_assign u OLD) = set_col "status" u (Orders.status OLD).
Proof. done. Qed.


(** ** The constraints of orders are kept by the routes that write it *)

Lemma orders_update_row_ok env u OLD order i :
  Orders.id OLD = i →
  orders_update_row env u OLD = inr order →
  Orders.id order = i ∧ orders_constraints order = None.
Proof.
  intros Hid Hrow. apply orders_update_row_inv in Hrow as (-> & _ & Hcons).
  split; [|done]. by rewrite orders_before_update_id.
Qed.

Lemma put_order_orders_ok env user req st :
  orders_ok st → orders_ok (put_order env user req st).1.
Proof.
  intros Hok. unfold put_order, orders_update, orders_select_single.
  repeat (case_match; simplify_eq/=); try done.
  intros i row.
  match goal with
  | |- context [notify_update ?e ?a ?u ?o ?n ?s] =>
      destruct (notify_update_frame e a u o n s) as [-> _]
  end.
  simpl. rewrite lookup_insert_Some.
  intros [[<- <-]|[_ Hi]]; [|by apply Hok].
  eapply orders_update_row_ok; [|done]. by eapply Hok.
Qed.

Lemma post_order_orders_ok env user req st :
  orders_ok st → orders_ok (post_order env user req st).1.
Proof.
  intros Hok. unfold post_order, orders_insert.
  repeat (case_match; simplify_eq/=); try done.
  intros i row. simpl. rewrite lookup_insert_Some.
  intros [[<- <-]|[_ Hi]]; [done|by apply Hok].
Qed.

Lemma delete_order_orders_ok env user req st :
  orders_ok st → orders_ok (delete_order env user req st).1.
Proof.
  intros Hok. unfold delete_order, orders_delete.
  repeat (case_match; simplify_eq/=); try done.
  intros i row Hi. simpl in Hi.
  apply lookup_delete_Some in Hi as [_ Hi]. by apply Hok.
Qed.

(** C1, as amended.  After an update the route accepts, on a store whose
    rows satisfy the constraints of the table: the row returned is the
    row stored; when the update changes the status, [completed_at] is
    non-null if and only if the new status is completed, and is then the
    time of the update; when it leaves the status as it was,
    [completed_at] is the value an admin's payload gives it, and the old
    value otherwise.  So the equivalence between a non-null
    [completed_at] and the status completed is kept by every update
    that does not carry an admin's [completed_at]. *)
Theorem C1_completed_at_after_update env u req st st' msg order OLD :
  orders_ok st →
  orders st !! params_id req = Some OLD →
  put_order env (Some u) req st = (st', respond 200 (OrderJson msg order)) →
  orders st' !! params_id req = Some order
  ∧ (Orders.status order ≠ Orders.status OLD →
       (Orders.completed_at order ≠ None ↔ Orders.status order = Some "completed")
       ∧ (Orders.status order = Some "completed" →
            Orders.completed_at order = Some (NOW env)))
  ∧ (Orders.status order = Orders.status OLD →
       Orders.completed_at order =
         match body req !! "completed_at" with
         | Some v => if bool_decide (ReqUser.role u = "admin")
                     then sql_of v else Orders.completed_at OLD
         | None => Orders.completed_at OLD
         end)
  ∧ (ReqUser.role u ≠ "admin" ∨ body req !! "completed_at" = None →
       (Orders.completed_at OLD ≠ None ↔ Orders.status OLD = Some "completed") →
       (Orders.completed_at order ≠ None ↔ Orders.status order = Some "completed")).
Proof.
  intros Hok Hold Hput.
  apply put_order_accepted in Hput as (OLD' & _ & _ & _ & Hold' & Hrow & ->).
  rewrite Hold in Hold'. simplify_eq.
  apply orders_update_row_inv in Hrow as (Horder & _ & Hcons).
  destruct (Hok _ _ Hold) as [_ Hcons_old].
  apply orders_constraints_status in Hcons_old as (so & Hso & _).
  apply orders_constraints_status in Hcons as (s & Hs & _).
  set (isAdmin := bool_decide (ReqUser.role u = "admin")) in *.
  set (upd := build_updateData isAdmin (body req)) in *.
  assert (Hnew : Orders.status (orders_assign upd OLD') = Some s).
  { rewrite <- Hs, Horder. by rewrite orders_before_update_status. }
  assert (Hc : Orders.completed_at order =
               if bool_decide (so = s)
               then set_col "completed_at" upd (Orders.completed_at OLD')
               else if bool_decide (s = "completed") then Some (NOW env) else None).
  { rewrite Horder at 1.
    by rewrite (orders_before_update_completed_at _ _ _ so s). }
  assert (Hset : set_col "completed_at" upd (Orders.completed_at OLD') =
                 match body req !! "completed_at" with
                 | Some v => if isAdmin then sql_of v else Orders.completed_at OLD'
                 | None => Orders.completed_at OLD'
                 end).
  { unfold set_col, upd. rewrite build_updateData_completed_at.
    destruct isAdmin; by repeat case_match. }
  rewrite Hs, Hso, Hc.
  split; [|split; [|split]].
  - destruct (notify_update_frame env isAdmin upd (Some OLD') order
      (with_orders (<[params_id req := order]> (orders st)) st)) as [-> _].
    simpl. by rewrite lookup_insert_eq.
  - intros Hne. rewrite bool_decide_eq_false_2 by congruence.
    destruct (decide (s = "completed")) as [->|Hsc].
    + rewrite bool_decide_eq_true_2 by done. naive_solver.
    + rewrite bool_decide_eq_false_2 by done. naive_solver.
  - intros Heq. rewrite bool_decide_eq_true_2 by congruence. done.
  - intros Hno Hinv.
    destruct (decide (so = s)) as [->|Hne].
    + rewrite bool_decide_eq_true_2 by done. rewrite Hset.
      destruct Hno as [Hrole| ->]; [|done].
      unfold isAdmin. rewrite (bool_decide_eq_false_2 _ Hrole).
      by case_match.
    + rewrite bool_decide_eq_false_2 by done.
      destruct (decide (s = "completed")) as [->|Hsc].
      * rewrite bool_decide_eq_true_2 by done. by split.
      * rewrite bool_decide_eq_false_2 by done. split; [done|congruence].
Qed.

(** The sample store satisfies the constraints of orders. *)
Lemma sample_store_orders_ok : orders_ok sample_store.
Proof.
  intros i r H.
  change (({[order1_id := sample_order]} : gmap string Orders.row) !! i = Some r) in H.
  apply lookup_singleton_Some in H as [<- <-]. by split.
Defined.

(** C1 on the sample store: vera moves the incoming order to completed. *)
Lemma C1_witness :
  orders_ok sample_store
  ∧ orders sample_store !! params_id req_complete = Some sample_order
  ∧ put_order sample_env (Some vera) req_complete sample_store
    = ((put_order sample_env (Some vera) req_complete sample_store).1,
       respond 200 (OrderJson "Order updated successfully" sample_order_completed))
  ∧ Orders.completed_at sample_order_completed = Some (NOW sample_env).
Proof.
  assert (H1 : orders sample_store !! params_id req_complete = Some sample_order)
    by reflexivity.
  assert (H2 : put_order sample_env (Some vera) req_complete sample_store
    = ((put_order sample_env (Some vera) req_complete sample_store).1,
       respond 200 (OrderJson "Order updated successfully" sample_order_completed)))
    by (vm_compute; reflexivity).
  split; [exact sample_store_orders_ok|]. split; [exact H1|]. split; [exact H2|].
  destruct (C1_completed_at_after_update _ _ _ _ _ _ _ _
              sample_store_orders_ok H1 H2) as (_ & Hchg & _).
  apply Hchg; [discriminate|reflexivity].
Defined.

(** C1, as stated, fails: alice, an admin, sends [completed_at] alone for
    an incoming order; the update is accepted, the status stays incoming
    and [completed_at] is the value sent. *)
Lemma C1_counterexample :
  let out := PUT_orders_id sample_env (req_completed_at "token-alice") sample_store in
  ∃ order,
    out.2 = respond 200 (OrderJson "Order updated successfully" order)
    ∧ orders out.1 !! order1_id = Some order
    ∧ Orders.status order = Some "incoming"
    ∧ Orders.completed_at order = Some "2024-01-01T00:00:00Z"
    ∧ ¬ (Orders.completed_at order ≠ None ↔ Orders.status order = Some "completed").
Proof.
  eexists. split; [vm_compute; reflexivity|].
  split; [vm_compute; reflexivity|].
  split; [reflexivity|]. split; [reflexivity|].
  simpl. intros [H _]. by specialize (H ltac:(done)).
Qed.

(** ** The viewer's [completed_at] *)




(** ** The fan-out to the admins *)

Lemma elem_of_select_admin_ids st a :
  a ∈ select_admin_ids st ↔ is_admin_profile st a.
Proof.
  unfold select_admin_ids, is_admin_profile. rewrite list_elem_of_fmap. split.
  - intros ([i p] & -> & Hin). apply list_elem_of_filter in Hin as [Hrole Hin].
    apply elem_of_map_to_list in Hin. by exists p.
  - intros (p & Hp & Hrole). exists (a, p). split; [done|].
    apply list_elem_of_filter. split; [done|]. by apply elem_of_map_to_list.
Qed.

Lemma NoDup_select_admin_ids st : NoDup (select_admin_ids st).
Proof.
  unfold select_admin_ids.
  eapply sublist_NoDup; [apply (NoDup_fst_map_to_list (user_profiles st))|].
  apply fmap_sublist, sublist_filter.
Qed.

Lemma count_NoDup (a : string) (l : list string) :
  NoDup l →
  List.length (filter (λ x, x = a) l) = if decide (a ∈ l) then 1 else 0.
Proof.
  induction 1 as [|x l Hx Hnd IH]; [done|].
  rewrite filter_cons. destruct (decide (x = a)) as [->|Hne].
  - simpl. rewrite IH. rewrite (decide_False (P := a ∈ l)) by done.
    by rewrite decide_True by apply list_elem_of_here.
  - rewrite IH. destruct (decide (a ∈ l)) as [Hin|Hnin].
    + by rewrite decide_True by (by apply list_elem_of_further).
    + rewrite decide_False; [done|].
      intros Hin. apply elem_of_cons in Hin as [->|Hin]; done.
Qed.

Lemma addressed_to_fmap env title msg type orderId (a : string) (l : list string) :
  addressed_to a
    (notifications_new_row env ∘ admin_notification title msg type orderId <$> l)
  = List.length (filter (λ x, x = a) l).
Proof.
  unfold addressed_to. induction l as [|x l IH]; [done|].
  rewrite fmap_cons, !filter_cons. simpl.
  destruct (decide (x = a)) as [->|Hne].
  - rewrite decide_True by done. simpl. by rewrite IH.
  - rewrite decide_False by congruence. done.
Qed.

Lemma first_error_None {A} (check : A → option PgError) (l : list A) :
  (∀ x, x ∈ l → check x = None) → first_error check l = None.
Proof.
  induction l as [|x l IH]; [done|]. intros H. simpl.
  rewrite (H x) by apply list_elem_of_here.
  apply IH. intros y Hy. apply H. by apply list_elem_of_further.
Qed.

(** With the admin client configured and the store answering, the
    fan-out appends one row per admin profile, in the order the store
    lists them. *)
Lemma createNotificationForAdmins_delivers env title msg type orderId st :
  supabaseAdmin env = true →
  admins_select_fault env = None →
  notifications_insert_fault env = None →
  profiles_ok env st →
  type ∈ notification_types →
  (∀ o, sql_of (or_null orderId) = Some o →
        uuid_in env o = true ∧ is_Some (orders st !! o)) →
  notifications (createNotificationForAdmins env title msg type orderId None st)
  = notifications st
    ++ (notifications_new_row env ∘ admin_notification title msg type orderId
        <$> select_admin_ids st).
Proof.
  intros Hcfg Hf1 Hf2 Hprof Htype Horder.
  unfold createNotificationForAdmins. rewrite Hcfg, Hf1, Hf2. simpl.
  case_bool_decide as Hlen.
  { apply nil_length_inv in Hlen. rewrite Hlen. simpl. by rewrite app_nil_r. }
  unfold notifications_insert. rewrite first_error_None.
  - simpl. by rewrite list_fmap_compose.
  - intros n Hn. apply list_elem_of_fmap in Hn as (a & -> & Ha).
    apply elem_of_select_admin_ids in Ha as (p & Hp & _).
    destruct (Hprof _ _ Hp) as [Huuid Huser].
    unfold notifications_check, admin_notification. simpl.
    rewrite Huuid. simpl.
    rewrite (bool_decide_eq_true_2 _ Htype). simpl.
    rewrite (bool_decide_eq_true_2 _ Huser). simpl.
    destruct (sql_of (or_null orderId)) as [o|] eqn:Ho; [|done].
    destruct (Horder o eq_refl) as [Hou Hoo].
    simpl. rewrite Hou. simpl. by rewrite (bool_decide_eq_true_2 _ Hoo).
Qed.

(** ** Strings that occur in strings *)

Lemma append_cons (c : ascii) (s t : string) : String c s +:+ t = String c (s +:+ t).
Proof. reflexivity. Qed.

Lemma append_nil_r (s : string) : s +:+ EmptyString = s.
Proof. induction s as [|c s IH]; [done|]. by rewrite append_cons, IH. Qed.

Lemma append_assoc (s t r : string) : (s +:+ t) +:+ r = s +:+ (t +:+ r).
Proof. induction s as [|c s IH]; [done|]. by rewrite !append_cons, IH. Qed.

Lemma mentions_refl (s : string) : mentions s s.
Proof. exists EmptyString, EmptyString. by rewrite append_nil_r. Qed.

Lemma mentions_app_l (s t x : string) : mentions s x → mentions (s +:+ t) x.
Proof.
  intros (pre & post & ->). exists pre, (post +:+ t).
  by rewrite !append_assoc.
Qed.

Lemma mentions_app_r (s t x : string) : mentions t x → mentions (s +:+ t) x.
Proof.
  intros (pre & post & ->). exists (s +:+ pre), post.
  by rewrite !append_assoc.
Qed.

Lemma mentions_empty (s : string) : mentions s EmptyString.
Proof. exists s, EmptyString. by rewrite append_nil_r. Qed.

Lemma moved_title_mentions (new : string) :
  mentions (moved_title new) (toUpperCase new).
Proof. apply mentions_app_r, mentions_refl. Qed.

Lemma moved_message_mentions (order : Orders.row) (new cn od : string) :
  Orders.customer_name order = Some cn →
  Orders.order_details order = Some od →
  mentions (moved_message order new) cn ∧ mentions (moved_message order new) od.
Proof.
  intros Hcn Hod. unfold moved_message. rewrite Hcn, Hod. simpl. split.
  - apply mentions_app_r, mentions_app_l, mentions_refl.
  - do 5 apply mentions_app_r.
    case_bool_decide as He; simpl.
    + subst od. apply mentions_empty.
    + apply mentions_app_r, mentions_refl.
Qed.

Lemma moved_type_valid (new : string) : moved_type new ∈ notification_types.
Proof.
  unfold moved_type, notification_types.
  repeat case_bool_decide; rewrite !elem_of_cons; auto 10.
Qed.

(** ** C2: one notification per admin when the status changes *)

(** C2.  Take an update the route accepts, whose payload carries the
    status [new], on a store that satisfies its constraints, the calls of
    the fan-out to the store going through.  When the order's status
    before the update is not [new], the update appends notifications:
    exactly one addressed to each profile whose role is admin (whoever
    sent the request), none to anyone else; each is titled with [new] in
    upper case, has a message that contains the order's customer name and
    details, and has type success when [new] is completed, warning when
    it is declined, order otherwise.  When the status before the update
    is already [new], no notification is written. *)
Theorem C2_status_change_notifications env u req st st' msg order OLD new :
  orders_ok st →
  profiles_ok env st →
  admins_select_fault env = None →
  notifications_insert_fault env = None →
  orders st !! params_id req = Some OLD →
  body req !! "status" = Some (JStr new) →
  put_order env (Some u) req st = (st', respond 200 (OrderJson msg order)) →
  (Orders.status OLD ≠ Some new →
     ∃ created,
       notifications st' = notifications st ++ created
       ∧ (∀ a, is_admin_profile st a → addressed_to a created = 1)
       ∧ (∀ a, ¬ is_admin_profile st a → addressed_to a created = 0)
       ∧ (∀ n, n ∈ created →
            Notifications.title n = Some ("Order Moved: " +:+ toUpperCase new)
            ∧ mentions ("Order Moved: " +:+ toUpperCase new) (toUpperCase new)
            ∧ Notifications.type n =
                Some (if bool_decide (new = "completed") then "success"
                      else if bool_decide (new = "declined") then "warning"
                      else "order")
            ∧ ∃ text cn od,
                Notifications.message n = Some text
                ∧ Orders.customer_name order = Some cn
                ∧ Orders.order_details order = Some od
                ∧ mentions text cn ∧ mentions text od))
  ∧ (Orders.status OLD = Some new → notifications st' = notifications st).
Proof.
  intros Hok Hprof Hf1 Hf2 Hold Hstatus Hput.
  apply put_order_accepted in Hput as (OLD' & Hcfg & _ & Huuid & Hold' & Hrow & ->).
  rewrite Hold in Hold'. simplify_eq.
  apply orders_update_row_inv in Hrow as (Horder & _ & Hcons).
  set (isAdmin := bool_decide (ReqUser.role u = "admin")) in *.
  set (upd := build_updateData isAdmin (body req)) in *.
  set (st1 := with_orders (<[params_id req := order]> (orders st)) st).
  assert (Hupd : upd !! "status" = Some (JStr new)).
  { unfold upd. by rewrite build_updateData_status. }
  assert (Hnew : Orders.status order = Some new).
  { rewrite Horder, orders_before_update_status, orders_assign_status.
    unfold set_col. by rewrite Hupd. }
  destruct (orders_constraints_status _ Hcons) as (s & Hs & Hin).
  rewrite Hnew in Hs. injection Hs as <-.
  assert (Hne : new ≠ EmptyString).
  { intros ->. unfold order_statuses in Hin. rewrite !elem_of_cons in Hin.
    rewrite elem_of_nil in Hin. intuition discriminate. }
  assert (Htruthy : truthy_str (upd !! "status") = Some new).
  { rewrite Hupd. simpl. by rewrite bool_decide_eq_false_2. }
  assert (Hid : Orders.id order = params_id req).
  { rewrite Horder, orders_before_update_id. simpl. by destruct (Hok _ _ Hold). }
  unfold notify_update. rewrite Htruthy. simpl.
  split.
  - intros Hchg. rewrite bool_decide_eq_false_2 by done. simpl.
    rewrite createNotificationForAdmins_delivers; try done.
    + eexists. split; [reflexivity|].
      split; [|split].
      * intros a Ha. rewrite addressed_to_fmap.
        rewrite count_NoDup by apply NoDup_select_admin_ids.
        by rewrite decide_True by (by apply elem_of_select_admin_ids).
      * intros a Ha. rewrite addressed_to_fmap.
        rewrite count_NoDup by apply NoDup_select_admin_ids.
        by rewrite decide_False by (by rewrite elem_of_select_admin_ids).
      * intros n Hn. apply list_elem_of_fmap in Hn as (a & -> & _). simpl.
        split; [done|]. split; [apply moved_title_mentions|]. split; [done|].
        destruct (orders_constraints_required _ Hcons) as [[cn Hcn] [od Hod]].
        exists (moved_message order new), cn, od.
        split; [done|]. split; [done|]. split; [done|].
        by apply moved_message_mentions.
    + apply moved_type_valid.
    + intros o Ho. simpl in Ho.
      destruct (bool_decide (Orders.id order = EmptyString)); simpl in Ho; [done|].
      injection Ho as <-. rewrite Hid. split; [done|].
      simpl. rewrite lookup_insert_eq. by eexists.
  - intros Hsame. by rewrite bool_decide_eq_true_2.
Qed.

(** Every sample profile belongs to a sample identity. *)
Lemma sample_store_profiles_ok : profiles_ok sample_env sample_store.
Proof.
  apply (bool_decide_unpack
    (map_Forall (λ i (_ : Profiles.row),
       uuid_in sample_env i = true ∧ is_Some (auth_users sample_store !! i))
       (user_profiles sample_store))).
  vm_compute. exact I.
Defined.

(** C2 on the sample store: alice, an admin, moves the order; she and
    bob get one notification each, vera none. *)
Lemma C2_witness :
  ∃ created,
    notifications (put_order sample_env (Some alice) req_complete sample_store).1
      = notifications sample_store ++ created
    ∧ addressed_to alice_id created = 1
    ∧ addressed_to bob_id created = 1
    ∧ addressed_to vera_id created = 0.
Proof.
  assert (H1 : orders sample_store !! params_id req_complete = Some sample_order)
    by reflexivity.
  assert (H2 : body req_complete !! "status" = Some (JStr "completed"))
    by reflexivity.
  assert (H3 : put_order sample_env (Some alice) req_complete sample_store
    = ((put_order sample_env (Some alice) req_complete sample_store).1,
       respond 200 (OrderJson "Order updated successfully" sample_order_completed)))
    by (vm_compute; reflexivity).
  destruct (C2_status_change_notifications sample_env alice req_complete sample_store
              _ _ _ sample_order "completed"
              sample_store_orders_ok sample_store_profiles_ok
              eq_refl eq_refl H1 H2 H3) as [Hchg _].
  destruct Hchg as (created & Heq & Hadm & Hnon & _); [discriminate|].
  exists created. split; [exact Heq|]. split; [|split].
  - apply Hadm. exists (sample_profile "alice" "admin"). by split.
  - apply Hadm. exists (sample_profile "bob" "admin"). by split.
  - apply Hnon. intros (p & Hp & Hr).
    vm_compute in Hp. injection Hp as <-. discriminate.
Defined.

(** ** C5: a failing fan-out does not fail the update *)

Lemma orders_update_frame env upd id st st1 res :
  orders_update env upd id st = (st1, res) →
  user_profiles st1 = user_profiles st ∧ notifications st1 = notifications st
  ∧ auth_users st1 = auth_users st.
Proof.
  unfold orders_update. intros H.
  repeat (case_match; simplify_eq/=); done.
Qed.

Lemma orders_update_stored env upd id st st1 order :
  orders_update env upd id st = (st1, inr order) →
  orders st1 = <[id := order]> (orders st).
Proof.
  unfold orders_update. intros H.
  repeat (case_match; simplify_eq/=); done.
Qed.

(** C5.  Once the store has accepted the update of the order, the route
    answers 200 with the updated row and the table orders holds it,
    whatever the two calls of the fan-out do: the environment [env] is
    arbitrary, so the lookup of the admins may return an error or throw,
    there may be no admin, and the insert of the notifications may return
    an error, throw or be refused by the store.  When a call fails or no
    admin is found, no notification is written. *)
Theorem C5_fanout_failure_swallowed env u req st st1 order :
  supabaseAdmin env = true →
  size (build_updateData (bool_decide (ReqUser.role u = "admin")) (body req)) ≠ 0 →
  orders_update env
    (build_updateData (bool_decide (ReqUser.role u = "admin")) (body req))
    (params_id req) st = (st1, inr order) →
  ∃ st',
    put_order env (Some u) req st
      = (st', respond 200 (OrderJson "Order updated successfully" order))
    ∧ orders st' = <[params_id req := order]> (orders st)
    ∧ (is_Some (admins_select_fault env)
       ∨ is_Some (notifications_insert_fault env)
       ∨ select_admin_ids st = [] →
       notifications st' = notifications st).
Proof.
  intros Hcfg Hsize Hupd.
  eexists. split; [|split].
  - unfold put_order. rewrite (bool_decide_eq_false_2 _ Hsize), Hcfg. simpl.
    rewrite Hupd. reflexivity.
  - destruct (notify_update_frame env (bool_decide (ReqUser.role u = "admin"))
      (build_updateData (bool_decide (ReqUser.role u = "admin")) (body req))
      (match orders_select_single env (params_id req) st with
       | inr o => Some o | inl _ => None end) order st1) as [-> _].
    by apply orders_update_stored in Hupd.
  - intros Hfail.
    destruct (orders_update_frame _ _ _ _ _ _ Hupd) as (Hprof & Hnot & _).
    assert (Hadmins : select_admin_ids st1 = select_admin_ids st).
    { unfold select_admin_ids. by rewrite Hprof. }
    rewrite <- Hnot.
    unfold notify_update, createNotificationForAdmins.
    rewrite Hadmins.
    destruct Hfail as [[f Hf]|[[f Hf]| Hnone]].
    + rewrite Hf. by repeat case_match.
    + rewrite Hf. by repeat case_match.
    + rewrite Hnone. by repeat case_match.
Qed.

(** C5 on the sample store, the insert of the notifications failing. *)
Lemma C5_witness :
  ∃ st',
    put_order failing_env (Some vera) req_complete sample_store
      = (st', respond 200 (OrderJson "Order updated successfully" sample_order_completed))
    ∧ orders st' !! order1_id = Some sample_order_completed
    ∧ notifications st' = [].
Proof.
  destruct (C5_fanout_failure_swallowed failing_env vera req_complete sample_store
              (with_orders (<[order1_id := sample_order_completed]> (orders sample_store))
                 sample_store)
              sample_order_completed)
    as (st' & Hput & Horders & Hnot).
  - reflexivity.
  - vm_compute. discriminate.
  - vm_compute. reflexivity.
  - exists st'. split; [exact Hput|]. split.
    + rewrite Horders. apply lookup_insert_eq.
    + apply Hnot. right. left. by eexists.
Defined.

(** ** C6: authentication *)

Lemma authenticate_identity env req st u :
  authenticate env req st = inr u →
  supabaseAdmin env = true ∧ is_Some (auth_users st !! ReqUser.id u).
Proof.
  unfold authenticate, auth_getUser. intros H.
  repeat (case_match; simplify_eq/=); try done.
  all: rewrite negb_false_iff in *.
  all: split; [done|].
  all: match goal with
       | H : _ ≫= _ = Some _ |- _ =>
           apply bind_Some in H as (uid & Hs & H);
           apply bind_Some in H as (a & Ha & H); simplify_eq; by eexists
       end.
Qed.

Lemma authenticate_error env req st r :
  authenticate env req st = inl r → ∃ e d, json r = ErrorJson e d.
Proof.
  unfold authenticate. intros H.
  repeat (case_match; simplify_eq/=); by eexists _, _.
Qed.

(** C6.  [authenticate] answers 401 when the authorization header is
    missing, when it does not start with "Bearer ", and when the provider
    does not verify the token.  When the provider verifies the token, the
    admin client being configured, and no profile row has the identity's
    id, the request goes on with the role viewer. *)
Theorem C6_authenticate env req st :
  (authorization req = None → authenticate env req st = inl missing_header)
  ∧ (∀ h, authorization req = Some h → prefix "Bearer " h = false →
       authenticate env req st = inl missing_header)
  ∧ (∀ h, authorization req = Some h → prefix "Bearer " h = true →
       auth_getUser (bearer_token h) st = None →
       authenticate env req st = inl invalid_token)
  ∧ (∀ h uid mail, authorization req = Some h → prefix "Bearer " h = true →
       auth_getUser (bearer_token h) st = Some (uid, mail) →
       supabaseAdmin env = true →
       user_profiles st !! uid = None →
       authenticate env req st = inr (ReqUser.mk uid (Some mail) "viewer"))
  ∧ http_status missing_header = 401 ∧ http_status invalid_token = 401.
Proof.
  unfold authenticate, bearer_token.
  split; [by intros ->|]. split; [by intros h -> ->|].
  split; [by intros h -> -> ->|]. split; [|done].
  intros h uid mail -> -> -> -> Hnone. simpl.
  unfold profiles_select_role. rewrite Hnone.
  by destruct (uuid_in env uid).
Qed.

(** C6 on the sample store with its profiles taken out. *)
Lemma C6_witness :
  let st := with_users (auth_users sample_store) ∅ sample_store in
  authenticate sample_env (request "token-vera" order1_id []) st
    = inr (ReqUser.mk vera_id (Some "vera@dc.example") "viewer")
  ∧ authenticate sample_env (request "token-nobody" order1_id []) st
    = inl invalid_token.
Proof.
  intros st.
  destruct (C6_authenticate sample_env (request "token-vera" order1_id []) st)
    as (_ & _ & _ & Hviewer & _).
  destruct (C6_authenticate sample_env (request "token-nobody" order1_id []) st)
    as (_ & _ & Hbad & _).
  split.
  - by apply (Hviewer ("Bearer token-vera")).
  - by apply (Hbad ("Bearer token-nobody")).
Defined.

(** ** Values of a payload, as the store reads them *)

Lemma sql_of_or_null (v : option jsval) : sql_of (or_null v) = truthy_str v.
Proof.
  destruct v as [[|s]|]; simpl; try done. by case_bool_decide.
Qed.

Lemma sql_of_or_else (v : option jsval) (d : string) :
  sql_of (or_else v d) = Some (default d (truthy_str v)).
Proof.
  destruct v as [[|s]|]; simpl; try done. by case_bool_decide.
Qed.

Lemma truthy_sql_of (v : option jsval) :
  truthy v = true → v ≫= sql_of = truthy_str v ∧ is_Some (truthy_str v).
Proof.
  destruct v as [[|s]|]; simpl; try done.
  case_bool_decide; [done|]. by split; [|eexists].
Qed.

(** ** C7: deleting an order *)




(** ** C9: the statistics summary *)

Lemma count_status_cons (s : string) (o : option string) (rows : list (option string)) :
  count_status s (o :: rows)
  = (if bool_decide (o = Some s) then 1 else 0) + count_status s rows.
Proof.
  unfold count_status. rewrite filter_cons.
  by case_bool_decide; [rewrite decide_True|rewrite decide_False].
Qed.

Lemma total_is_sum (rows : list (option string)) :
  (∀ o, o ∈ rows → ∃ s, o = Some s ∧ s ∈ order_statuses) →
  List.length rows
  = count_status "incoming" rows + count_status "pending" rows
    + count_status "accepted" rows + count_status "declined" rows
    + count_status "completed" rows.
Proof.
  induction rows as [|o rows IH]; [done|]. intros Hrows.
  rewrite !count_status_cons. simpl.
  rewrite IH by (intros o' Ho'; apply Hrows; by apply list_elem_of_further).
  destruct (Hrows o) as (s & -> & Hs); [apply list_elem_of_here|].
  unfold order_statuses in Hs. rewrite !elem_of_cons, elem_of_nil in Hs.
  destruct Hs as [->|[->|[->|[->|[->|[]]]]]]; simpl; lia.
Qed.

Lemma orders_select_status_valid env st o :
  orders_ok st →
  o ∈ orders_select_status env st →
  ∃ s, o = Some s ∧ s ∈ order_statuses.
Proof.
  intros Hok. unfold orders_select_status.
  destruct (anon_select_visible env); [|by intros ?%elem_of_nil].
  intros Ho. apply list_elem_of_fmap in Ho as (r & -> & Hr).
  apply list_elem_of_fmap in Hr as ([i r'] & -> & Hir).
  apply elem_of_map_to_list in Hir.
  destruct (Hok _ _ Hir) as [_ Hcons].
  by apply orders_constraints_status.
Qed.

(** C9.  On a store whose orders satisfy the constraints of the table
    (the status is not null and is one of the five), the total the
    statistics summary reports is the sum of its five counts. *)
Theorem C9_stats_total env req st st' stats :
  orders_ok st →
  GET_orders_stats_summary env req st = (st', respond 200 (StatsJson stats)) →
  total stats
  = incoming stats + pending stats + accepted stats + declined stats
    + completed stats.
Proof.
  intros Hok. unfold GET_orders_stats_summary, authenticated.
  destruct (authenticate env req st) as [r|u] eqn:Hauth.
  { intros [= _ ->]. by apply authenticate_error in Hauth as (e & d & ?). }
  unfold get_stats_summary, respond. intros [= _ <-]. simpl.
  apply total_is_sum. intros o Ho. by eapply orders_select_status_valid.
Qed.

(** C9 on the sample store. *)
Lemma C9_witness :
  orders_ok sample_store
  ∧ GET_orders_stats_summary sample_env (request "token-vera" EmptyString [])
      sample_store
    = (sample_store, respond 200 (StatsJson sample_stats))
  ∧ total sample_stats
    = incoming sample_stats + pending sample_stats + accepted sample_stats
      + declined sample_stats + completed sample_stats.
Proof.
  assert (H : GET_orders_stats_summary sample_env
                (request "token-vera" EmptyString []) sample_store
              = (sample_store, respond 200 (StatsJson sample_stats)))
    by (vm_compute; reflexivity).
  split; [exact sample_store_orders_ok|]. split; [exact H|].
  exact (C9_stats_total _ _ _ _ _ sample_store_orders_ok H).
Defined.

(** ** The errors of an insert into the history *)

Lemma order_history_insert_message env d st st1 e :
  order_history_insert env d st = (st1, inl e) →
  message e ≠ "order_id and event_type are required".
Proof.
  unfold order_history_insert, order_history_constraints,
    order_history_foreign_keys.
  intros H. repeat (case_match; simplify_eq/=); done.
Qed.

(** ** C10: the roles of the accounts the registration endpoints create *)

Lemma auth_create_user_inr env email password mu mr st st1 id :
  auth_create_user env email password mu mr st = (st1, inr id) →
  id = gen_random_uuid env
  ∧ auth_users st !! id = None
  ∧ user_profiles st !! id = None
  ∧ st1 = with_users
            (<[id := AuthUsers.mk email mu mr]> (auth_users st))
            (<[id := handle_new_user (NOW env) (AuthUsers.mk email mu mr)]>
               (user_profiles st)) st.
Proof.
  unfold auth_create_user. intros H.
  repeat (case_match; simplify_eq/=).
  match goal with
  | H : orb _ _ = false |- _ => apply orb_false_iff in H as [Ha Hp]
  end.
  apply bool_decide_eq_false in Ha, Hp.
  apply eq_None_not_Some in Ha. apply eq_None_not_Some in Hp. done.
Qed.

Lemma with_retries_Some {A} (retries failures : nat) (answer x : A) :
  with_retries retries failures answer = Some x → x = answer.
Proof.
  revert failures. induction retries as [|r IH]; intros failures; [done|].
  simpl. destruct failures as [|f]; [by intros [= ->]|].
  case_bool_decide; [done|]. apply IH.
Qed.

(** An update of a profile that keeps its role: whatever the store
    answers, the row is there afterwards with that role. *)
Lemma profiles_update_keeps_role env uid id username role hash st st2 res OLD :
  user_profiles st !! id = Some OLD →
  Profiles.role OLD = Some role →
  profiles_update env uid id username role hash st = (st2, res) →
  auth_users st2 = auth_users st
  ∧ ∃ p, user_profiles st2 !! id = Some p ∧ Profiles.role p = Some role
         ∧ ∀ r, res = inr r → r = p.
Proof.
  intros Hold Hrole. unfold profiles_update. rewrite Hold. intros H.
  repeat (case_match; simplify_eq/=); split; try done.
  all: try (by exists OLD).
  all: eexists; rewrite lookup_insert_eq; split; [done|]; split; [done|].
  all: by intros r [= <-].
Qed.

Ltac not_created := by intros [= _ <-] [=].

Lemma create_account_created env role failed created email password username
    st st' r :
  role ≠ EmptyString →
  create_account env role failed created email password username st = (st', r) →
  http_status r = 201 →
  account_created role st st' r.
Proof.
  intros Hrole. unfold create_account, network_error, registered.
  destruct (username_taken env username st); [not_created|].
  destruct (supabaseAdmin env); cbn [negb]; [|not_created].
  destruct (email_registered email st); [not_created|].
  destruct (with_retries _ _ _) as [[st1 [e|id]]|] eqn:Hretry;
    [not_created| |not_created].
  apply with_retries_Some in Hretry. symmetry in Hretry.
  apply auth_create_user_inr in Hretry as (-> & Hnone_a & Hnone_p & ->).
  destruct (profiles_update _ _ _ _ _ _ _) as [st2 res] eqn:Hupd.
  eapply profiles_update_keeps_role in Hupd as (Hauth & p & Hp & Hr & Hres);
    [|by apply lookup_insert_eq|done].
  simpl in Hauth.
  destruct res as [profileError|profile].
  - rewrite Hp. intros [= <- <-] _.
    eexists created, _, p, _. simpl.
    repeat split; try done.
    + simpl. rewrite Hauth. apply lookup_insert_eq.
    + done.
  - specialize (Hres _ eq_refl). subst p. rewrite Hr. simpl.
    rewrite (bool_decide_eq_false_2 _ Hrole). simpl.
    intros [= <- <-] _.
    eexists created, _, profile, _. simpl.
    repeat split; try done.
    + simpl. rewrite Hauth. apply lookup_insert_eq.
    + done.
Qed.

Lemma register_created env req st st' r :
  register env req st = (st', r) →
  http_status r = 201 →
  account_created "viewer" st st' r.
Proof.
  unfold register, registered.
  destruct (truthy_str (body req !! "email")) as [email|];
    [|destruct (truthy_str (body req !! "password")); not_created].
  destruct (truthy_str (body req !! "password")) as [password|]; [|not_created].
  destruct (truthy_str (body req !! "username")) as [username|]; [|not_created].
  destruct (String.length password <? 6)%nat; [not_created|].
  destruct (username_taken env username st); [not_created|].
  destruct (0 <? network_failures env)%nat; [not_created|].
  destruct (auth_create_user _ _ _ _ _ _) as [st1 [e|id]] eqn:Hcreate; [not_created|].
  apply auth_create_user_inr in Hcreate as (-> & Hnone_a & Hnone_p & ->).
  intros [= <- <-] _.
  destruct (anon_update_applies env).
  - destruct (profiles_update env (anon_uid env) (gen_random_uuid env) username
                "viewer" (bcrypt_hash env password) _) as [st2 res] eqn:Hupd.
    eapply profiles_update_keeps_role in Hupd as (Hauth & p & Hp & Hr & _);
      [|by apply lookup_insert_eq|done].
    simpl in Hauth.
    eexists _, _, p, _. simpl. repeat split; try done.
    + simpl. rewrite Hauth. apply lookup_insert_eq.
    + done.
  - eexists _, _, _, _. simpl. repeat split; try done.
    + apply lookup_insert_eq.
    + done.
    + apply lookup_insert_eq.
    + done.
Qed.

Lemma register_admin_created env req st st' r :
  register_admin env req st = (st', r) →
  http_status r = 201 →
  account_created "admin" st st' r.
Proof.
  unfold register_admin.
  destruct (truthy_str (body req !! "email")) as [email|];
    [|destruct (truthy_str (body req !! "password")); not_created].
  destruct (truthy_str (body req !! "password")) as [password|]; [|not_created].
  destruct (truthy_str (body req !! "username")) as [username|]; [|not_created].
  destruct (String.length password <? 6)%nat; [not_created|].
  by apply create_account_created.
Qed.

Lemma create_viewer_created env req st st' r :
  create_viewer env req st = (st', r) →
  http_status r = 201 →
  account_created "viewer" st st' r.
Proof.
  unfold create_viewer.
  destruct (truthy_str (body req !! "username")) as [username|]; [|not_created].
  destruct (truthy_str (body req !! "password")) as [password|]; [|not_created].
  destruct (truthy_str (body req !! "email")) as [email|]; [|not_created].
  destruct (emailRegex_test email); cbn [negb]; [|not_created].
  destruct (String.length password <? 6)%nat; [not_created|].
  by apply create_account_created.
Qed.

(** C10.  The three registration endpoints do not read the [role] of the
    request body: with any value for it they answer, and leave the store,
    as without it.  Whenever POST /api/auth/register or POST
    /api/auth/create-viewer answers 201, the account it has created (a
    new identity, with its profile) has the role viewer; whenever POST
    /api/auth/register-admin answers 201, the account has the role
    admin. *)
Theorem C10_registration_roles env req st :
  (∀ v, register env (with_field "role" v req) st = register env req st
        ∧ create_viewer env (with_field "role" v req) st = create_viewer env req st
        ∧ register_admin env (with_field "role" v req) st = register_admin env req st)
  ∧ (∀ st' r, register env req st = (st', r) → http_status r = 201 →
       account_created "viewer" st st' r)
  ∧ (∀ st' r, create_viewer env req st = (st', r) → http_status r = 201 →
       account_created "viewer" st st' r)
  ∧ (∀ st' r, register_admin env req st = (st', r) → http_status r = 201 →
       account_created "admin" st st' r).
Proof.
  split; [|split; [|split]].
  - intros v. unfold register, create_viewer, register_admin, with_field. simpl.
    by rewrite !lookup_insert_ne by done.
  - intros st' r. apply register_created.
  - intros st' r. apply create_viewer_created.
  - intros st' r. apply register_admin_created.
Qed.

(** C10 on the sample store: a body that asks for the role admin, sent
    to each of the three endpoints. *)
Lemma C10_witness :
  (∃ st' r,
     register sample_env req_register sample_store = (st', r)
     ∧ http_status r = 201
     ∧ account_created "viewer" sample_store st' r)
  ∧ (∃ st' r,
       create_viewer sample_env req_register sample_store = (st', r)
       ∧ http_status r = 201
       ∧ account_created "viewer" sample_store st' r)
  ∧ (∃ st' r,
       register_admin sample_env req_register sample_store = (st', r)
       ∧ http_status r = 201
       ∧ account_created "admin" sample_store st' r).
Proof.
  destruct (C10_registration_roles sample_env req_register sample_store)
    as (_ & Hreg & Hviewer & Hadmin).
  split; [|split].
  - destruct (register sample_env req_register sample_store) as [st' r] eqn:H.
    assert (Hs : http_status r = 201).
    { apply (f_equal snd) in H. simpl in H. rewrite <- H. vm_compute. reflexivity. }
    exists st', r. split; [reflexivity|]. split; [exact Hs|]. by apply Hreg.
  - destruct (create_viewer sample_env req_register sample_store) as [st' r] eqn:H.
    assert (Hs : http_status r = 201).
    { apply (f_equal snd) in H. simpl in H. rewrite <- H. vm_compute. reflexivity. }
    exists st', r. split; [reflexivity|]. split; [exact Hs|]. by apply Hviewer.
  - destruct (register_admin sample_env req_register sample_store) as [st' r] eqn:H.
    assert (Hs : http_status r = 201).
    { apply (f_equal snd) in H. simpl in H. rewrite <- H. vm_compute. reflexivity. }
    exists st', r. split; [reflexivity|]. split; [exact Hs|]. by apply Hadmin.
Defined.

(** * Properties of the other routes *)

(** ** PUT /api/orders/:id is a merge patch *)

Lemma patch_column_assign name get u OLD :
  (name, get) ∈ patch_columns →
  get (orders_assign u OLD) = set_col name u (get OLD).
Proof.
  unfold patch_columns. rewrite !elem_of_cons, elem_of_nil.
  intros H. by repeat destruct H as [[= -> ->]|H].
Qed.

Lemma patch_column_triggers name get now OLD NEW :
  (name, get) ∈ patch_columns →
  get (orders_before_update now OLD NEW) = get NEW.
Proof.
  unfold patch_columns. rewrite !elem_of_cons, elem_of_nil.
  unfold orders_before_update, handle_order_completion, is_distinct_from.
  intros H. repeat destruct H as [[= -> ->]|H]; try done; by repeat case_match.
Qed.

Lemma patch_column_permitted name get :
  (name, get) ∈ patch_columns → name ∈ permitted_fields.
Proof.
  unfold patch_columns, permitted_fields. rewrite !elem_of_cons, !elem_of_nil.
  intros H. repeat destruct H as [[= -> ->]|H]; auto 10.
Qed.

Lemma orders_before_update_fixed now OLD NEW :
  let r := orders_before_update now OLD NEW in
  Orders.id r = Orders.id NEW ∧ Orders.created_at r = Orders.created_at NEW
  ∧ Orders.created_by r = Orders.created_by NEW ∧ Orders.updated_at r = now.
Proof.
  unfold orders_before_update, handle_order_completion, is_distinct_from.
  by repeat case_match.
Qed.

(** X1.  An update the route accepts writes the fields of the payload and
    nothing else of the row: each of the eight columns both roles may
    write holds the payload's value when the payload has the field, and
    its old value when it has not; the id, [created_at] and [created_by]
    stay, and [updated_at] is the time of the update. *)
Theorem X1_put_order_merge_patch env u req st st' msg order OLD :
  orders st !! params_id req = Some OLD →
  put_order env (Some u) req st = (st', respond 200 (OrderJson msg order)) →
  (∀ name get, (name, get) ∈ patch_columns →
     get order = match body req !! name with
                 | Some v => sql_of v
                 | None => get OLD
                 end)
  ∧ Orders.id order = Orders.id OLD
  ∧ Orders.created_at order = Orders.created_at OLD
  ∧ Orders.created_by order = Orders.created_by OLD
  ∧ Orders.updated_at order = NOW env.
Proof.
  intros Hold Hput.
  apply put_order_accepted in Hput as (OLD' & _ & _ & _ & Hold' & Hrow & _).
  rewrite Hold in Hold'. injection Hold' as <-.
  apply orders_update_row_inv in Hrow as (-> & _ & _).
  split.
  - intros name get Hin.
    rewrite (patch_column_triggers name) by done.
    rewrite (patch_column_assign name) by done.
    unfold set_col. rewrite lookup_build_updateData.
    by rewrite bool_decide_eq_true_2 by (by eapply patch_column_permitted).
  - by destruct (orders_before_update_fixed (NOW env) OLD
                   (orders_assign
                      (build_updateData (bool_decide (ReqUser.role u = "admin"))
                         (body req)) OLD)) as (-> & -> & -> & ->).
Qed.

(** X1 on the sample store: alice sets the location of the sample order. *)
Lemma X1_witness :
  orders sample_store !! params_id req_location = Some sample_order
  ∧ Orders.location sample_order_located = Some "Cebu"
  ∧ Orders.customer_name sample_order_located = Orders.customer_name sample_order
  ∧ Orders.updated_at sample_order_located = NOW sample_env.
Proof.
  assert (H1 : orders sample_store !! params_id req_location = Some sample_order)
    by reflexivity.
  assert (H2 : put_order sample_env (Some alice) req_location sample_store
    = ((put_order sample_env (Some alice) req_location sample_store).1,
       respond 200 (OrderJson "Order updated successfully" sample_order_located)))
    by (vm_compute; reflexivity).
  destruct (X1_put_order_merge_patch _ _ _ _ _ _ _ _ H1 H2)
    as (Hcols & _ & _ & _ & Hupd).
  split; [exact H1|]. split; [|split; [|exact Hupd]].
  - apply (Hcols "location" Orders.location).
    unfold patch_columns. rewrite !elem_of_cons. auto 10.
  - apply (Hcols "customer_name" Orders.customer_name).
    unfold patch_columns. rewrite !elem_of_cons. auto 10.
Defined.

(** ** The notifications of an update that keeps the status *)

Lemma truthy_str_None (v : option jsval) : truthy v = false → truthy_str v = None.
Proof.
  destruct v as [[|s]|]; simpl; try done.
  intros H. apply negb_false_iff in H. by rewrite H.
Qed.

Lemma put_order_accepted_id env u req st st' msg order :
  orders_ok st →
  put_order env (Some u) req st = (st', respond 200 (OrderJson msg order)) →
  Orders.id order = params_id req.
Proof.
  intros Hok Hput.
  apply put_order_accepted in Hput as (OLD & _ & _ & _ & Hold & Hrow & _).
  destruct (Hok _ _ Hold) as [Hid _].
  by destruct (orders_update_row_ok _ _ _ _ _ Hid Hrow).
Qed.

Lemma updated_notification_eq env order :
  updated_notification env order
  = notifications_new_row env
    ∘ admin_notification "Order Updated"
        ("Order for " +:+ interpolate (Orders.customer_name order)
         +:+ " has been updated")
        "info" (Some (JStr (Orders.id order))).
Proof. reflexivity. Qed.

(** X2.  An accepted update whose payload has no status, the store
    satisfying its constraints and the calls of the fan-out going
    through: sent by an admin, it appends one notification "Order
    Updated" of type info for each admin profile, unread, and none for
    anyone else; sent by a viewer, it writes no notification. *)
Theorem X2_field_update_notifications env u req st st' msg order :
  orders_ok st →
  profiles_ok env st →
  admins_select_fault env = None →
  notifications_insert_fault env = None →
  truthy (body req !! "status") = false →
  put_order env (Some u) req st = (st', respond 200 (OrderJson msg order)) →
  (ReqUser.role u ≠ "admin" → notifications st' = notifications st)
  ∧ (ReqUser.role u = "admin" →
     notifications st'
       = notifications st ++ (updated_notification env order <$> select_admin_ids st)
     ∧ (∀ a, is_admin_profile st a →
          addressed_to a (updated_notification env order <$> select_admin_ids st) = 1)
     ∧ (∀ a, ¬ is_admin_profile st a →
          addressed_to a (updated_notification env order <$> select_admin_ids st) = 0)
     ∧ (∀ a, Notifications.title (updated_notification env order a)
               = Some "Order Updated"
             ∧ Notifications.type (updated_notification env order a) = Some "info"
             ∧ Notifications.read (updated_notification env order a) = false)).
Proof.
  intros Hok Hprof Hf1 Hf2 Hstatus Hput.
  pose proof (put_order_accepted_id _ _ _ _ _ _ _ Hok Hput) as Hid.
  apply put_order_accepted in Hput as (OLD & Hcfg & _ & Huuid & Hold & Hrow & ->).
  unfold notify_update.
  rewrite build_updateData_status, (truthy_str_None _ Hstatus).
  split.
  - intros Hrole. by rewrite (bool_decide_eq_false_2 _ Hrole).
  - intros Hrole. rewrite (bool_decide_eq_true_2 _ Hrole).
    rewrite createNotificationForAdmins_delivers; try done.
    + split; [|split; [|split; [|done]]].
      * by rewrite updated_notification_eq.
      * intros a Ha. rewrite updated_notification_eq, addressed_to_fmap.
        rewrite count_NoDup by apply NoDup_select_admin_ids.
        by rewrite decide_True by (by apply elem_of_select_admin_ids).
      * intros a Ha. rewrite updated_notification_eq, addressed_to_fmap.
        rewrite count_NoDup by apply NoDup_select_admin_ids.
        by rewrite decide_False by (by rewrite elem_of_select_admin_ids).
    + unfold notification_types. rewrite !elem_of_cons. auto 10.
    + intros o Ho. simpl in Ho.
      destruct (bool_decide (Orders.id order = EmptyString)); simpl in Ho; [done|].
      injection Ho as <-. rewrite Hid. split; [done|].
      simpl. rewrite lookup_insert_eq. by eexists.
Qed.

(** X2 on the sample store: alice sets the location; she and bob are
    told, vera is not. *)
Lemma X2_witness :
  notifications (put_order sample_env (Some alice) req_location sample_store).1
    = [updated_notification sample_env sample_order_located alice_id;
       updated_notification sample_env sample_order_located bob_id]
  ∧ notifications (put_order sample_env (Some vera) req_location sample_store).1 = [].
Proof.
  assert (Ha : put_order sample_env (Some alice) req_location sample_store
    = ((put_order sample_env (Some alice) req_location sample_store).1,
       respond 200 (OrderJson "Order updated successfully" sample_order_located)))
    by (vm_compute; reflexivity).
  assert (Hv : put_order sample_env (Some vera) req_location sample_store
    = ((put_order sample_env (Some vera) req_location sample_store).1,
       respond 200 (OrderJson "Order updated successfully" sample_order_located)))
    by (vm_compute; reflexivity).
  split.
  - destruct (X2_field_update_notifications sample_env alice req_location
                sample_store _ _ _
                sample_store_orders_ok sample_store_profiles_ok
                eq_refl eq_refl eq_refl Ha) as [_ Hadmin].
    destruct (Hadmin eq_refl) as (Heq & _). rewrite Heq. vm_compute. reflexivity.
  - destruct (X2_field_update_notifications sample_env vera req_location
                sample_store _ _ _
                sample_store_orders_ok sample_store_profiles_ok
                eq_refl eq_refl eq_refl Hv) as [Hviewer _].
    rewrite Hviewer; [reflexivity|discriminate].
Defined.

(** ** Updates that are refused *)

Lemma orders_update_row_code env u OLD e :
  orders_update_row env u OLD = inl e → code e ≠ "PGRST116".
Proof.
  unfold orders_update_row, orders_payload_types, orders_constraints.
  intros H. repeat (case_match; simplify_eq/=); done.
Qed.

(** X3.  PUT /api/orders/:id either answers 200 or leaves every table as
    it was. *)
Theorem X3_put_order_refused_unchanged env user req st st' r :
  put_order env user req st = (st', r) →
  http_status r ≠ 200 →
  st' = st.
Proof.
  unfold put_order, orders_update, orders_select_single.
  intros H Hs.
  repeat (case_match; simplify_eq/=); done.
Qed.

(** X3 on the sample store: vera asks for a status the table does not
    have. *)
Lemma X3_witness :
  (put_order sample_env (Some vera)
     (request "token-vera" order1_id [("status", JStr "shipped")]) sample_store).1
  = sample_store.
Proof.
  eapply X3_put_order_refused_unchanged.
  - apply surjective_pairing.
  - vm_compute. discriminate.
Defined.

(** X4.  With a payload that has a field to write and the admin client
    configured, PUT /api/orders/:id answers 404 exactly when the id is a
    uuid for the store and no order has it; an id that is not a uuid is
    answered 400. *)
Theorem X4_put_order_not_found env u req st :
  supabaseAdmin env = true →
  size (build_updateData (bool_decide (ReqUser.role u = "admin")) (body req)) ≠ 0 →
  (http_status (put_order env (Some u) req st).2 = 404
     ↔ uuid_in env (params_id req) = true ∧ orders st !! params_id req = None)
  ∧ (uuid_in env (params_id req) = false →
     http_status (put_order env (Some u) req st).2 = 400).
Proof.
  intros Hcfg Hsize. unfold put_order, orders_update, orders_select_single.
  rewrite (bool_decide_eq_false_2 _ Hsize), Hcfg. simpl.
  destruct (uuid_in env (params_id req)); simpl.
  - destruct (orders st !! params_id req) as [OLD|]; simpl.
    + destruct (orders_update_row _ _ OLD) as [e|order] eqn:Hrow; simpl.
      * apply orders_update_row_code in Hrow.
        rewrite (bool_decide_eq_false_2 _ Hrow). simpl.
        split; [|done]. split; [done|]. by intros [_ ?].
      * split; [|done]. split; [done|]. by intros [_ ?].
    + split; [|done]. by split.
  - split; [|done]. split; [done|]. by intros [? _].
Qed.

(** X4 on the sample store: vera moves an order that does not exist. *)
Lemma X4_witness :
  http_status
    (put_order sample_env (Some vera)
       (request "token-vera" order2_id [("status", JStr "pending")]) sample_store).2
  = 404.
Proof.
  apply (X4_put_order_not_found sample_env vera
           (request "token-vera" order2_id [("status", JStr "pending")]) sample_store).
  - reflexivity.
  - vm_compute. discriminate.
  - by split.
Defined.

(** ** What an update leaves alone *)

Lemma createNotificationForAdmins_appends env title msg type orderId exclude st :
  ∃ rows,
    notifications (createNotificationForAdmins env title msg type orderId exclude st)
    = notifications st ++ (notifications_new_row env <$> rows).
Proof.
  unfold createNotificationForAdmins, notifications_insert.
  repeat case_match; simpl;
    first [ by eexists | by exists []; rewrite app_nil_r ].
Qed.

Lemma notify_update_appends env isAdmin u oldOrder order st :
  ∃ rows,
    notifications (notify_update env isAdmin u oldOrder order st)
    = notifications st ++ (notifications_new_row env <$> rows).
Proof.
  unfold notify_update.
  repeat case_match;
    first [ apply createNotificationForAdmins_appends
          | by exists []; rewrite app_nil_r ].
Qed.

(** X5.  Whatever PUT /api/orders/:id answers, it touches no order but
    the one of the request, it only appends to the notifications, unread
    and dated with the time of the request, and it leaves the profiles,
    the identities, the history and the sessions as they were. *)
Theorem X5_put_order_frame env user req st :
  let st' := (put_order env user req st).1 in
  (∀ j, j ≠ params_id req → orders st' !! j = orders st !! j)
  ∧ (∃ created,
       notifications st' = notifications st ++ created
       ∧ ∀ n, n ∈ created →
           Notifications.read n = false ∧ Notifications.created_at n = NOW env)
  ∧ user_profiles st' = user_profiles st
  ∧ auth_users st' = auth_users st
  ∧ order_history st' = order_history st
  ∧ sessions st' = sessions st.
Proof.
  assert (Hsame : ∀ s : Store,
    (∀ j, j ≠ params_id req → orders s !! j = orders s !! j)
    ∧ (∃ created,
         notifications s = notifications s ++ created
         ∧ ∀ n, n ∈ created →
             Notifications.read n = false ∧ Notifications.created_at n = NOW env)
    ∧ user_profiles s = user_profiles s ∧ auth_users s = auth_users s
    ∧ order_history s = order_history s ∧ sessions s = sessions s).
  { intros s. split; [done|]. split; [|done].
    exists []. split; [by rewrite app_nil_r|]. by intros n ?%elem_of_nil. }
  unfold put_order, orders_update, orders_select_single.
  repeat (case_match; simplify_eq/=); try apply Hsame.
  match goal with
  | |- context [notify_update ?e ?a ?u ?o ?n ?s] =>
      destruct (notify_update_frame e a u o n s) as (-> & -> & -> & -> & ->);
      destruct (notify_update_appends e a u o n s) as [rows ->]
  end.
  simpl. split; [by intros j Hj; rewrite lookup_insert_ne|].
  split; [|done]. eexists. split; [done|].
  intros n Hn. by apply list_elem_of_fmap in Hn as (x & -> & _).
Qed.

(** ** GET /api/orders/:id after the routes that write *)

Lemma post_order_created env user req st st' msg order :
  post_order env user req st = (st', respond 201 (OrderJson msg order)) →
  Orders.id order = gen_random_uuid env
  ∧ orders st !! gen_random_uuid env = None
  ∧ st' = with_orders (<[gen_random_uuid env := order]> (orders st)) st.
Proof.
  unfold post_order, orders_insert, respond, config_error.
  intros H. repeat (case_match; simplify_eq/=); done.
Qed.

(** X6.  An order the store shows to the anon-key client is read back by
    GET /api/orders/:id as it was written: after POST /api/orders has
    answered 201 with a row, and after PUT /api/orders/:id has answered
    200 with a row, a GET of that row's id answers 200 with the same row
    (the ids being uuids for the store). *)
Theorem X6_get_order_reads_back env user req st st' msg order get :
  anon_select_visible env = true →
  uuid_in env (Orders.id order) = true →
  params_id get = Orders.id order →
  (post_order env user req st = (st', respond 201 (OrderJson msg order))
   ∨ (orders_ok st
      ∧ put_order env user req st = (st', respond 200 (OrderJson msg order)))) →
  get_order env user get st' = (st', reply 200 (OrderOnlyJson order)).
Proof.
  intros Hvis Huuid Hget Hwrite.
  assert (Hstored : orders st' !! Orders.id order = Some order).
  { destruct Hwrite as [Hpost|[Hok Hput]].
    - apply post_order_created in Hpost as (-> & _ & ->).
      simpl. apply lookup_insert_eq.
    - destruct user as [u|]; [|by unfold put_order in Hput].
      rewrite (put_order_accepted_id _ _ _ _ _ _ _ Hok Hput).
      apply put_order_accepted in Hput as (OLD & _ & _ & _ & _ & _ & ->).
      destruct (notify_update_frame env (bool_decide (ReqUser.role u = "admin"))
        (build_updateData (bool_decide (ReqUser.role u = "admin")) (body req))
        (Some OLD) order
        (with_orders (<[params_id req := order]> (orders st)) st)) as [-> _].
      simpl. apply lookup_insert_eq. }
  unfold get_order, orders_select_single_anon.
  by rewrite Hget, Huuid, Hvis, Hstored.
Qed.

(** X6 on the sample store: alice creates an order and vera reads it. *)
Lemma X6_witness :
  get_order sample_env (Some vera) (req_get "token-vera" (gen_random_uuid sample_env))
    (post_order sample_env (Some alice) (req_create "token-alice") sample_store).1
  = ((post_order sample_env (Some alice) (req_create "token-alice") sample_store).1,
     reply 200 (OrderOnlyJson
       (created_order sample_env alice (body (req_create "token-alice"))))).
Proof.
  apply (X6_get_order_reads_back sample_env (Some alice) (req_create "token-alice")
           sample_store _ "Order created successfully").
  - reflexivity.
  - reflexivity.
  - reflexivity.
  - left. vm_compute. reflexivity.
Defined.

(** X7.  DELETE /api/orders/:id is idempotent on the orders table: sent
    again after it has been handled, the same request leaves the table
    as the first one left it and repeats the answer.  After it has
    answered 200, a GET of the id answers 404. *)
Theorem X7_delete_order_idempotent env user user' req st :
  let out := delete_order env user req st in
  orders (delete_order env user req out.1).1 = orders out.1
  ∧ (delete_order env user req out.1).2 = out.2
  ∧ (http_status out.2 = 200 →
     get_order env user' req out.1 = (out.1, reply_error 404 "Order not found" None)).
Proof.
  unfold delete_order, orders_delete, get_order, orders_select_single_anon.
  destruct (supabaseAdmin env) eqn:Hadmin; simpl; rewrite ?Hadmin; [|done].
  destruct (uuid_in env (params_id req)) eqn:Huuid; simpl; rewrite ?Huuid; simpl;
    [|done].
  split; [by rewrite delete_delete_eq|]. split; [done|].
  intros _. rewrite lookup_delete_eq. by destruct (anon_select_visible env).
Qed.

(** ** The statistics after an order is created *)

Lemma count_status_perm (s : string) (l1 l2 : list (option string)) :
  l1 ≡ₚ l2 → count_status s l1 = count_status s l2.
Proof. intros H. unfold count_status. by rewrite H. Qed.

Lemma orders_select_status_insert env st i order :
  anon_select_visible env = true →
  orders st !! i = None →
  orders_select_status env (with_orders (<[i := order]> (orders st)) st)
  ≡ₚ Orders.status order :: orders_select_status env st.
Proof.
  intros Hvis Hnone. unfold orders_select_status. rewrite Hvis. simpl.
  by rewrite map_to_list_insert.
Qed.

(** X8.  When POST /api/orders has answered 201 with an order of status
    [s], GET /api/orders/stats/summary, read through a client that sees
    the orders, reports after it one order more in [total] than before
    and one more in the field of the status [s]; each of the other four
    fields [incoming], [pending], [accepted], [declined], [completed]
    is the one of before. *)
Theorem X8_stats_after_create env user viewer req get st st' msg order s :
  anon_select_visible env = true →
  Orders.status order = Some s →
  post_order env user req st = (st', respond 201 (OrderJson msg order)) →
  ∃ before after,
    get_stats_summary env viewer get st = (st, respond 200 (StatsJson before))
    ∧ get_stats_summary env viewer get st' = (st', respond 200 (StatsJson after))
    ∧ total after = S (total before)
    ∧ ∀ name count, (name, count) ∈ status_counts →
        count after = (if bool_decide (name = s) then 1 else 0) + count before.
Proof.
  intros Hvis Hs Hpost.
  apply post_order_created in Hpost as (Hid & Hfresh & ->).
  pose proof (orders_select_status_insert env st _ order Hvis Hfresh) as Hperm.
  assert (Hcount : ∀ t,
    count_status t (orders_select_status env
                      (with_orders (<[gen_random_uuid env := order]> (orders st)) st))
    = (if bool_decide (t = s) then 1 else 0)
      + count_status t (orders_select_status env st)).
  { intros t. rewrite (count_status_perm _ _ _ Hperm), count_status_cons, Hs.
    by destruct (decide (t = s)) as [->|Hne];
      [rewrite !bool_decide_eq_true_2|rewrite !bool_decide_eq_false_2 by congruence]. }
  unfold get_stats_summary. do 2 eexists.
  split; [reflexivity|]. split; [reflexivity|]. split.
  - simpl. by rewrite Hperm.
  - intros name count. unfold status_counts. rewrite !elem_of_cons, elem_of_nil.
    intros H. repeat destruct H as [[= -> ->]|H]; try done; simpl; apply Hcount.
Qed.

(** X8 on the sample store: after alice has created an order, the
    summary counts two incoming orders and no pending one. *)
Lemma X8_witness :
  ∃ after,
    get_stats_summary sample_env (Some vera) (req_get "token-vera" EmptyString)
      (post_order sample_env (Some alice) (req_create "token-alice") sample_store).1
    = ((post_order sample_env (Some alice) (req_create "token-alice") sample_store).1,
       respond 200 (StatsJson after))
    ∧ total after = 2 ∧ incoming after = 2 ∧ pending after = 0.
Proof.
  destruct (X8_stats_after_create sample_env (Some alice) (Some vera)
    (req_create "token-alice") (req_get "token-vera" EmptyString)
    sample_store
    (post_order sample_env (Some alice) (req_create "token-alice") sample_store).1
    "Order created successfully"
    (created_order sample_env alice (body (req_create "token-alice")))
    "incoming" eq_refl eq_refl) as (before & after & Hbefore & Hafter & Htotal & Hcounts).
  - vm_compute. reflexivity.
  - exists after. split; [exact Hafter|].
    injection Hbefore as <-.
    split; [rewrite Htotal; vm_compute; reflexivity|]. split.
    + rewrite (Hcounts "incoming" incoming) by apply list_elem_of_here.
      vm_compute. reflexivity.
    + rewrite (Hcounts "pending" pending)
        by apply list_elem_of_further, list_elem_of_here.
      vm_compute. reflexivity.
Defined.

(** X5 on the sample store: alice moves order 1 to accepted; the order
    table has no other key, and both admins are told. *)
Lemma X5_witness :
  let st' := (put_order sample_env (Some alice) (req_move "token-alice" "accepted")
                sample_store).1 in
  orders st' !! order2_id = None
  ∧ user_profiles st' = user_profiles sample_store.
Proof.
  intros st'.
  destruct (X5_put_order_frame sample_env (Some alice)
              (req_move "token-alice" "accepted") sample_store)
    as (Horders & _ & Hprofiles & _).
  split; [|exact Hprofiles].
  subst st'. rewrite (Horders order2_id); [reflexivity|discriminate].
Defined.

(** X7 on the sample store: order 1 is deleted, then looked for. *)
Lemma X7_witness :
  let out := delete_order sample_env (Some alice) (req_get "token-alice" order1_id)
               sample_store in
  get_order sample_env (Some vera) (req_get "token-alice" order1_id) out.1
  = (out.1, reply_error 404 "Order not found" None).
Proof.
  intros out.
  destruct (X7_delete_order_idempotent sample_env (Some alice) (Some vera)
              (req_get "token-alice" order1_id) sample_store) as (_ & _ & Hget).
  apply Hget. reflexivity.
Defined.

(** ** The constraints of the orders table *)

Lemma authenticated_orders_ok env handler req st :
  (∀ user, orders_ok st → orders_ok (handler env user req st).1) →
  orders_ok st → orders_ok (authenticated env handler req st).1.
Proof.
  intros Hh Hok. unfold authenticated. case_match; [done|by apply Hh].
Qed.

Lemma admin_only_orders_ok env handler req st :
  (∀ user, orders_ok st → orders_ok (handler env user req st).1) →
  orders_ok st → orders_ok (admin_only env handler req st).1.
Proof.
  intros Hh Hok. unfold admin_only. repeat case_match; try done. by apply Hh.
Qed.

Lemma get_stats_summary_store env user req st :
  (get_stats_summary env user req st).1 = st.
Proof. unfold get_stats_summary. by repeat case_match. Qed.

(** X9.  The routes of src/routes/orders.ts keep the orders table within
    its declaration: when every row is stored under its id with a
    customer name, order details and one of the five statuses, so it is
    after PUT /api/orders/:id, POST /api/orders, DELETE /api/orders/:id
    and GET /api/orders/stats/summary, whatever the request. *)
Theorem X9_order_routes_keep_constraints env route req st :
  route ∈ [PUT_orders_id; POST_orders; DELETE_orders_id; GET_orders_stats_summary] →
  orders_ok st → orders_ok (route env req st).1.
Proof.
  rewrite !elem_of_cons, elem_of_nil.
  intros [->|[->|[->|[->|[]]]]] Hok.
  - apply authenticated_orders_ok; [|done]. intros. by apply put_order_orders_ok.
  - apply admin_only_orders_ok; [|done]. intros. by apply post_order_orders_ok.
  - apply admin_only_orders_ok; [|done]. intros. by apply delete_order_orders_ok.
  - apply authenticated_orders_ok; [|done]. intros.
    by rewrite get_stats_summary_store.
Qed.

(** X9 on the sample store: the viewer vera moves order 1 to a status
    the table does not know; the update is refused and the rows stay
    within the declaration. *)
Lemma X9_witness :
  orders_ok (PUT_orders_id sample_env (req_move "token-vera" "baked") sample_store).1.
Proof.
  apply (X9_order_routes_keep_constraints sample_env PUT_orders_id).
  - apply list_elem_of_here.
  - exact sample_store_orders_ok.
Defined.

(** ** Who gets through the middleware *)

Lemma authenticate_inr env req st u :
  authenticate env req st = inr u →
  ∃ h a,
    authorization req = Some h ∧ prefix "Bearer " h = true
    ∧ sessions st !! bearer_token h = Some (ReqUser.id u)
    ∧ auth_users st !! ReqUser.id u = Some a
    ∧ ReqUser.email u = Some (AuthUsers.email a)
    ∧ supabaseAdmin env = true
    ∧ (ReqUser.role u = "admin" ↔
       uuid_in env (ReqUser.id u) = true
       ∧ ∃ p, user_profiles st !! ReqUser.id u = Some p
              ∧ Profiles.role p = Some "admin").
Proof.
  unfold authenticate, auth_getUser, profiles_select_role, bearer_token.
  intros H.
  destruct (authorization req) as [h|]; [|done].
  destruct (prefix "Bearer " h) eqn:Hprefix; [|done]. simpl in H.
  destruct (sessions st !! _) as [uid|] eqn:Hsession; [|done]. simpl in H.
  destruct (auth_users st !! uid) as [a|] eqn:Ha; [|done]. simpl in H.
  destruct (supabaseAdmin env) eqn:Hadmin; [|done]. simpl in H.
  exists h, a.
  destruct (uuid_in env uid) eqn:Huuid; simpl in H.
  - destruct (user_profiles st !! uid) as [p|] eqn:Hp.
    + injection H as <-. simpl. do 6 (split; [done|]).
      rewrite Hp.
      destruct (Profiles.role p) as [r|] eqn:Hr; simpl.
      * case_bool_decide as Hempty; simpl.
        -- subst r. split; [done|]. by intros (_ & p' & [= <-] & Hp'); simplify_eq.
        -- split; [intros ->; by eauto|]. intros (_ & p' & [= <-] & Hp').
           by simplify_eq.
      * split; [done|]. by intros (_ & p' & [= <-] & Hp'); simplify_eq.
    + simpl in H. injection H as <-. simpl. do 6 (split; [done|]).
      rewrite Hp. split; [done|]. by intros (_ & p' & ? & _).
  - simpl in H. injection H as <-. simpl. do 6 (split; [done|]).
    rewrite Huuid. split; [done|]. by intros [? _].
Qed.

(** X10.  A route mounted behind [authenticate] and [requireAdmin] has
    two outcomes.  Either the handler is not run: the store is the one of
    before and the answer is an error with status 401, 403 or 500.  Or
    the handler is run, and then the request carries a bearer token that
    the provider resolves to an identity whose profile row has the role
    admin, and the handler is given that identity. *)
Theorem X10_admin_only_guard env handler req st :
  (∃ r e d, admin_only env handler req st = (st, r)
            ∧ http_status r ∈ refusals ∧ json r = ErrorJson e d)
  ∨ (∃ u h p,
       admin_only env handler req st = handler env (Some u) req st
       ∧ authorization req = Some h
       ∧ sessions st !! bearer_token h = Some (ReqUser.id u)
       ∧ user_profiles st !! ReqUser.id u = Some p
       ∧ Profiles.role p = Some "admin"
       ∧ ReqUser.role u = "admin").
Proof.
  unfold admin_only, requireAdmin, refusals.
  destruct (authenticate env req st) as [r|u] eqn:Hauth.
  - left. exists r.
    unfold authenticate in Hauth.
    repeat (case_match; simplify_eq/=);
      (do 2 eexists; split; [done|]; split; [|done]);
      rewrite !elem_of_cons; auto.
  - case_bool_decide as Hrole; simpl.
    + right.
      apply authenticate_inr in Hauth
        as (h & a & Hh & _ & Hsession & _ & _ & _ & Hadmin).
      apply Hadmin in Hrole as Hprofile. destruct Hprofile as (_ & p & Hp & Hr).
      by exists u, h, p.
    + left. do 3 eexists. split; [done|]. split; [|done].
      rewrite !elem_of_cons; auto.
Qed.

(** X11.  When [authenticate] lets a request through, the identity it
    attaches is the one the provider resolves the bearer token to, with
    that identity's e-mail address, and its role is admin exactly when
    the profile row of the identity has the role admin (the id being one
    the store takes for a uuid); in every other case the request goes
    on without the role admin. *)
Theorem X11_authenticate_role env req st u :
  authenticate env req st = inr u →
  ∃ h a,
    authorization req = Some h
    ∧ sessions st !! bearer_token h = Some (ReqUser.id u)
    ∧ auth_users st !! ReqUser.id u = Some a
    ∧ ReqUser.email u = Some (AuthUsers.email a)
    ∧ (ReqUser.role u = "admin" ↔
       uuid_in env (ReqUser.id u) = true
       ∧ ∃ p, user_profiles st !! ReqUser.id u = Some p
              ∧ Profiles.role p = Some "admin").
Proof.
  intros (h & a & ? & _ & ? & ? & ? & _ & ?)%authenticate_inr.
  by exists h, a.
Qed.

(** X11 on the sample store: the token of vera gives a viewer. *)
Lemma X11_witness :
  ¬ (uuid_in sample_env vera_id = true
     ∧ ∃ p, user_profiles sample_store !! vera_id = Some p
            ∧ Profiles.role p = Some "admin").
Proof.
  destruct (X11_authenticate_role sample_env (req_get "token-vera" order1_id)
              sample_store vera) as (h & a & _ & _ & _ & _ & Hrole).
  - vm_compute. reflexivity.
  - intros H. apply Hrole in H. discriminate H.
Defined.

(** ** The answers of GET /api/orders/:id *)

(** X28.  GET /api/orders/:id writes nothing.  It answers 400 exactly
    when the id is not a uuid for the store; 404 "Order not found"
    exactly when the id is a uuid and the anon-key client is shown no
    row of that id, because there is none or because row-level security
    hides it; and 200 with the row otherwise. *)
Theorem X28_get_order_answers env user req st :
  let out := get_order env user req st in
  let id := params_id req in
  out.1 = st
  ∧ (reply_status out.2 = 400 ↔ uuid_in env id = false)
  ∧ (out.2 = reply_error 404 "Order not found" None ↔
     uuid_in env id = true ∧ (anon_select_visible env = false ∨ orders st !! id = None))
  ∧ (∀ o, out.2 = reply 200 (OrderOnlyJson o) ↔
          uuid_in env id = true ∧ anon_select_visible env = true
          ∧ orders st !! id = Some o).
Proof.
  unfold get_order, orders_select_single_anon. simpl.
  destruct (uuid_in env (params_id req)); simpl;
    [|split; [done|]; split; [done|]; split; [|intros o]; split; intros H;
      first [done|by destruct H]].
  destruct (anon_select_visible env); simpl.
  - destruct (orders st !! params_id req) as [o|]; simpl.
    + split; [done|]. split; [done|]. split.
      * split; [done|]. by intros [_ [|]].
      * intros o'. split; [by intros [= ->]|by intros (_ & _ & [= ->])].
    + split; [done|]. split; [done|]. split.
      * split; [|done]. intros _. split; [done|by right].
      * intros o'. split; [done|by intros (_ & _ & ?)].
  - split; [done|]. split; [done|]. split.
    + split; [|done]. intros _. split; [done|by left].
    + intros o'. split; [done|by intros (_ & ? & _)].
Qed.

(** X28 on the sample store: order 2 does not exist. *)
Lemma X28_witness :
  (get_order sample_env (Some vera) (req_get "token-vera" order2_id) sample_store).2
  = reply_error 404 "Order not found" None.
Proof.
  destruct (X28_get_order_answers sample_env (Some vera)
              (req_get "token-vera" order2_id) sample_store)
    as (_ & _ & Hmissing & _).
  apply Hmissing. split; [reflexivity|right; reflexivity].
Defined.

(** ** What POST /api/orders leaves alone *)

(** X29.  POST /api/orders never changes or replaces an order that
    exists, and writes no other table.  An order it adds is stored under
    the generated id, which was unused, and names the caller, an
    existing identity, as its creator.  An answer other than 201 leaves
    the store as it was. *)
Theorem X29_post_order_frame env user req st :
  let out := post_order env user req st in
  (∀ j o, orders st !! j = Some o → orders out.1 !! j = Some o)
  ∧ (∀ j o, orders out.1 !! j = Some o → orders st !! j = None →
       j = gen_random_uuid env
       ∧ ∃ u, user = Some u ∧ Orders.created_by o = Some (ReqUser.id u)
              ∧ is_Some (auth_users st !! ReqUser.id u))
  ∧ notifications out.1 = notifications st
  ∧ order_history out.1 = order_history st
  ∧ user_profiles out.1 = user_profiles st
  ∧ auth_users out.1 = auth_users st
  ∧ sessions out.1 = sessions st
  ∧ (http_status out.2 ≠ 201 → out.1 = st).
Proof.
  assert (Hsame : ∀ k : nat,
    (∀ j o, orders st !! j = Some o → orders st !! j = Some o)
    ∧ (∀ j o, orders st !! j = Some o → orders st !! j = None →
         j = gen_random_uuid env
         ∧ ∃ u, user = Some u ∧ Orders.created_by o = Some (ReqUser.id u)
                ∧ is_Some (auth_users st !! ReqUser.id u))
    ∧ notifications st = notifications st ∧ order_history st = order_history st
    ∧ user_profiles st = user_profiles st ∧ auth_users st = auth_users st
    ∧ sessions st = sessions st ∧ (k ≠ 201 → st = st)).
  { intros k. split; [done|]. split; [|done]. intros j o -> [=]. }
  unfold post_order. simpl.
  destruct user as [u|]; [|apply Hsame].
  destruct (negb (truthy _) || negb (truthy _)); [apply Hsame|].
  destruct (negb (supabaseAdmin env)); [apply Hsame|].
  unfold orders_insert.
  match goal with |- context [orders_new_row ?e ?d] => set (r := orders_new_row e d) end.
  destruct (negb (uuid_in env _)); [apply Hsame|].
  destruct (orders_types env r); [apply Hsame|].
  destruct (orders_constraints r); [apply Hsame|].
  destruct (orders_foreign_keys st r) eqn:Hfk; [apply Hsame|].
  destruct (orders st !! Orders.id r) eqn:Hfresh; [apply Hsame|].
  change (Orders.id r) with (gen_random_uuid env) in *.
  simpl. split; [|split; [|done]].
  - intros j o Hj. rewrite lookup_insert_ne; [done|]. intros <-. congruence.
  - intros j o Hj Hnone.
    apply lookup_insert_Some in Hj as [[<- <-]|[_ Hj]]; [|congruence].
    split; [done|]. exists u. split; [done|]. split; [done|].
    unfold orders_foreign_keys in Hfk. simpl in Hfk.
    case_bool_decide; done.
Qed.

(** X29 on the sample store: a body without [order_details] is refused
    and order 1 is where it was. *)
Lemma X29_witness :
  orders (post_order sample_env (Some alice)
            (request "token-alice" EmptyString [("customer_name", JStr "Jane")])
            sample_store).1 !! order1_id
  = Some sample_order.
Proof.
  destruct (X29_post_order_frame sample_env (Some alice)
              (request "token-alice" EmptyString [("customer_name", JStr "Jane")])
              sample_store) as (Hkept & _).
  apply Hkept. reflexivity.
Defined.

(** ** The notification routes *)

Lemma addressed_to_ready env order order_id (a : string) (l : list string) :
  addressed_to a (ready_row env order order_id <$> l)
  = List.length (filter (λ x, x = a) l).
Proof.
  unfold addressed_to. induction l as [|x l IH]; [done|].
  rewrite fmap_cons, !filter_cons. simpl.
  destruct (decide (x = a)) as [->|Hne].
  - rewrite decide_True by done. simpl. by rewrite IH.
  - rewrite decide_False by congruence. done.
Qed.

Lemma truthy_str_Some_ne (v : option jsval) (s : string) :
  truthy_str v = Some s → v = Some (JStr s) ∧ s ≠ EmptyString.
Proof.
  destruct v as [[|t]|]; simpl; try done.
  case_bool_decide; [done|]. by intros [= ->].
Qed.

(** X12.  POST /api/notifications/notify-admin-ready, for an order that
    exists, on a store whose profiles belong to identities and has an
    admin, the calls to the store going through, answers 201 whatever the
    role of the caller, and appends one notification per admin profile:
    exactly one addressed to each admin, none to anyone else, each
    titled "Cake Ready for Pickup", of type order, unread, and carrying
    the id of the order.  The count it reports is the number of admins. *)
Theorem X12_notify_admin_ready env u req st order_id order :
  supabaseAdmin env = true →
  admins_select_fault env = None →
  notifications_insert_fault env = None →
  profiles_ok env st →
  truthy_str (body req !! "order_id") = Some order_id →
  uuid_in env order_id = true →
  orders st !! order_id = Some order →
  select_admin_ids st ≠ [] →
  ∃ created text,
    notify_admin_ready env (Some u) req st
    = (with_notifications (notifications st ++ created) st,
       reply 201 (NotificationsJson text created (List.length (select_admin_ids st))))
    ∧ created = (ready_row env order order_id <$> select_admin_ids st)
    ∧ (∀ a, is_admin_profile st a → addressed_to a created = 1)
    ∧ (∀ a, ¬ is_admin_profile st a → addressed_to a created = 0)
    ∧ (∀ n, n ∈ created →
         Notifications.title n = Some "Cake Ready for Pickup"
         ∧ Notifications.type n = Some "order"
         ∧ Notifications.order_id n = Some order_id
         ∧ Notifications.read n = false).
Proof.
  intros Hcfg Hf1 Hf2 Hprof Hbody Huuid Horder Hadmins.
  exists (ready_row env order order_id <$> select_admin_ids st).
  eexists. split; [|split; [done|split; [|split]]].
  - unfold notify_admin_ready, orders_select_single.
    rewrite Hbody, Hcfg, Huuid, Horder, Hf1, Hf2. simpl.
    rewrite bool_decide_eq_false_2
      by (intros Hlen; by apply nil_length_inv in Hlen).
    unfold notifications_insert. rewrite first_error_None.
    + rewrite !length_map. unfold ready_row.
      by rewrite <- (list_fmap_compose (ready_notification order order_id)
                       (notifications_new_row env)).
    + intros n Hn. apply list_elem_of_fmap in Hn as (a & -> & Ha).
      apply elem_of_select_admin_ids in Ha as (p & Hp & _).
      destruct (Hprof _ _ Hp) as [Ha Huser].
      unfold notifications_check, ready_notification. simpl.
      rewrite Ha, Huuid. simpl.
      rewrite (bool_decide_eq_true_2 _ Huser). simpl.
      by rewrite bool_decide_eq_true_2 by (by eexists).
  - intros a Ha. rewrite addressed_to_ready.
    rewrite count_NoDup by apply NoDup_select_admin_ids.
    by rewrite decide_True by (by apply elem_of_select_admin_ids).
  - intros a Ha. rewrite addressed_to_ready.
    rewrite count_NoDup by apply NoDup_select_admin_ids.
    by rewrite decide_False by (by rewrite elem_of_select_admin_ids).
  - intros n Hn. by apply list_elem_of_fmap in Hn as (a & -> & _).
Qed.

Lemma sample_admins : select_admin_ids sample_store ≠ [].
Proof. vm_compute. discriminate. Qed.

(** X12 on the sample store: the viewer vera reports order 1 ready, and
    alice and bob are told. *)
Lemma X12_witness :
  ∃ created text,
    notify_admin_ready sample_env (Some vera) (req_ready "token-vera") sample_store
    = (with_notifications (notifications sample_store ++ created) sample_store,
       reply 201 (NotificationsJson text created 2))
    ∧ addressed_to alice_id created = 1.
Proof.
  destruct (X12_notify_admin_ready sample_env vera (req_ready "token-vera")
              sample_store order1_id sample_order
              eq_refl eq_refl eq_refl sample_store_profiles_ok
              eq_refl eq_refl eq_refl sample_admins)
    as (created & text & Hrun & _ & Hone & _).
  exists created, text. split.
  - exact Hrun.
  - apply Hone. exists (sample_profile "alice" "admin"). split; reflexivity.
Defined.

Lemma notifications_insert_spec env rows st st' e :
  notifications_insert env rows st = (st', e) →
  (e = None ∧ st' = with_notifications
                      (notifications st ++ map (notifications_new_row env) rows) st)
  ∨ (is_Some e ∧ st' = st).
Proof.
  unfold notifications_insert. case_match; intros [= <- <-]; [right|left]; eauto.
Qed.

(** X13.  The handlers of GET /api/notifications/unread-count, POST
    /api/notifications and POST /api/notifications/notify-admin-ready
    write nothing but notifications: the orders, profiles, identities,
    history and sessions are those of before, and the notifications of
    before are still there, in place, with what is new after them.  An
    answer other than 201 leaves the whole store as it was. *)
Theorem X13_notification_routes_frame env handler user req st :
  handler ∈ notification_handlers →
  let out := handler env user req st in
  (∃ created, notifications out.1 = notifications st ++ created
              ∧ (reply_status out.2 ≠ 201 → created = []))
  ∧ orders out.1 = orders st
  ∧ user_profiles out.1 = user_profiles st
  ∧ auth_users out.1 = auth_users st
  ∧ order_history out.1 = order_history st
  ∧ sessions out.1 = sessions st
  ∧ (reply_status out.2 ≠ 201 → out.1 = st).
Proof.
  assert (Hsame : ∀ (s : Store) (k : nat),
    (∃ created, notifications s = notifications s ++ created
                ∧ (k ≠ 201 → created = []))
    ∧ orders s = orders s ∧ user_profiles s = user_profiles s
    ∧ auth_users s = auth_users s ∧ order_history s = order_history s
    ∧ sessions s = sessions s ∧ (k ≠ 201 → s = s)).
  { intros s k. split; [|done]. exists []. by rewrite app_nil_r. }
  unfold notification_handlers. rewrite !elem_of_cons, elem_of_nil.
  intros [->|[->|[->|[]]]]; simpl.
  - unfold unread_count. repeat case_match; apply Hsame.
  - unfold post_notification, notifications_insert_one.
    repeat (case_match; simplify_eq/=); try apply Hsame.
    all: try match goal with
         | H : notifications_insert _ _ _ = _ |- _ =>
             apply notifications_insert_spec in H as [[? ->]|[? ->]]
         end; try apply Hsame; try done.
    all: simpl; split; [|done]; by eexists.
  - unfold notify_admin_ready.
    repeat (case_match; simplify_eq/=); try apply Hsame.
    all: try match goal with
         | H : notifications_insert _ _ _ = _ |- _ =>
             apply notifications_insert_spec in H as [[? ->]|[? ->]]
         end; try apply Hsame; try done.
    all: simpl; split; [|done]; by eexists.
Qed.

(** X13 on the sample store: vera, a viewer, may not create a
    notification, and the store stays as it is. *)
Lemma X13_witness :
  (post_notification sample_env (Some vera) (req_notify "token-vera" alice_id)
     sample_store).1 = sample_store.
Proof.
  destruct (X13_notification_routes_frame sample_env post_notification (Some vera)
              (req_notify "token-vera" alice_id) sample_store)
    as (_ & _ & _ & _ & _ & _ & Hsame).
  - apply list_elem_of_further, list_elem_of_here.
  - apply Hsame. vm_compute. discriminate.
Defined.

(** ** Unread notifications after an order has moved *)

(** The rows a status-changing update appends. *)
Lemma put_order_moved env u req st st' msg order OLD new :
  orders_ok st →
  profiles_ok env st →
  admins_select_fault env = None →
  notifications_insert_fault env = None →
  orders st !! params_id req = Some OLD →
  body req !! "status" = Some (JStr new) →
  Orders.status OLD ≠ Some new →
  put_order env (Some u) req st = (st', respond 200 (OrderJson msg order)) →
  notifications st'
  = notifications st
    ++ (notifications_new_row env
        ∘ admin_notification (moved_title new) (moved_message order new)
            (moved_type new) (Some (JStr (Orders.id order)))
        <$> select_admin_ids st)
  ∧ supabaseAdmin env = true.
Proof.
  intros Hok Hprof Hf1 Hf2 Hold Hstatus Hchg Hput.
  pose proof (put_order_accepted_id _ _ _ _ _ _ _ Hok Hput) as Hid.
  apply put_order_accepted in Hput as (OLD' & Hcfg & _ & Huuid & Hold' & Hrow & ->).
  rewrite Hold in Hold'. simplify_eq.
  apply orders_update_row_inv in Hrow as (Horder & _ & Hcons).
  set (isAdmin := bool_decide (ReqUser.role u = "admin")) in *.
  set (upd := build_updateData isAdmin (body req)) in *.
  assert (Hupd : upd !! "status" = Some (JStr new)).
  { unfold upd. by rewrite build_updateData_status. }
  assert (Hnew : Orders.status order = Some new).
  { rewrite Horder, orders_before_update_status, orders_assign_status.
    unfold set_col. by rewrite Hupd. }
  destruct (orders_constraints_status _ Hcons) as (s & Hs & Hin).
  rewrite Hnew in Hs. injection Hs as <-.
  assert (Hne : new ≠ EmptyString).
  { intros ->. unfold order_statuses in Hin. rewrite !elem_of_cons in Hin.
    rewrite elem_of_nil in Hin. intuition discriminate. }
  assert (Htruthy : truthy_str (upd !! "status") = Some new).
  { rewrite Hupd. simpl. by rewrite bool_decide_eq_false_2. }
  split; [|done].
  unfold notify_update. rewrite Htruthy. simpl.
  rewrite bool_decide_eq_false_2 by done. simpl.
  rewrite createNotificationForAdmins_delivers; try done.
  - apply moved_type_valid.
  - intros o Ho. simpl in Ho.
    destruct (bool_decide (Orders.id order = EmptyString)); simpl in Ho; [done|].
    injection Ho as <-. rewrite Hid. split; [done|].
    simpl. rewrite lookup_insert_eq. by eexists.
Qed.

Lemma unread_app (a : string) (l1 l2 : list Notifications.row) :
  unread a (l1 ++ l2) = unread a l1 + unread a l2.
Proof. unfold unread. by rewrite filter_app, length_app. Qed.

Lemma unread_new_rows env (a : string) (rows : list NotificationInsert) :
  unread a (notifications_new_row env <$> rows)
  = addressed_to a (notifications_new_row env <$> rows).
Proof.
  unfold unread, addressed_to. induction rows as [|n rows IH]; [done|].
  rewrite fmap_cons, !filter_cons. simpl.
  destruct (decide (Some (n_user_id n) = Some a)) as [Heq|Hne].
  - rewrite decide_True by done. simpl. by rewrite IH.
  - rewrite decide_False by (by intros [? _]). done.
Qed.

(** X14.  After PUT /api/orders/:id has moved an order to another status
    (the fan-out's calls to the store going through), GET
    /api/notifications/unread-count answers every admin with one more
    than it would have before the update, and everyone else with the
    same count as before. *)
Theorem X14_unread_after_move env u req st st' msg order OLD new v get :
  orders_ok st →
  profiles_ok env st →
  admins_select_fault env = None →
  notifications_insert_fault env = None →
  orders st !! params_id req = Some OLD →
  body req !! "status" = Some (JStr new) →
  Orders.status OLD ≠ Some new →
  put_order env (Some u) req st = (st', respond 200 (OrderJson msg order)) →
  uuid_in env (ReqUser.id v) = true →
  let before := unread (ReqUser.id v) (notifications st) in
  (is_admin_profile st (ReqUser.id v) →
     unread_count env (Some v) get st' = (st', reply 200 (CountJson (S before))))
  ∧ (¬ is_admin_profile st (ReqUser.id v) →
     unread_count env (Some v) get st' = (st', reply 200 (CountJson before))).
Proof.
  intros Hok Hprof Hf1 Hf2 Hold Hstatus Hchg Hput Huuid before.
  destruct (put_order_moved _ _ _ _ _ _ _ _ _ Hok Hprof Hf1 Hf2 Hold Hstatus Hchg Hput)
    as [Hrows Hcfg].
  unfold unread_count. rewrite Hcfg, Huuid, Hrows. simpl.
  rewrite unread_app, list_fmap_compose, unread_new_rows, <- list_fmap_compose.
  rewrite addressed_to_fmap, count_NoDup by apply NoDup_select_admin_ids.
  fold before. split; intros Ha.
  - rewrite decide_True by (by apply elem_of_select_admin_ids).
    do 3 f_equal. lia.
  - rewrite decide_False by (by rewrite elem_of_select_admin_ids).
    do 3 f_equal. lia.
Qed.

(** X14 on the sample store: vera moves order 1 to accepted; alice, who
    had nothing unread, has one notification to read. *)
Lemma X14_witness :
  unread_count sample_env (Some alice) (req_get "token-alice" EmptyString)
    (put_order sample_env (Some vera) (req_move "token-vera" "accepted") sample_store).1
  = ((put_order sample_env (Some vera) (req_move "token-vera" "accepted")
        sample_store).1,
     reply 200 (CountJson 1)).
Proof.
  destruct (X14_unread_after_move sample_env vera (req_move "token-vera" "accepted")
              sample_store
              (put_order sample_env (Some vera) (req_move "token-vera" "accepted")
                 sample_store).1
              "Order updated successfully"
              sample_order_accepted
              sample_order "accepted" alice (req_get "token-alice" EmptyString)
              sample_store_orders_ok sample_store_profiles_ok eq_refl eq_refl
              eq_refl eq_refl)
    as [Hadmin _].
  - discriminate.
  - vm_compute. reflexivity.
  - reflexivity.
  - apply Hadmin. exists (sample_profile "alice" "admin"). split; reflexivity.
Defined.

(** ** POST /api/notifications *)

(** X15.  When POST /api/notifications answers 201, the caller has the
    role admin (or service_role), and the store holds exactly one more
    notification, the one of the answer: it is unread, addressed to the
    [user_id] of the body, which is an existing identity, and its type is
    one of the five the table allows: the [type] of the body, info when
    the body has none. *)
Theorem X15_post_notification env u req st st' msg n :
  post_notification env (Some u) req st = (st', reply 201 (NotificationJson msg n)) →
  ReqUser.role u ∈ ["admin"; "service_role"]
  ∧ st' = with_notifications (notifications st ++ [n]) st
  ∧ Notifications.read n = false
  ∧ (∃ uid, body req !! "user_id" = Some (JStr uid)
            ∧ Notifications.user_id n = Some uid
            ∧ is_Some (auth_users st !! uid))
  ∧ (∃ t, Notifications.type n = Some t
          ∧ t ∈ notification_types
          ∧ (body req !! "type" = None → t = "info")
          ∧ (∀ v, body req !! "type" = Some v → v = JStr t)).
Proof.
  unfold post_notification, notifications_insert_one. intros H.
  destruct (negb (bool_decide (ReqUser.role u = "admin"))
            && negb (bool_decide (ReqUser.role u = "service_role"))) eqn:Hrole;
    [done|].
  destruct (truthy_str (body req !! "user_id")) as [uid|] eqn:Huid; [|done].
  destruct (truthy_str (body req !! "title")) as [title|]; [|done].
  destruct (truthy_str (body req !! "message")) as [text|]; [|done].
  destruct (negb (supabaseAdmin env)); [done|].
  destruct (negb _) eqn:Huuid in H; [done|].
  set (type := match body req !! "type" with Some v => v | None => JStr "info" end)
    in *.
  destruct type as [|t] eqn:Htype; [done|].
  unfold notifications_insert in H. simpl in H.
  destruct (notifications_check env st _) as [e|] eqn:Hcheck; [done|].
  injection H as <- _ <-.
  unfold notifications_check in Hcheck. simpl in Hcheck.
  rewrite Huuid in Hcheck.
  destruct (bool_decide (t ∈ notification_types)) eqn:Ht; [|done].
  destruct (bool_decide (is_Some (auth_users st !! uid))) eqn:Hu; [|done].
  apply bool_decide_eq_true in Ht, Hu.
  apply truthy_str_Some_ne in Huid as [Huid _].
  split; [|split; [done|split; [done|split]]].
  - rewrite !elem_of_cons.
    apply andb_false_iff in Hrole as [Hr|Hr];
      apply negb_false_iff, bool_decide_eq_true in Hr; auto.
  - by exists uid.
  - exists t. split; [done|]. split; [done|].
    subst type. destruct (body req !! "type") as [v|]; split; try done.
    + by intros v' [= <-].
    + by injection Htype as <-.
Qed.

(** X15 on the sample store: alice leaves a note for bob. *)
Lemma X15_witness :
  ∃ n, (post_notification sample_env (Some alice) (req_notify "token-alice" bob_id)
          sample_store).1
       = with_notifications (notifications sample_store ++ [n]) sample_store
       ∧ Notifications.type n = Some "info".
Proof.
  set (n := Notifications.mk (Some bob_id) (Some "Oven") (Some "Oven is free")
              (Some "info") None false (NOW sample_env)).
  destruct (X15_post_notification sample_env alice (req_notify "token-alice" bob_id)
              sample_store
              (with_notifications (notifications sample_store ++ [n]) sample_store)
              "Notification created successfully" n)
    as (_ & Hst & _ & _ & t & Ht & _ & Hdefault & _).
  - vm_compute. reflexivity.
  - exists n. split.
    + vm_compute. reflexivity.
    + rewrite Ht. f_equal. apply Hdefault. reflexivity.
Defined.

(** ** The history is append-only *)

(** X16.  POST /api/history never changes or removes a history record
    and writes no other table.  A record it adds is stored under the
    generated id, names an existing order and the caller, and has one of
    the four event types.  An answer other than 201 leaves the whole
    store as it was. *)
Theorem X16_history_append_only env user req st :
  let out := post_history env user req st in
  (∀ i r, order_history st !! i = Some r → order_history out.1 !! i = Some r)
  ∧ (∀ i r, order_history out.1 !! i = Some r → order_history st !! i = None →
       i = gen_random_uuid env
       ∧ (∃ o, History.order_id r = Some o ∧ is_Some (orders st !! o))
       ∧ (∃ u, user = Some u ∧ History.user_id r = Some (ReqUser.id u))
       ∧ (∃ t, History.event_type r = Some t ∧ t ∈ history_event_types))
  ∧ orders out.1 = orders st
  ∧ notifications out.1 = notifications st
  ∧ user_profiles out.1 = user_profiles st
  ∧ auth_users out.1 = auth_users st
  ∧ sessions out.1 = sessions st
  ∧ (http_status out.2 ≠ 201 → out.1 = st).
Proof.
  assert (Hsame : ∀ k : nat,
    (∀ i r, order_history st !! i = Some r → order_history st !! i = Some r)
    ∧ (∀ i r, order_history st !! i = Some r → order_history st !! i = None →
         i = gen_random_uuid env
         ∧ (∃ o, History.order_id r = Some o ∧ is_Some (orders st !! o))
         ∧ (∃ u, user = Some u ∧ History.user_id r = Some (ReqUser.id u))
         ∧ (∃ t, History.event_type r = Some t ∧ t ∈ history_event_types))
    ∧ orders st = orders st ∧ notifications st = notifications st
    ∧ user_profiles st = user_profiles st ∧ auth_users st = auth_users st
    ∧ sessions st = sessions st ∧ (k ≠ 201 → st = st)).
  { intros k. split; [done|]. split; [|done]. intros i r -> [=]. }
  unfold post_history. simpl.
  destruct user as [u|]; [|apply Hsame].
  destruct (negb (truthy _) || negb (truthy _)); [apply Hsame|].
  destruct (negb (supabaseAdmin env)); [apply Hsame|].
  unfold order_history_insert.
  set (d := {| h_order_id := body req !! "order_id" |}).
  set (r := order_history_new_row env d).
  destruct (negb _); [apply Hsame|].
  destruct (order_history_constraints r) as [e|] eqn:Hcons; [apply Hsame|].
  destruct (order_history_foreign_keys st r) as [e|] eqn:Hfk; [apply Hsame|].
  destruct (order_history st !! History.id r) as [old|] eqn:Hfresh; [apply Hsame|].
  change (History.id r) with (gen_random_uuid env) in *.
  simpl. split; [|split; [|done]].
  - intros i r' Hi. rewrite lookup_insert_ne; [done|]. intros <-. congruence.
  - intros i r' Hi Hnone.
    apply lookup_insert_Some in Hi as [[<- <-]|[_ Hi]]; [|congruence].
    split; [done|].
    unfold order_history_constraints in Hcons.
    unfold order_history_foreign_keys in Hfk.
    destruct (History.order_id r) as [o|] eqn:Ho; [|done].
    destruct (History.event_type r) as [t|] eqn:Ht; [|done].
    case_bool_decide as Hin; [|done].
    simpl in Hfk.
    destruct (bool_decide (is_Some (orders st !! o))) eqn:Horder; [|done].
    apply bool_decide_eq_true in Horder.
    split; [by exists o|]. split; [by exists u|by exists t].
Qed.

(** X16 on the sample store: a record for an order that does not exist
    is refused, and order 1 has no history still. *)
Lemma X16_witness :
  (post_history sample_env (Some alice)
     (request "token-alice" EmptyString
        [("order_id", JStr order2_id); ("event_type", JStr "note")])
     sample_store).1 = sample_store.
Proof.
  destruct (X16_history_append_only sample_env (Some alice)
              (request "token-alice" EmptyString
                 [("order_id", JStr order2_id); ("event_type", JStr "note")])
              sample_store) as (_ & _ & _ & _ & _ & _ & _ & Hsame).
  apply Hsame. vm_compute. discriminate.
Defined.

(** ** The accounts: retries, atomicity, uniqueness *)

Lemma with_retries_3 {A} (n : nat) (answer : A) :
  with_retries 3 n answer = if (n <? 3)%nat then Some answer else None.
Proof. by destruct n as [|[|[|n]]]. Qed.

Lemma auth_create_user_inl env email password mu mr st st1 msg :
  auth_create_user env email password mu mr st = (st1, inl msg) → st1 = st.
Proof.
  unfold auth_create_user. intros H. by repeat (case_match; simplify_eq/=).
Qed.




(** ** What a registration writes *)

Lemma differs_at_refl id st : differs_at id st st.
Proof. by repeat split. Qed.

Lemma differs_at_trans id st1 st2 st3 :
  differs_at id st1 st2 → differs_at id st2 st3 → differs_at id st1 st3.
Proof.
  intros (? & ? & ? & ? & H12) (? & ? & ? & ? & H23).
  do 4 (split; [congruence|]). intros j Hj.
  destruct (H12 j Hj) as [<- <-]. by apply H23.
Qed.

Lemma profiles_update_differs env uid id username role hash st :
  differs_at id st (profiles_update env uid id username role hash st).1.
Proof.
  unfold profiles_update.
  repeat case_match; simpl; try apply differs_at_refl.
  all: do 4 (split; [done|]); intros j Hj; simpl; by rewrite lookup_insert_ne.
Qed.

Lemma auth_create_user_differs env email password mu mr st :
  differs_at (gen_random_uuid env) st (auth_create_user env email password mu mr st).1.
Proof.
  unfold auth_create_user.
  repeat case_match; simpl; try apply differs_at_refl.
  all: do 4 (split; [done|]); intros j Hj; simpl; by rewrite !lookup_insert_ne.
Qed.

Lemma create_account_writes env role failed created email password username st :
  let out := create_account env role failed created email password username st in
  differs_at (gen_random_uuid env) st out.1
  ∧ (http_status out.2 ≠ 201 → out.1 = st).
Proof.
  unfold create_account.
  destruct (username_taken _ _ _); [by split; [apply differs_at_refl|]|].
  destruct (negb (supabaseAdmin _)); [by split; [apply differs_at_refl|]|].
  destruct (email_registered _ _); [by split; [apply differs_at_refl|]|].
  rewrite with_retries_3.
  destruct (_ <? 3)%nat; [|by split; [apply differs_at_refl|]].
  pose proof (auth_create_user_differs env email password (Some username)
                (Some role) st) as Hcreate.
  destruct (auth_create_user _ _ _ _ _ _) as [st1 [msg|id]] eqn:Hrun.
  - apply auth_create_user_inl in Hrun as ->. by split; [apply differs_at_refl|].
  - apply auth_create_user_inr in Hrun as (-> & _ & _ & _).
    pose proof (profiles_update_differs env None (gen_random_uuid env) username role
                  (bcrypt_hash env password) st1) as Hupdate.
    destruct (profiles_update _ _ _ _ _ _ _) as [st2 [e|p]]; simpl in *.
    + destruct (user_profiles st2 !! _); simpl;
        (split; [by eapply differs_at_trans|done]).
    + split; [by eapply differs_at_trans|done].
Qed.

(** X18.  The three registration endpoints are all or nothing: an answer
    other than 201 leaves the store exactly as it was.  When an account
    is created, nothing is written but the identity and the profile
    stored under the generated id: the identities and profiles of every
    other id, the orders, the notifications, the history and the
    sessions are those of before. *)
Theorem X18_registration_writes env route req st :
  route ∈ registration_routes →
  let out := route env req st in
  (http_status out.2 ≠ 201 → out.1 = st)
  ∧ sessions out.1 = sessions st ∧ orders out.1 = orders st
  ∧ notifications out.1 = notifications st
  ∧ order_history out.1 = order_history st
  ∧ ∀ j, j ≠ gen_random_uuid env →
      auth_users out.1 !! j = auth_users st !! j
      ∧ user_profiles out.1 !! j = user_profiles st !! j.
Proof.
  intros Hroute out.
  cut (differs_at (gen_random_uuid env) st out.1
       ∧ (http_status out.2 ≠ 201 → out.1 = st)).
  { intros [(? & ? & ? & ? & ?) ?]. done. }
  subst out. revert Hroute.
  unfold registration_routes. rewrite !elem_of_cons, elem_of_nil.
  intros [->|[->|[->|[]]]].
  - unfold register.
    destruct (truthy_str (body req !! "email")) as [email|];
      [|by split; [apply differs_at_refl|]].
    destruct (truthy_str (body req !! "password")) as [password|];
      [|by split; [apply differs_at_refl|]].
    destruct (truthy_str (body req !! "username")) as [username|];
      [|by split; [apply differs_at_refl|]].
    destruct (String.length password <? 6)%nat; [by split; [apply differs_at_refl|]|].
    destruct (username_taken _ _ _); [by split; [apply differs_at_refl|]|].
    destruct (0 <? _)%nat; [by split; [apply differs_at_refl|]|].
    pose proof (auth_create_user_differs env email password (Some username)
                  (Some "viewer") st) as Hcreate.
    destruct (auth_create_user _ _ _ _ _ _) as [st1 [msg|id]] eqn:Hrun.
    + apply auth_create_user_inl in Hrun as ->. by split; [apply differs_at_refl|].
    + apply auth_create_user_inr in Hrun as (-> & _ & _ & _). simpl in *.
      split; [|done].
      destruct (anon_update_applies env); [|done].
      eapply differs_at_trans; [done|apply profiles_update_differs].
  - unfold register_admin.
    destruct (truthy_str (body req !! "email")) as [email|];
      [|by split; [apply differs_at_refl|]].
    destruct (truthy_str (body req !! "password")) as [password|];
      [|by split; [apply differs_at_refl|]].
    destruct (truthy_str (body req !! "username")) as [username|];
      [|by split; [apply differs_at_refl|]].
    destruct (String.length password <? 6)%nat; [by split; [apply differs_at_refl|]|].
    apply create_account_writes.
  - unfold create_viewer.
    destruct (truthy_str (body req !! "username")) as [username|];
      [|by split; [apply differs_at_refl|]].
    destruct (truthy_str (body req !! "password")) as [password|];
      [|by split; [apply differs_at_refl|]].
    destruct (truthy_str (body req !! "email")) as [email|];
      [|by split; [apply differs_at_refl|]].
    destruct (negb (emailRegex_test email)); [by split; [apply differs_at_refl|]|].
    destruct (String.length password <? 6)%nat; [by split; [apply differs_at_refl|]|].
    apply create_account_writes.
Qed.

(** X18 on the sample store: zed registers; the profile of alice is the
    one of before. *)
Lemma X18_witness :
  user_profiles (register sample_env req_register sample_store).1 !! alice_id
  = Some (sample_profile "alice" "admin").
Proof.
  destruct (X18_registration_writes sample_env register req_register sample_store)
    as (_ & _ & _ & _ & _ & Hothers).
  { apply list_elem_of_here. }
  destruct (Hothers alice_id) as [_ ->]; [discriminate|reflexivity].
Defined.

(** ** The usernames stay unique *)

Lemma profiles_constraints_None id r (t : gmap string Profiles.row) :
  profiles_constraints id r t = None ↔
  ∃ n ro, Profiles.username r = Some n ∧ Profiles.role r = Some ro
          ∧ ro ∈ profile_roles
          ∧ ∀ j q, t !! j = Some q → Profiles.username q = Some n → j = id.
Proof.
  unfold profiles_constraints. split.
  - destruct (Profiles.username r) as [n|]; [|done].
    destruct (Profiles.role r) as [ro|]; [|done].
    case_bool_decide as Hro; [|done]. simpl.
    case_bool_decide as Hex; [done|]. intros _.
    exists n, ro. do 3 (split; [done|]). intros j q Hj Hn.
    destruct (decide (j = id)) as [|Hne]; [done|].
    exfalso. apply Hex. apply map_Exists_lookup. by exists j, q.
  - intros (n & ro & -> & -> & Hro & Huniq).
    rewrite (bool_decide_eq_true_2 _ Hro). simpl.
    rewrite bool_decide_eq_false_2; [done|].
    intros (j & q & Hj & Hne & Hn)%map_Exists_lookup.
    by apply Hne, (Huniq j q).
Qed.

Lemma profiles_valid_insert (t : gmap string Profiles.row) id NEW :
  (∀ i p, t !! i = Some p → profiles_constraints i p t = None) →
  profiles_constraints id NEW t = None →
  ∀ i p, <[id := NEW]> t !! i = Some p →
         profiles_constraints i p (<[id := NEW]> t) = None.
Proof.
  intros Hvalid Hnew i p Hi.
  apply profiles_constraints_None in Hnew as (n & ro & Hn & Hro & Hin & Huniq).
  apply profiles_constraints_None.
  apply lookup_insert_Some in Hi as [[<- <-]|[Hne Hi]].
  - exists n, ro. do 3 (split; [done|]). intros j q Hj Hq.
    apply lookup_insert_Some in Hj as [[<- _]|[_ Hj]]; [done|].
    by apply (Huniq j q).
  - destruct (proj1 (profiles_constraints_None _ _ _) (Hvalid _ _ Hi))
      as (n' & ro' & Hn' & Hro' & Hin' & Huniq').
    exists n', ro'. do 3 (split; [done|]). intros j q Hj Hq.
    apply lookup_insert_Some in Hj as [[<- <-]|[_ Hj]].
    + exfalso. apply Hne. symmetry. apply (Huniq i p Hi). congruence.
    + by apply (Huniq' j q).
Qed.

Lemma profiles_valid_delete (t : gmap string Profiles.row) id :
  (∀ i p, t !! i = Some p → profiles_constraints i p t = None) →
  ∀ i p, delete id t !! i = Some p → profiles_constraints i p (delete id t) = None.
Proof.
  intros Hvalid i p Hi. apply lookup_delete_Some in Hi as [_ Hi].
  destruct (proj1 (profiles_constraints_None _ _ _) (Hvalid _ _ Hi))
    as (n & ro & Hn & Hro & Hin & Huniq).
  apply profiles_constraints_None.
  exists n, ro. do 3 (split; [done|]). intros j q Hj Hq.
  apply lookup_delete_Some in Hj as [_ Hj]. by apply (Huniq j q).
Qed.

Lemma profiles_update_valid env uid id username role hash st :
  profiles_valid st →
  profiles_valid (profiles_update env uid id username role hash st).1.
Proof.
  intros Hvalid. unfold profiles_update.
  repeat case_match; simpl; try done.
  all: unfold profiles_valid; simpl; by apply profiles_valid_insert.
Qed.

Lemma profiles_update_username_valid env uid id username st :
  profiles_valid st →
  profiles_valid (profiles_update_username env uid id username st).1.
Proof.
  intros Hvalid. unfold profiles_update_username.
  repeat case_match; simpl; try done.
  all: unfold profiles_valid; simpl; by apply profiles_valid_insert.
Qed.

Lemma auth_create_user_valid env email password mu mr st :
  profiles_valid st →
  profiles_valid (auth_create_user env email password mu mr st).1.
Proof.
  intros Hvalid. unfold auth_create_user.
  repeat case_match; simpl; try done.
  all: unfold profiles_valid; simpl; by apply profiles_valid_insert.
Qed.

Lemma create_account_valid env role failed created email password username st :
  profiles_valid st →
  profiles_valid
    (create_account env role failed created email password username st).1.
Proof.
  intros Hvalid. unfold create_account.
  destruct (username_taken _ _ _); [done|].
  destruct (negb (supabaseAdmin _)); [done|].
  destruct (email_registered _ _); [done|].
  rewrite with_retries_3. destruct (_ <? 3)%nat; [|done].
  pose proof (auth_create_user_valid env email password (Some username)
                (Some role) st Hvalid) as Hcreate.
  destruct (auth_create_user _ _ _ _ _ _) as [st1 [msg|id]]; [done|].
  pose proof (profiles_update_valid env None id username role
                (bcrypt_hash env password) st1 Hcreate) as Hupdate.
  destruct (profiles_update _ _ _ _ _ _ _) as [st2 [e|p]]; simpl in *; [|done].
  by destruct (user_profiles st2 !! id).
Qed.

(** X19.  The routes that write user_profiles keep the table within its
    declaration.  On a store where every profile has a username of its
    own and one of the two roles, so it is after any request to POST
    /api/auth/register, /register-admin and /create-viewer, PUT
    /api/auth/viewers/:id, PUT /api/auth/profile and DELETE
    /api/auth/viewers/:id; in particular two profiles of the store they
    leave never share a username. *)
Theorem X19_usernames_stay_unique env req st :
  profiles_valid st →
  (∀ route, route ∈ registration_routes → profiles_valid (route env req st).1)
  ∧ (∀ handler user, handler ∈ profile_handlers →
       let st' := (handler env user req st).1 in
       profiles_valid st'
       ∧ ∀ i j p q, user_profiles st' !! i = Some p → user_profiles st' !! j = Some q →
                    Profiles.username p = Profiles.username q → i = j).
Proof.
  intros Hvalid. split.
  - intros route. unfold registration_routes. rewrite !elem_of_cons, elem_of_nil.
    intros [->|[->|[->|[]]]].
    + unfold register. repeat case_match; simpl; try done.
      all: match goal with
           | H : auth_create_user ?e ?m ?p ?u ?r ?s = _ |- _ =>
               pose proof (auth_create_user_valid e m p u r s Hvalid) as Hcreate;
               rewrite H in Hcreate
           end; try done.
      by apply profiles_update_valid.
    + unfold register_admin. repeat case_match; try done.
      all: by apply create_account_valid.
    + unfold create_viewer. repeat case_match; try done.
      all: by apply create_account_valid.
  - intros handler user Hhandler st'.
    assert (Hst' : profiles_valid st').
    { subst st'. revert Hhandler.
      unfold profile_handlers. rewrite !elem_of_cons, elem_of_nil.
      intros [->|[->|[->|[]]]].
      - unfold put_viewer. repeat case_match; simpl; try done.
        all: match goal with
             | H : profiles_update_username ?e ?u ?i ?n ?s = _ |- _ =>
                 pose proof (profiles_update_username_valid e u i n s Hvalid) as Hu;
                 by rewrite H in Hu
             end.
      - unfold put_profile. repeat case_match; simpl; try done.
        all: match goal with
             | H : profiles_update_username ?e ?u ?i ?n ?s = _ |- _ =>
                 pose proof (profiles_update_username_valid e u i n s Hvalid) as Hu;
                 by rewrite H in Hu
             end.
      - unfold delete_viewer, auth_admin_deleteUser.
        repeat (case_match; simplify_eq/=); try done.
        unfold profiles_valid. simpl. by apply profiles_valid_delete. }
    split; [done|]. intros i j p q Hi Hj Hpq.
    destruct (proj1 (profiles_constraints_None _ _ _) (Hst' _ _ Hi))
      as (n & ro & Hn & _ & _ & Huniq).
    symmetry. apply (Huniq j q Hj). congruence.
Qed.

Lemma sample_store_profiles_valid : profiles_valid sample_store.
Proof.
  apply (bool_decide_unpack
    (map_Forall (λ i p,
       profiles_constraints i p (user_profiles sample_store) = None)
       (user_profiles sample_store))).
  vm_compute. exact I.
Defined.

(** X19 on the sample store: alice may not take the name of bob for
    vera, and the usernames stay apart. *)
Lemma X19_witness :
  profiles_valid
    (put_viewer sample_env (Some alice) (req_rename "token-alice" vera_id "bob")
       sample_store).1.
Proof.
  destruct (X19_usernames_stay_unique sample_env
              (req_rename "token-alice" vera_id "bob") sample_store
              sample_store_profiles_valid) as [_ Hhandlers].
  destruct (Hhandlers put_viewer (Some alice)) as [Hvalid _].
  - apply list_elem_of_here.
  - exact Hvalid.
Defined.

(** ** Deleting an identity *)

Lemma orders_on_delete_user_eq env id o :
  orders_on_delete_user env id o
  = if bool_decide (Orders.created_by o = Some id) then unassigned env o else o.
Proof.
  unfold orders_on_delete_user, unassigned, orders_before_update, is_distinct_from.
  case_bool_decide; [|done]. simpl. by rewrite bool_decide_eq_true_2.
Qed.

Lemma delete_viewer_inv env user req st st' r :
  delete_viewer env user req st = (st', r) →
  (reply_status r ≠ 200 ∧ st' = st)
  ∨ (reply_status r = 200
     ∧ supabaseAdmin env = true
     ∧ uuid_in env (params_id req) = true
     ∧ is_Some (auth_users st !! params_id req)
     ∧ st' = {| sessions := sessions st;
                auth_users := delete (params_id req) (auth_users st);
                user_profiles := delete (params_id req) (user_profiles st);
                orders := orders_on_delete_user env (params_id req) <$> orders st;
                notifications :=
                  filter (λ n, Notifications.user_id n ≠ Some (params_id req))
                    (notifications st);
                order_history :=
                  history_on_delete_user (params_id req) <$> order_history st |}).
Proof.
  unfold delete_viewer, auth_admin_deleteUser. intros H.
  destruct (supabaseAdmin env); simpl in H; [|left; by simplify_eq].
  destruct (uuid_in env (params_id req)); simpl in H; [|left; by simplify_eq].
  destruct (auth_users st !! params_id req) eqn:Hu; [|left; by simplify_eq].
  right. by simplify_eq.
Qed.

(** X20.  DELETE /api/auth/viewers/:id, when it answers 200, removes the
    identity and its profile, whatever their role, and leaves no row that
    refers to the id: the notifications addressed to it are gone, and no
    order or history record names it.  No order and no history record is
    lost: an order the identity had created is kept with its creator
    cleared and its update time set, every other order is as it was.  An
    answer other than 200 leaves the store as it was. *)
Theorem X20_delete_viewer_cascade env user req st st' r :
  delete_viewer env user req st = (st', r) →
  let id := params_id req in
  (reply_status r ≠ 200 → st' = st)
  ∧ (reply_status r = 200 →
     is_Some (auth_users st !! id)
     ∧ auth_users st' !! id = None ∧ user_profiles st' !! id = None
     ∧ (∀ n, n ∈ notifications st' ↔
             n ∈ notifications st ∧ Notifications.user_id n ≠ Some id)
     ∧ (∀ j o', orders st' !! j = Some o' → Orders.created_by o' ≠ Some id)
     ∧ (∀ j h', order_history st' !! j = Some h' → History.user_id h' ≠ Some id)
     ∧ (∀ j o, orders st !! j = Some o →
          orders st' !! j
          = Some (if bool_decide (Orders.created_by o = Some id)
                  then unassigned env o else o))
     ∧ (∀ j, is_Some (order_history st' !! j) ↔ is_Some (order_history st !! j))
     ∧ (∀ j, j ≠ id → auth_users st' !! j = auth_users st !! j
                      ∧ user_profiles st' !! j = user_profiles st !! j)).
Proof.
  intros H id. apply delete_viewer_inv in H as [[Hr ->]|(Hr & _ & _ & Hu & ->)].
  { by split. }
  split; [done|]. intros _. simpl. fold id.
  split; [done|]. split; [apply lookup_delete_eq|].
  split; [apply lookup_delete_eq|].
  split; [intros n; rewrite list_elem_of_filter; tauto|].
  split.
  { intros j o'. rewrite lookup_fmap.
    destruct (orders st !! j) as [o|]; [|done]. simpl. intros [= <-].
    rewrite orders_on_delete_user_eq. by case_bool_decide. }
  split.
  { intros j h'. rewrite lookup_fmap.
    destruct (order_history st !! j) as [h|]; [|done]. simpl. intros [= <-].
    unfold history_on_delete_user. by case_bool_decide. }
  split.
  { intros j o Hj. by rewrite lookup_fmap, Hj, <- orders_on_delete_user_eq. }
  split.
  { intros j. rewrite lookup_fmap. apply fmap_is_Some. }
  intros j Hj. by rewrite !lookup_delete_ne.
Qed.

(** X20 on the sample store: alice is deleted and order 1, which she had
    created, stays, with no creator. *)
Lemma X20_witness :
  orders (delete_viewer sample_env (Some alice) (req_get "token-alice" alice_id)
            sample_store).1 !! order1_id
  = Some (unassigned sample_env sample_order).
Proof.
  destruct (X20_delete_viewer_cascade sample_env (Some alice)
              (req_get "token-alice" alice_id) sample_store
              (delete_viewer sample_env (Some alice) (req_get "token-alice" alice_id)
                 sample_store).1
              (reply 200 (Plain (MessageJson "Viewer deleted successfully"))))
    as [_ Hdone].
  - vm_compute. reflexivity.
  - destruct (Hdone eq_refl) as (_ & _ & _ & _ & _ & _ & Horders & _).
    rewrite (Horders order1_id sample_order eq_refl). reflexivity.
Defined.

(** X21.  Once DELETE /api/auth/viewers/:id has answered 200, the tokens
    issued to the deleted identity are refused by [authenticate] with
    401 "Invalid or expired token", and the same DELETE sent again is
    answered 400 "User not found" and changes nothing. *)
Theorem X21_deleted_identity_locked_out env user req st st' r req' h :
  delete_viewer env user req st = (st', r) →
  reply_status r = 200 →
  authorization req' = Some h →
  prefix "Bearer " h = true →
  sessions st !! bearer_token h = Some (params_id req) →
  authenticate env req' st' = inl invalid_token
  ∧ delete_viewer env user req st' = (st', reply_error 400 "User not found" None).
Proof.
  intros H Hr Hh Hprefix Hsession.
  apply delete_viewer_inv in H as [[Hne _]|(_ & Hcfg & Huuid & _ & ->)]; [done|].
  split.
  - unfold authenticate, auth_getUser. rewrite Hh, Hprefix. simpl.
    fold (bearer_token h). rewrite Hsession. simpl.
    by rewrite lookup_delete_eq.
  - unfold delete_viewer, auth_admin_deleteUser. rewrite Hcfg, Huuid. simpl.
    by rewrite lookup_delete_eq.
Qed.

(** X21 on the sample store: vera is deleted, and her token is worth
    nothing. *)
Lemma X21_witness :
  authenticate sample_env (req_get "token-vera" order1_id)
    (delete_viewer sample_env (Some alice) (req_get "token-alice" vera_id)
       sample_store).1
  = inl invalid_token.
Proof.
  destruct (X21_deleted_identity_locked_out sample_env (Some alice)
              (req_get "token-alice" vera_id) sample_store
              (delete_viewer sample_env (Some alice) (req_get "token-alice" vera_id)
                 sample_store).1
              (reply 200 (Plain (MessageJson "Viewer deleted successfully")))
              (req_get "token-vera" order1_id) "Bearer token-vera")
    as [Hauth _].
  - vm_compute. reflexivity.
  - reflexivity.
  - reflexivity.
  - reflexivity.
  - vm_compute. reflexivity.
  - exact Hauth.
Defined.

(** ** Renaming a profile *)

Lemma profiles_update_username_inv env uid id n st st' res :
  profiles_update_username env uid id n st = (st', res) →
  (st' = st ∧ ∃ e, res = inl e
   ∧ (user_profiles st !! id = None → uuid_in env id = true → e = err_no_rows))
  ∨ (∃ OLD, user_profiles st !! id = Some OLD
            ∧ uuid_in env id = true
            ∧ profiles_constraints id (renamed env n OLD) (user_profiles st) = None
            ∧ res = inr (renamed env n OLD)
            ∧ st' = with_users (auth_users st)
                      (<[id := renamed env n OLD]> (user_profiles st)) st).
Proof.
  unfold profiles_update_username, is_distinct_from. intros H.
  destruct (uuid_in env id); simpl in H;
    [|left; simplify_eq; split; [done|]; by eexists].
  destruct (user_profiles st !! id) as [OLD|] eqn:Hold;
    [|left; simplify_eq; split; [done|]; by eexists].
  simpl in H. rewrite bool_decide_eq_true_2 in H by done. simpl in H.
  fold (renamed env n OLD) in H.
  destruct (profiles_constraints id (renamed env n OLD) (user_profiles st)) eqn:Hc.
  - left. simplify_eq. split; [done|]. by eexists.
  - right. simplify_eq. by exists OLD.
Qed.

Lemma roles_after_rename env n id OLD (t : gmap string Profiles.row) i :
  t !! id = Some OLD →
  Profiles.role <$> <[id := renamed env n OLD]> t !! i = Profiles.role <$> t !! i.
Proof.
  intros Hold. destruct (decide (i = id)) as [->|Hne].
  - by rewrite lookup_insert_eq, Hold.
  - by rewrite lookup_insert_ne.
Qed.

(** X22.  PUT /api/auth/viewers/:id and PUT /api/auth/profile change no
    role: after either, every profile has the role it had, and the
    identities are untouched.  The first writes no profile but the one
    of the id in the path, the second none but the caller's own.  A
    [role] in the body is not read. *)
Theorem X22_profile_updates_keep_roles env user req st :
  let viewer := (put_viewer env user req st).1 in
  let own := (put_profile env user req st).1 in
  (∀ i, Profiles.role <$> user_profiles viewer !! i
        = Profiles.role <$> user_profiles st !! i)
  ∧ (∀ i, Profiles.role <$> user_profiles own !! i
          = Profiles.role <$> user_profiles st !! i)
  ∧ (∀ i, i ≠ params_id req → user_profiles viewer !! i = user_profiles st !! i)
  ∧ (∀ i, Some i ≠ ReqUser.id <$> user → user_profiles own !! i = user_profiles st !! i)
  ∧ auth_users viewer = auth_users st ∧ auth_users own = auth_users st
  ∧ (∀ v, put_viewer env user (with_field "role" v req) st = put_viewer env user req st
          ∧ put_profile env user (with_field "role" v req) st
            = put_profile env user req st).
Proof.
  intros viewer own.
  assert (Hviewer :
    (∀ i, Profiles.role <$> user_profiles viewer !! i
          = Profiles.role <$> user_profiles st !! i)
    ∧ (∀ i, i ≠ params_id req → user_profiles viewer !! i = user_profiles st !! i)
    ∧ auth_users viewer = auth_users st).
  { subst viewer. unfold put_viewer.
    destruct (negb (supabaseAdmin env)); [done|].
    destruct (truthy_str (body req !! "username")) as [n|]; [|done].
    destruct (username_of_another _ _ _ _); [done|].
    destruct (profiles_update_username _ _ _ _ _) as [st1 res] eqn:Hrun.
    apply profiles_update_username_inv in Hrun
      as [[-> (e & -> & _)]|(OLD & Hold & _ & _ & -> & ->)]; [done|].
    simpl. split; [|split; [|done]].
    - intros i. by apply roles_after_rename.
    - intros i Hi. by rewrite lookup_insert_ne. }
  assert (Hown :
    (∀ i, Profiles.role <$> user_profiles own !! i
          = Profiles.role <$> user_profiles st !! i)
    ∧ (∀ i, Some i ≠ ReqUser.id <$> user →
            user_profiles own !! i = user_profiles st !! i)
    ∧ auth_users own = auth_users st).
  { subst own. unfold put_profile.
    destruct user as [u|]; [|done].
    destruct (truthy_str (body req !! "username")) as [n|]; [|done].
    destruct (_ && _); [done|].
    destruct (negb (uuid_in _ _)); [done|].
    destruct (negb (anon_update_applies env)); [done|].
    destruct (profiles_update_username _ _ _ _ _) as [st1 res] eqn:Hrun.
    apply profiles_update_username_inv in Hrun
      as [[-> (e & -> & _)]|(OLD & Hold & _ & _ & -> & ->)]; [done|].
    simpl. split; [|split; [|done]].
    - intros i. by apply roles_after_rename.
    - intros i Hi. rewrite lookup_insert_ne; [done|]. by intros <-. }
  destruct Hviewer as (? & ? & ?), Hown as (? & ? & ?).
  do 6 (split; [done|]).
  intros v. unfold put_viewer, put_profile, with_field. simpl.
  by rewrite !lookup_insert_ne by done.
Qed.

(** X22 on the sample store: alice renames vera and sends a role along;
    vera is a viewer still. *)
Lemma X22_witness :
  Profiles.role <$>
    user_profiles
      (put_viewer sample_env (Some alice)
         (with_field "role" (JStr "admin") (req_rename "token-alice" vera_id "vee"))
         sample_store).1 !! vera_id
  = Some (Some "viewer").
Proof.
  destruct (X22_profile_updates_keep_roles sample_env (Some alice)
              (with_field "role" (JStr "admin")
                 (req_rename "token-alice" vera_id "vee")) sample_store)
    as (Hroles & _).
  rewrite Hroles. reflexivity.
Defined.

Lemma NoDup_all_equal {A} (x : A) (l : list A) :
  NoDup l → (∀ y, y ∈ l → y = x) → x ∈ l → List.length l = 1.
Proof.
  intros Hnd Hall Hin. destruct l as [|a [|b l]].
  - by apply elem_of_nil in Hin.
  - done.
  - exfalso. apply NoDup_cons in Hnd as [Ha _]. apply Ha.
    rewrite (Hall a) by apply list_elem_of_here.
    rewrite <- (Hall b) at 1 by apply list_elem_of_further, list_elem_of_here.
    apply list_elem_of_here.
Qed.

Lemma elem_of_others_named id n (t : gmap string Profiles.row) j p :
  (j, p) ∈ others_named id n t ↔
  j ≠ id ∧ t !! j = Some p ∧ Profiles.username p = Some n.
Proof.
  unfold others_named. rewrite list_elem_of_filter, elem_of_map_to_list. simpl.
  tauto.
Qed.

Lemma others_named_one id n (t : gmap string Profiles.row) :
  (∀ i p, t !! i = Some p → profiles_constraints i p t = None) →
  List.length (others_named id n t) = 1 ↔
  ∃ j p, j ≠ id ∧ t !! j = Some p ∧ Profiles.username p = Some n.
Proof.
  intros Hvalid. split.
  - intros Hlen. destruct (others_named id n t) as [|[j p] l] eqn:Hl; [done|].
    exists j, p. apply elem_of_others_named. rewrite Hl. apply list_elem_of_here.
  - intros (j & p & Hne & Hj & Hn).
    apply (NoDup_all_equal (j, p)).
    + apply NoDup_filter, NoDup_map_to_list.
    + intros [j' p'] (Hne' & Hj' & Hn')%elem_of_others_named.
      destruct (proj1 (profiles_constraints_None _ _ _) (Hvalid _ _ Hj))
        as (m & _ & Hm & _ & _ & Huniq).
      assert (j' = j) as -> by (apply (Huniq j' p' Hj'); congruence).
      congruence.
    + by apply elem_of_others_named.
Qed.

(** X23.  PUT /api/auth/viewers/:id with a username, the admin client
    configured and the id a uuid, on a store whose usernames are unique:
    when a profile of another id has the username, the answer is 400
    "Username already taken" and nothing is written.  When none has, and
    the id has a profile, the answer is 200 and the profile is stored
    with the new username, its role, password hash and creation time
    kept and its update time set; when the id has no profile, the answer
    is a 400 and nothing is written. *)
Theorem X23_put_viewer_rename env user req st n :
  supabaseAdmin env = true →
  uuid_in env (params_id req) = true →
  truthy_str (body req !! "username") = Some n →
  profiles_valid st →
  let id := params_id req in
  ((∃ j p, j ≠ id ∧ user_profiles st !! j = Some p ∧ Profiles.username p = Some n) →
     put_viewer env user req st
     = (st, reply_error 400 "Username already taken" None))
  ∧ ((∀ j p, user_profiles st !! j = Some p → Profiles.username p = Some n → j = id) →
     match user_profiles st !! id with
     | Some OLD =>
         put_viewer env user req st
         = (with_users (auth_users st)
              (<[id := renamed env n OLD]> (user_profiles st)) st,
            reply 200
              (ViewerUpdatedJson "Viewer updated successfully"
                 {| vj_id := id; vj_username := Some n;
                    vj_role := Profiles.role OLD; vj_status := "active";
                    vj_created_at := Profiles.created_at OLD;
                    vj_updated_at := NOW env |}))
     | None =>
         put_viewer env user req st = (st, reply_error 400 (message err_no_rows) None)
     end).
Proof.
  intros Hcfg Huuid Hn Hvalid id. subst id.
  unfold put_viewer, username_of_another.
  rewrite Hcfg, Hn, Huuid. simpl. split.
  - intros Hother. by rewrite bool_decide_eq_true_2 by (by apply others_named_one).
  - intros Hnone. rewrite bool_decide_eq_false_2.
    2:{ rewrite others_named_one by done. intros (j & p & Hne & Hj & Hp).
        by apply Hne, (Hnone j p). }
    unfold profiles_update_username, is_distinct_from. rewrite Huuid. simpl.
    destruct (user_profiles st !! params_id req) as [OLD|] eqn:Hold; [|done].
    simpl. rewrite bool_decide_eq_true_2 by done. simpl.
    fold (renamed env n OLD).
    destruct (proj1 (profiles_constraints_None _ _ _) (Hvalid _ _ Hold))
      as (m & ro & _ & Hro & Hin & _).
    rewrite (proj2 (profiles_constraints_None (params_id req) (renamed env n OLD) (user_profiles st)));
      [done|].
    by exists n, ro.
Qed.

(** X23 on the sample store: vera cannot be renamed to bob, and can be
    renamed to vee. *)
Lemma X23_witness :
  put_viewer sample_env (Some alice) (req_rename "token-alice" vera_id "bob")
    sample_store
  = (sample_store, reply_error 400 "Username already taken" None).
Proof.
  destruct (X23_put_viewer_rename sample_env (Some alice)
              (req_rename "token-alice" vera_id "bob") sample_store "bob"
              eq_refl eq_refl eq_refl sample_store_profiles_valid) as [Htaken _].
  apply Htaken. exists bob_id, (sample_profile "bob" "admin").
  split; [discriminate|]. split; reflexivity.
Defined.

(** ** The trigger prevent_role_change *)

(** X27.  An update of a profile is refused with "Users cannot change
    their own role" exactly when it changes the role, is run by the
    owner of the profile, and that owner is not an admin.  Run with the
    service role, or by an owner who is an admin, a change of role is not
    stopped by the trigger. *)
Theorem X27_own_role_change_refused env uid id username role hash st OLD :
  uuid_in env id = true →
  user_profiles st !! id = Some OLD →
  (profiles_update env uid id username role hash st = (st, inl role_change_refused)
   ↔ Profiles.role OLD ≠ Some role ∧ uid = Some id
     ∧ Profiles.role OLD ≠ Some "admin")
  ∧ ∀ e, (profiles_update env uid id username role hash st).2 = inl e →
         code e = "P0001" → e = role_change_refused.
Proof.
  intros Huuid Hold.
  unfold profiles_update, prevent_role_change, is_distinct_from, role_change_refused.
  rewrite Huuid, Hold. simpl.
  destruct (decide (Profiles.role OLD = Some role)) as [Hsame|Hchg].
  - rewrite !bool_decide_eq_true_2 by done. simpl.
    split; [split; [|tauto]|].
    + destruct (profiles_constraints _ _ _) as [e|] eqn:Hc; [|done].
      intros [= ->]. unfold profiles_constraints in Hc. simpl in Hc.
      by repeat (case_match; simplify_eq/=).
    + intros e. destruct (profiles_constraints _ _ _) as [e'|] eqn:Hc; [|done].
      simpl. intros [= ->]. unfold profiles_constraints in Hc. simpl in Hc.
      by repeat (case_match; simplify_eq/=).
  - rewrite !bool_decide_eq_false_2 by done. simpl.
    destruct (decide (uid = Some id)) as [->|Hother].
    + rewrite Hold, (bool_decide_eq_true_2 (Some id = Some id)) by done.
      destruct (Profiles.role OLD) as [r0|] eqn:Hr0; simpl.
      * case_bool_decide as Hadmin; simpl.
        -- subst r0. split; [split; [|tauto]|].
           ++ destruct (profiles_constraints _ _ _) as [e|] eqn:Hc; [|done].
              intros [= ->]. unfold profiles_constraints in Hc. simpl in Hc.
              by repeat (case_match; simplify_eq/=).
           ++ intros e. destruct (profiles_constraints _ _ _) as [e'|] eqn:Hc; [|done].
              simpl. intros [= ->]. unfold profiles_constraints in Hc. simpl in Hc.
              by repeat (case_match; simplify_eq/=).
        -- split; [|by intros e [= <-]].
           split; [intros _|done]. split; [done|]. split; [done|congruence].
      * split; [|by intros e [= <-]].
        split; [intros _|done]. done.
    + rewrite (bool_decide_eq_false_2 (uid = Some id)) by done.
      destruct (sql_holds _); simpl.
      all: split; [split; [|tauto]|].
      all: try (destruct (profiles_constraints _ _ _) as [e|] eqn:Hc; [|done];
                intros [= ->]; unfold profiles_constraints in Hc; simpl in Hc;
                by repeat (case_match; simplify_eq/=)).
      all: intros e; destruct (profiles_constraints _ _ _) as [e'|] eqn:Hc; [|done];
           simpl; intros [= ->]; unfold profiles_constraints in Hc; simpl in Hc;
           by repeat (case_match; simplify_eq/=).
Qed.

(** X27 on the sample store: vera, signed in, may not make herself an
    admin. *)
Lemma X27_witness :
  profiles_update sample_env (Some vera_id) vera_id "vera" "admin" "hash" sample_store
  = (sample_store, inl role_change_refused).
Proof.
  destruct (X27_own_role_change_refused sample_env (Some vera_id) vera_id
              "vera" "admin" "hash" sample_store (sample_profile "vera" "viewer")
              eq_refl eq_refl) as [Hiff _].
  apply Hiff. split; [discriminate|]. split; [reflexivity|discriminate].
Defined.

(** ** The fetch of the admin client *)

Lemma admin_fetch_ended_at fetch k :
  (k < 3)%nat → retried_before fetch k → final_attempt fetch k →
  admin_fetch fetch = ended_at fetch k.
Proof.
  intros Hk Hbefore Hfinal.
  unfold admin_fetch, ended_at, final_attempt in *.
  destruct k as [|[|[|k]]]; [| | |lia].
  - simpl. destruct (fetch 0) as [r|e]; [done|].
    destruct Hfinal as [->|]; done.
  - destruct (Hbefore 0) as (e0 & H0 & Hn0); [lia|].
    simpl. rewrite H0, Hn0. simpl.
    destruct (fetch 1) as [r|e]; [done|].
    destruct Hfinal as [->|]; done.
  - destruct (Hbefore 0) as (e0 & H0 & Hn0); [lia|].
    destruct (Hbefore 1) as (e1 & H1 & Hn1); [lia|].
    simpl. rewrite H0, Hn0. simpl. rewrite H1, Hn1. simpl.
    by destruct (fetch 2) as [r|e].
Qed.

Lemma admin_fetch_ends fetch :
  ∃ k, (k < 3)%nat ∧ retried_before fetch k ∧ final_attempt fetch k.
Proof.
  unfold retried_before, final_attempt.
  destruct (fetch 0) as [r0|e0] eqn:H0.
  { exists 0. rewrite H0. split; [lia|]. split; [|done]. intros j Hj. lia. }
  destruct (is_network_error e0) eqn:Hn0.
  2:{ exists 0. rewrite H0. split; [lia|]. split; [|by left]. intros j Hj. lia. }
  destruct (fetch 1) as [r1|e1] eqn:H1.
  { exists 1. rewrite H1. split; [lia|]. split; [|done].
    intros j Hj. assert (j = 0) as -> by lia. by exists e0. }
  destruct (is_network_error e1) eqn:Hn1.
  2:{ exists 1. rewrite H1. split; [lia|]. split; [|by left].
      intros j Hj. assert (j = 0) as -> by lia. by exists e0. }
  exists 2. split; [lia|]. split.
  - intros j Hj. destruct j as [|[|j]]; [by exists e0|by exists e1|lia].
  - destruct (fetch 2); [done|by right].
Qed.

(** X24.  The fetch of the admin client calls the underlying fetch
    once, twice or three times and hands on what the last call did, its
    response or its error: the error "Failed to fetch after retries" of
    the last line of the wrapper is never thrown.  Before the second
    call it sleeps 1000 ms, before the third 2000 ms. *)
Theorem X24_admin_fetch_last_call fetch :
  let run := admin_fetch fetch in
  (1 ≤ calls run ≤ 3)%nat
  ∧ outcome run = fetch (calls run - 1)
  ∧ delays run = take (calls run - 1) [1000; 2000].
Proof.
  destruct (admin_fetch_ends fetch) as (k & Hk & Hbefore & Hfinal).
  simpl. rewrite (admin_fetch_ended_at fetch k Hk Hbefore Hfinal).
  unfold ended_at. simpl. rewrite Nat.sub_0_r. split; [lia|done].
Qed.

(** X25.  Which call is the last: the first one that resolves, or that
    rejects with something else than a network error (an AbortError, a
    message containing "fetch", the code ECONNRESET), or the third.  When
    the calls before the call number [k] were lost to the network and
    call [k] is such a call, the wrapper has called fetch [k + 1] times
    and its outcome is the one of call [k]. *)
Theorem X25_admin_fetch_stops fetch k :
  (k < 3)%nat →
  retried_before fetch k →
  final_attempt fetch k →
  admin_fetch fetch = ended_at fetch k.
Proof. apply admin_fetch_ended_at. Qed.

(** X25 for two resets of the connection followed by an answer. *)
Lemma X25_witness :
  admin_fetch third_time
  = {| outcome := Resolves "200 OK"; delays := [1000; 2000]; calls := 3 |}.
Proof.
  rewrite (X25_admin_fetch_stops third_time 2).
  - reflexivity.
  - lia.
  - intros j Hj. exists connection_reset.
    destruct j as [|[|j]]; [by vm_compute|by vm_compute|lia].
  - exact I.
Defined.

(** X26.  The wrapper resolves exactly when one of the first three
    calls resolves and every call before it was lost to the network; a
    rejection that is not a network error is handed on at once, with no
    further call, whatever the later calls would have done. *)
Theorem X26_admin_fetch_resolves fetch :
  (∀ r, outcome (admin_fetch fetch) = Resolves r ↔
        ∃ k, (k < 3)%nat ∧ retried_before fetch k ∧ fetch k = Resolves r)
  ∧ (∀ k e, (k < 3)%nat → retried_before fetch k →
            fetch k = Rejects e → is_network_error e = false →
            outcome (admin_fetch fetch) = Rejects e
            ∧ calls (admin_fetch fetch) = S k).
Proof.
  split.
  - intros r. split.
    + destruct (admin_fetch_ends fetch) as (k & Hk & Hbefore & Hfinal).
      rewrite (admin_fetch_ended_at fetch k Hk Hbefore Hfinal). simpl.
      intros Hr. by exists k.
    + intros (k & Hk & Hbefore & Hr).
      rewrite (admin_fetch_ended_at fetch k Hk Hbefore); [done|].
      unfold final_attempt. by rewrite Hr.
  - intros k e Hk Hbefore He Hn.
    rewrite (admin_fetch_ended_at fetch k Hk Hbefore); [done|].
    unfold final_attempt. rewrite He. by left.
Qed.

(** X26 for a reset of the connection followed by an error of the
    request itself: the third call is not made. *)
Lemma X26_witness :
  calls (admin_fetch (λ k, if (k <? 1)%nat then Rejects connection_reset
                           else Rejects bad_request)) = 2.
Proof.
  destruct (X26_admin_fetch_resolves
              (λ k, if (k <? 1)%nat then Rejects connection_reset
                    else Rejects bad_request)) as [_ Hstop].
  destruct (Hstop 1 bad_request) as [_ Hcalls].
  - lia.
  - intros j Hj. exists connection_reset.
    destruct j as [|j]; [by vm_compute|lia].
  - reflexivity.
  - by vm_compute.
  - exact Hcalls.
Defined.

(** * The claims on the payloads of the order and history routes *)

(** ** C3: the viewer's [completed_at] *)







(** ** C4: creating an order *)

(** C4, as amended.  POST /api/orders from a caller whose role is not
    admin is answered 403.  From an admin, it is answered 400
    "customer_name and order_details are required" when one of the two
    is absent, null or empty.  When both are there (the generated id
    being unused), the request succeeds exactly when the store accepts
    the row: a pickup date, when given, must be a date, and a status,
    when the caller gives one, must be one of the five.  It is then
    answered 201 and the row is stored, with the status incoming unless
    the caller gave one, and no [completed_at].  Otherwise it is
    answered 400 with the error of the store and nothing is stored. *)
Theorem C4_create_order env req st u :
  authenticate env req st = inr u →
  (ReqUser.role u ≠ "admin" → POST_orders env req st = (st, forbidden))
  ∧ (ReqUser.role u = "admin" →
     truthy (body req !! "customer_name") = false
     ∨ truthy (body req !! "order_details") = false →
     POST_orders env req st = (st, order_validation_error))
  ∧ (ReqUser.role u = "admin" →
     truthy (body req !! "customer_name") = true →
     truthy (body req !! "order_details") = true →
     orders st !! gen_random_uuid env = None →
     let order := created_order env u (body req) in
     let status := default "incoming" (truthy_str (body req !! "status")) in
     let pickup_date := truthy_str (body req !! "pickup_date") in
     (fits (date_in env) pickup_date = true →
      status ∈ order_statuses →
      POST_orders env req st
        = (with_orders (<[gen_random_uuid env := order]> (orders st)) st,
           respond 201 (OrderJson "Order created successfully" order))
      ∧ Orders.status order = Some status
      ∧ (truthy (body req !! "status") = false → Orders.status order = Some "incoming")
      ∧ Orders.completed_at order = None)
     ∧ (fits (date_in env) pickup_date = false →
        POST_orders env req st
          = (st, respond 400 (ErrorJson (message err_invalid_datetime) None)))
     ∧ (fits (date_in env) pickup_date = true →
        status ∉ order_statuses →
        POST_orders env req st
          = (st, respond 400 (ErrorJson (message (err_check "orders")) None)))).
Proof.
  intros Hauth.
  destruct (authenticate_identity _ _ _ _ Hauth) as [Hcfg Huser].
  pose proof (authenticate_inr _ _ _ _ Hauth)
    as (_ & _ & _ & _ & _ & _ & _ & _ & Hadmin).
  unfold POST_orders, admin_only. rewrite Hauth. simpl.
  split; [|split].
  - intros Hrole. by rewrite (bool_decide_eq_false_2 _ Hrole).
  - intros Hrole Hmissing. rewrite (bool_decide_eq_true_2 _ Hrole). simpl.
    by destruct Hmissing as [-> | ->]; [|rewrite orb_true_r].
  - intros Hrole Hcn Hod Hfresh.
    set (order := created_order env u (body req)).
    set (status := default "incoming" (truthy_str (body req !! "status"))).
    set (pickup_date := truthy_str (body req !! "pickup_date")).
    destruct (proj1 Hadmin Hrole) as [Huuid _].
    rewrite (bool_decide_eq_true_2 _ Hrole). simpl.
    rewrite Hcn, Hod, Hcfg. simpl.
    destruct (truthy_sql_of _ Hcn) as [Hcn' [cn Hcn'']].
    destruct (truthy_sql_of _ Hod) as [Hod' [od Hod'']].
    unfold orders_insert. simpl. rewrite Huuid. simpl.
    unfold orders_new_row. simpl.
    rewrite Hcn', Hod', !sql_of_or_null, sql_of_or_else.
    fold (created_order env u (body req)). fold order.
    unfold orders_types. simpl. fold pickup_date.
    split; [|split].
    + intros Hdate Hstatus. rewrite Hdate. simpl.
      unfold orders_constraints. simpl. rewrite Hcn'', Hod''. fold status.
      rewrite (bool_decide_eq_true_2 _ Hstatus).
      unfold orders_foreign_keys. simpl.
      rewrite (bool_decide_eq_true_2 _ Huser), Hfresh.
      split; [done|]. split; [done|]. split; [|done].
      intros Hno. subst status.
      destruct (body req !! "status") as [[|s]|]; simpl in *; try done.
      apply negb_false_iff in Hno. by rewrite Hno.
    + intros Hdate. by rewrite Hdate.
    + intros Hdate Hstatus. rewrite Hdate. simpl.
      unfold orders_constraints. simpl. rewrite Hcn'', Hod''. fold status.
      by rewrite (bool_decide_eq_false_2 _ Hstatus).
Qed.

(** C4, as amended, on the sample store: the same body from vera and
    from alice, and alice asking for a status the table does not know. *)
Lemma C4_witness :
  POST_orders sample_env (req_create "token-vera") sample_store
    = (sample_store, forbidden)
  ∧ (POST_orders sample_env (req_create "token-alice") sample_store).2
    = respond 201 (OrderJson "Order created successfully"
        (created_order sample_env alice (body (req_create "token-alice"))))
  ∧ Orders.status (created_order sample_env alice (body (req_create "token-alice")))
    = Some "incoming"
  ∧ http_status (POST_orders sample_env (req_create_shipped "token-alice")
                   sample_store).2 = 400.
Proof.
  assert (Hv : authenticate sample_env (req_create "token-vera") sample_store
               = inr vera) by (vm_compute; reflexivity).
  assert (Ha : authenticate sample_env (req_create "token-alice") sample_store
               = inr alice) by (vm_compute; reflexivity).
  assert (Hs : authenticate sample_env (req_create_shipped "token-alice") sample_store
               = inr alice) by (vm_compute; reflexivity).
  split; [|split; [|split]].
  - apply (C4_create_order _ _ _ _ Hv). discriminate.
  - destruct (C4_create_order _ _ _ _ Ha) as (_ & _ & Hadmin).
    destruct (Hadmin eq_refl eq_refl eq_refl eq_refl) as (Hok & _).
    destruct Hok as (Hpost & _); [reflexivity| |by rewrite Hpost].
    apply (bool_decide_unpack _). vm_compute. exact I.
  - destruct (C4_create_order _ _ _ _ Ha) as (_ & _ & Hadmin).
    destruct (Hadmin eq_refl eq_refl eq_refl eq_refl) as (Hok & _).
    destruct Hok as (_ & _ & Hst & _); [reflexivity| |by apply Hst].
    apply (bool_decide_unpack _). vm_compute. exact I.
  - destruct (C4_create_order _ _ _ _ Hs) as (_ & _ & Hadmin).
    destruct (Hadmin eq_refl eq_refl eq_refl eq_refl) as (_ & _ & Hbad).
    rewrite Hbad; [reflexivity|reflexivity|].
    apply (bool_decide_eq_false_1 _). vm_compute. reflexivity.
Defined.

(** C4, as stated, fails: alice, an admin, gives a customer name and
    order details, and the status shipped; the answer is a 400 and no
    order is stored. *)
Lemma C4_counterexample :
  authenticate sample_env (req_create_shipped "token-alice") sample_store = inr alice
  ∧ ReqUser.role alice = "admin"
  ∧ truthy (body (req_create_shipped "token-alice") !! "customer_name") = true
  ∧ truthy (body (req_create_shipped "token-alice") !! "order_details") = true
  ∧ POST_orders sample_env (req_create_shipped "token-alice") sample_store
    = (sample_store,
       respond 400
         (ErrorJson "new row for relation orders violates check constraint" None)).
Proof.
  split; [vm_compute; reflexivity|]. split; [reflexivity|].
  split; [vm_compute; reflexivity|]. split; [vm_compute; reflexivity|].
  vm_compute. reflexivity.
Qed.

(** ** C8: appending to the history *)

(** C8, as amended.  POST /api/history is answered 400 "order_id and
    event_type are required", the store untouched, when [order_id] or
    [event_type] is missing from the payload (absent, null or empty, what
    the handler's [!] tests), and with that error only then.  When both
    are there, a request of an admin (the generated id being unused)
    creates a record exactly when the store accepts it: [order_id] is
    the id of an order of the store and [event_type] is one of the four.
    The answer is then 201 and the history holds a new record with the
    [order_id], [event_type], [old_status], [new_status] and [note] of
    the payload, NULL for the optional ones it leaves out, and the id of
    the caller.  Otherwise the answer is a 400 with the error of the
    store and nothing is written. *)
Theorem C8_history_append env u req st :
  let b := body req in
  (truthy (b !! "order_id") = false ∨ truthy (b !! "event_type") = false →
     post_history env (Some u) req st = (st, history_validation_error))
  ∧ (truthy (b !! "order_id") = true → truthy (b !! "event_type") = true →
     (post_history env (Some u) req st).2 ≠ history_validation_error)
  ∧ (∀ oid et,
       authenticate env req st = inr u →
       ReqUser.role u = "admin" →
       truthy_str (b !! "order_id") = Some oid →
       truthy_str (b !! "event_type") = Some et →
       order_history st !! gen_random_uuid env = None →
       let record := appended_record env u b in
       let accepted :=
         uuid_in env oid = true ∧ is_Some (orders st !! oid)
         ∧ et ∈ history_event_types in
       (accepted →
        POST_history env req st
          = (with_order_history (<[gen_random_uuid env := record]> (order_history st)) st,
             respond 201 (HistoryJson "History record created successfully" record))
        ∧ record
          = History.mk (gen_random_uuid env) (Some oid) (Some (ReqUser.id u)) (Some et)
              (b !! "old_status" ≫= sql_of) (b !! "new_status" ≫= sql_of)
              (b !! "note" ≫= sql_of) (NOW env))
       ∧ (¬ accepted →
          ∃ e, POST_history env req st
               = (st, respond 400 (ErrorJson (message e) None))
               ∧ e ∈ [err_invalid_uuid; err_check "order_history";
                      err_foreign_key "order_history"])).
Proof.
  intros b. split; [|split].
  - unfold post_history. fold b. by intros [-> | ->]; [|rewrite orb_true_r].
  - unfold post_history. fold b. intros -> ->. simpl.
    destruct (supabaseAdmin env); simpl; [|done].
    destruct (order_history_insert _ _ _) as [st1 [e|r]] eqn:Hins; simpl; [|done].
    apply order_history_insert_message in Hins.
    unfold history_validation_error, respond. congruence.
  - intros oid et Hauth Hrole Hoid Het Hfresh record accepted.
    destruct (authenticate_identity _ _ _ _ Hauth) as [Hcfg Huser].
    pose proof (authenticate_inr _ _ _ _ Hauth)
      as (_ & _ & _ & _ & _ & _ & _ & _ & Hadmin).
    destruct (proj1 Hadmin Hrole) as [Hu2 _].
    assert (Ht1 : truthy (b !! "order_id") = true).
    { destruct (b !! "order_id") as [[|s]|]; simpl in *; try done.
      by case_bool_decide. }
    assert (Ht2 : truthy (b !! "event_type") = true).
    { destruct (b !! "event_type") as [[|s]|]; simpl in *; try done.
      by case_bool_decide. }
    destruct (truthy_sql_of _ Ht1) as [Hs1 _].
    destruct (truthy_sql_of _ Ht2) as [Hs2 _].
    assert (Hrow : ∀ v, sql_of (nullish_null v) = v ≫= sql_of) by (by intros [?|]).
    unfold POST_history, admin_only, post_history. rewrite Hauth. simpl.
    rewrite (bool_decide_eq_true_2 _ Hrole). simpl. fold b.
    rewrite Ht1, Ht2, Hcfg. simpl.
    unfold order_history_insert, order_history_new_row. simpl.
    rewrite Hs1, Hs2, !Hrow.
    fold (appended_record env u b). fold record.
    unfold order_history_constraints, order_history_foreign_keys, record,
      appended_record. simpl.
    rewrite Hoid, Het. simpl. rewrite Hu2, andb_true_r.
    rewrite (bool_decide_eq_true_2 _ Huser), andb_true_r.
    split.
    + intros (Hu1 & Horder & Htype). rewrite Hu1. simpl.
      rewrite (bool_decide_eq_true_2 _ Htype), (bool_decide_eq_true_2 _ Horder).
      by rewrite Hfresh.
    + intros Hno. destruct (uuid_in env oid) eqn:Hu1; simpl.
      2:{ exists err_invalid_uuid. split; [done|]. rewrite !elem_of_cons. auto. }
      case_bool_decide as Htype.
      2:{ exists (err_check "order_history"). split; [done|].
          rewrite !elem_of_cons. auto. }
      case_bool_decide as Horder; [by destruct Hno|].
      exists (err_foreign_key "order_history"). split; [done|].
      rewrite !elem_of_cons. auto.
Qed.

(** C8, as amended, on the sample store: a status change appended by
    alice, a payload without [order_id], and an event type the table
    does not know. *)
Lemma C8_witness :
  (POST_history sample_env req_append sample_store).2
    = respond 201 (HistoryJson "History record created successfully"
        (History.mk (gen_random_uuid sample_env) (Some order1_id) (Some alice_id)
           (Some "status_change") (Some "incoming") (Some "accepted") None
           (NOW sample_env)))
  ∧ post_history sample_env (Some alice)
      (request "token-alice" EmptyString [("event_type", JStr "note")]) sample_store
    = (sample_store, history_validation_error)
  ∧ (POST_history sample_env (req_append_bogus "token-alice") sample_store).1
    = sample_store.
Proof.
  split; [|split].
  - destruct (C8_history_append sample_env alice req_append sample_store)
      as (_ & _ & Happend).
    assert (Ha : authenticate sample_env req_append sample_store = inr alice)
      by (vm_compute; reflexivity).
    destruct (Happend order1_id "status_change" Ha eq_refl eq_refl eq_refl eq_refl)
      as [Hok _].
    destruct Hok as [Hpost Hrec].
    + split; [reflexivity|]. split; [by eexists|].
      apply (bool_decide_unpack _). vm_compute. exact I.
    + rewrite Hpost. reflexivity.
  - apply (C8_history_append sample_env alice
             (request "token-alice" EmptyString [("event_type", JStr "note")])
             sample_store).
    by left.
  - destruct (C8_history_append sample_env alice (req_append_bogus "token-alice")
                sample_store) as (_ & _ & Happend).
    assert (Ha : authenticate sample_env (req_append_bogus "token-alice")
                   sample_store = inr alice) by (vm_compute; reflexivity).
    destruct (Happend order1_id "bogus" Ha eq_refl eq_refl eq_refl eq_refl)
      as [_ Hrefused].
    destruct Hrefused as (e & Hpost & _).
    + intros (_ & _ & Hin).
      by apply (bool_decide_eq_false_1 ("bogus" ∈ history_event_types)) in Hin.
    + rewrite Hpost. reflexivity.
Defined.

(** C8, as stated, fails: alice, an admin, sends the id of the sample
    order and the event type bogus; both fields are there, the answer is
    a 400 and the history has no record. *)
Lemma C8_counterexample :
  authenticate sample_env (req_append_bogus "token-alice") sample_store = inr alice
  ∧ truthy (body (req_append_bogus "token-alice") !! "order_id") = true
  ∧ truthy (body (req_append_bogus "token-alice") !! "event_type") = true
  ∧ POST_history sample_env (req_append_bogus "token-alice") sample_store
    = (sample_store,
       respond 400
         (ErrorJson "new row for relation order_history violates check constraint"
            None))
  ∧ order_history sample_store = ∅.
Proof.
  split; [vm_compute; reflexivity|].
  split; [vm_compute; reflexivity|]. split; [vm_compute; reflexivity|].
  split; [vm_compute; reflexivity|]. reflexivity.
Qed.
